(** * TapVote prediction market: a shallow embedding of
      [backend/src/services/predictionMarket.ts]

    The service is a class of asynchronous methods over a Prisma store.
    Here the store is a record of tables (lists of rows, in storage order),
    reads are functions of the store, writes live in a small state-and-error
    monad, and [new Date()] / [Date.now()] are an explicit [now] argument.

    JavaScript numbers are modelled by [Num.num]: exact rationals for the
    finite values, together with the IEEE 754 specials [Infinity],
    [-Infinity] and [NaN] and their arithmetic.  Finite arithmetic is exact
    (binary64 rounding is not modelled) and there is a single zero, which
    behaves as [+0].  Calls to [logger] are left out. *)

From Stdlib Require Import ZArith QArith Qround Qabs Lqa Lia.
From Stdlib Require Import List String Ascii Bool Permutation.
From Stdlib Require Import Sorting.Sorted.
From Stdlib Require Import DecimalString.
Import ListNotations.

Local Open Scope Q_scope.

(* ================================================================== *)
(** ** JavaScript numbers *)
(* ================================================================== *)

Module Num.

Inductive num : Type :=
| Fin (q : Q)
| PInf
| NInf
| NaN.

Definition of_Z (z : Z) : num := Fin (inject_Z z).
Definition of_nat (n : nat) : num := Fin (inject_Z (Z.of_nat n)).

Definition is_zero (q : Q) : bool := Qeq_bool q 0.
Definition is_pos (q : Q) : bool := negb (Qle_bool q 0).

(** [a + b] *)
Definition add (a b : num) : num :=
match a, b with
| NaN, _ | _, NaN => NaN
| PInf, NInf | NInf, PInf => NaN
| PInf, _ | _, PInf => PInf
| NInf, _ | _, NInf => NInf
| Fin x, Fin y => Fin (x + y)
end.

(** [-a] *)
Definition neg (a : num) : num :=
match a with
| Fin x => Fin (- x)
| PInf => NInf
| NInf => PInf
| NaN => NaN
end.

(** [a - b] *)
Definition sub (a b : num) : num := add a (neg b).

(** The product of an infinity with a finite factor. *)
Definition inf_times (positive : bool) (q : Q) : num :=
if is_zero q then NaN
else if Bool.eqb positive (is_pos q) then PInf else NInf.

(** [a * b] *)
Definition mul (a b : num) : num :=
match a, b with
| NaN, _ | _, NaN => NaN
| Fin x, Fin y => Fin (x * y)
| PInf, Fin y | Fin y, PInf => inf_times true y
| NInf, Fin y | Fin y, NInf => inf_times false y
| PInf, PInf | NInf, NInf => PInf
| PInf, NInf | NInf, PInf => NInf
end.

(** [a / b]; the zero divisor is [+0]. *)
Definition div (a b : num) : num :=
match a, b with
| NaN, _ | _, NaN => NaN
| Fin x, Fin y =>
    if is_zero y then
      if is_zero x then NaN else if is_pos x then PInf else NInf
    else Fin (x / y)
| Fin _, (PInf | NInf) => Fin 0
| (PInf | NInf), (PInf | NInf) => NaN
| PInf, Fin y => if Qle_bool 0 y then PInf else NInf
| NInf, Fin y => if Qle_bool 0 y then NInf else PInf
end.

(** [a < b]; every comparison with [NaN] is false. *)
Definition ltb (a b : num) : bool :=
match a, b with
| NaN, _ | _, NaN => false
| Fin x, Fin y => negb (Qle_bool y x)
| _, NInf => false
| NInf, _ => true
| PInf, _ => false
| Fin _, PInf => true
end.

Definition gtb (a b : num) : bool := ltb b a.

(** [a >= b] *)
Definition geb (a b : num) : bool :=
match a, b with
| NaN, _ | _, NaN => false
| Fin x, Fin y => Qle_bool y x
| PInf, _ => true
| _, NInf => true
| _, _ => false
end.

(** [a === b] on numbers. *)
Definition eqb (a b : num) : bool :=
match a, b with
| Fin x, Fin y => Qeq_bool x y
| PInf, PInf | NInf, NInf => true
| _, _ => false
end.

(** [Math.floor] *)
Definition floor (a : num) : num :=
match a with
| Fin x => Fin (inject_Z (Qfloor x))
| _ => a
end.

(** [Math.round]: the nearest integer, ties towards [+Infinity]. *)
Definition round (a : num) : num :=
match a with
| Fin x => Fin (inject_Z (Qfloor (x + (1 # 2))))
| _ => a
end.

(** [Math.abs] *)
Definition abs (a : num) : num :=
match a with
| Fin x => Fin (Qabs x)
| NaN => NaN
| _ => PInf
end.

(** [Math.min] and [Math.max] of two arguments. *)
Definition min (a b : num) : num :=
match a, b with
| NaN, _ | _, NaN => NaN
| _, _ => if ltb b a then b else a
end.

Definition max (a b : num) : num :=
match a, b with
| NaN, _ | _, NaN => NaN
| _, _ => if ltb a b then b else a
end.

(** [Math.pow(a, 2)] *)
Definition square (a : num) : num := mul a a.

(** The integer a number denotes, when it denotes one: what an [Int]
  column accepts. *)
Definition to_int (a : num) : option Z :=
match a with
| Fin x => if Qeq_bool x (inject_Z (Qfloor x)) then Some (Qfloor x) else None
| _ => None
end.

Definition digits (z : Z) : string :=
NilZero.string_of_uint (N.to_uint (Z.to_N z)).

(** [a.toFixed(1)], for magnitudes below [1e21] (beyond that JavaScript
  switches to exponent notation, which is not reproduced). *)
Definition toFixed1 (a : num) : string :=
match a with
| NaN => "NaN"
| PInf => "Infinity"
| NInf => "-Infinity"
| Fin x =>
    let n := Qfloor (Qabs x * 10 + (1 # 2)) in
    ((if Qle_bool 0 x then "" else "-")
       ++ digits (n / 10) ++ "." ++ digits (n mod 10))%string
end.

(** Equality of the denoted values (rationals up to [==]). *)
Definition same (a b : num) : Prop :=
match a, b with
| Fin x, Fin y => x == y
| PInf, PInf | NInf, NInf | NaN, NaN => True
| _, _ => False
end.

Definition finite (a : num) : Prop :=
match a with Fin _ => True | _ => False end.

End Num.

Abbreviation num := Num.num.
Abbreviation Fin := Num.Fin.
Abbreviation NaN := Num.NaN.
Abbreviation PInf := Num.PInf.
Abbreviation NInf := Num.NInf.

Declare Scope num_scope.
Delimit Scope num_scope with num.
Bind Scope num_scope with Num.num.
Infix "+" := Num.add : num_scope.
Infix "-" := Num.sub : num_scope.
Infix "*" := Num.mul : num_scope.
Infix "/" := Num.div : num_scope.

(** [0] and [1] as numbers. *)
Definition n0 : num := Fin 0.
Definition n1 : num := Fin 1.

(** An integer inside a template literal. *)
Definition show_int (z : Z) : string :=
  if (z <? 0)%Z then ("-" ++ Num.digits (- z))%string else Num.digits z.

(** JavaScript's [a || b] on strings that may be [null]: the empty string
    is falsy. *)
Definition str_or (a : option string) (b : string) : string :=
  match a with
  | Some s => if String.eqb s "" then b else s
  | None => b
  end.

(** [xs.sort(cmp)]: a stable sort; [x] moves behind [y] only when
    [cmp(x, y) > 0], and a [NaN] comparison counts as [0]. *)
Section Sort.
Context {A : Type} (cmp : A -> A -> num).

Fixpoint insert_sorted (x : A) (l : list A) : list A :=
  match l with
  | [] => [x]
  | y :: l' =>
      if Num.gtb (cmp x y) n0 then y :: insert_sorted x l'
      else x :: y :: l'
  end.

Fixpoint sort (l : list A) : list A :=
  match l with
  | [] => []
  | x :: l' => insert_sorted x (sort l')
  end.
End Sort.

(** [xs.reduce((sum, x) => sum + f(x), 0)] *)
Definition sum_by {A : Type} (f : A -> num) (xs : list A) : num :=
  fold_left (fun sum x => (sum + f x)%num) xs n0.

(** [xs.length] as a number. *)
Definition len {A : Type} (xs : list A) : num := Num.of_nat (List.length xs).

(* ================================================================== *)
(** ** The store *)
(* ================================================================== *)

(** Rows carry the columns the service reads or writes.  Timestamps are
    milliseconds since the epoch. *)

Module Prediction.
Record t : Type := mk {
  id : string;
  userId : string;
  pollId : string;
  optionId : string;
  confidence : Q;
  reasoning : option string;
  points : Z;
  payout : option Z;
  isResolved : bool;
  createdAt : Z;
  resolvedAt : option Z
}.
End Prediction.

Module Poll.
Record t : Type := mk {
  id : string;
  expiresAt : option Z;
  resolvedAt : option Z;
  resolutionResult : option string;
  resolutionSource : option string;
  isActive : bool
}.
End Poll.

Module PollOption.
Record t : Type := mk {
  id : string;
  pollId : string;
  orderIndex : Z
}.
End PollOption.

Module PollOptionTranslation.
Record t : Type := mk {
  optionId : string;
  language : string;
  text : string
}.
End PollOptionTranslation.

Module User.
Record t : Type := mk {
  id : string;
  username : option string;
  displayName : option string;
  avatar : option string;
  reputation : Z
}.
End User.

(** Modelled from the spec: the [VoteSnapshot] model is not part of the
    schema file at hand; the columns are those of [vote_snapshots] in
    [shared/database-schema.md] that [calculateVolatility] reads. *)
Module VoteSnapshot.
Record t : Type := mk {
  pollId : string;
  snapshotDate : Z;
  percentage : Q
}.
End VoteSnapshot.

(** Modelled from the spec: [PollAnalytics], [Achievement],
    [UserAchievement] and [Notification] are likewise absent from the
    schema file; the columns are the ones the service writes. *)
Module PollAnalytics.
Record t : Type := mk {
  pollId : string;
  date : Z;
  uniqueVoters : nat;
  totalVotes : nat;
  engagementRate : num
}.
End PollAnalytics.

Module Achievement.
Record t : Type := mk {
  id : string;
  name : string
}.
End Achievement.

Module UserAchievement.
Record t : Type := mk {
  userId : string;
  achievementId : string;
  isCompleted : bool
}.
End UserAchievement.

Module Notification.
Inductive data : Type :=
| AchievementData (achievementId : string)
| ResolutionData (pollId predictionId : string) (payout : option Z).

Record t : Type := mk {
  userId : string;
  type : string;
  title : string;
  message : string;
  payload : data
}.
End Notification.

Record db : Type := mkDb {
  polls : list Poll.t;
  pollOptions : list PollOption.t;
  pollOptionTranslations : list PollOptionTranslation.t;
  predictions : list Prediction.t;
  users : list User.t;
  voteSnapshots : list VoteSnapshot.t;
  pollAnalytics : list PollAnalytics.t;
  achievements : list Achievement.t;
  userAchievements : list UserAchievement.t;
  notifications : list Notification.t
}.

Definition set_polls (f : list Poll.t -> list Poll.t) (s : db) : db :=
  mkDb (f (polls s)) (pollOptions s) (pollOptionTranslations s)
       (predictions s) (users s) (voteSnapshots s) (pollAnalytics s)
       (achievements s) (userAchievements s) (notifications s).

Definition set_predictions
    (f : list Prediction.t -> list Prediction.t) (s : db) : db :=
  mkDb (polls s) (pollOptions s) (pollOptionTranslations s)
       (f (predictions s)) (users s) (voteSnapshots s) (pollAnalytics s)
       (achievements s) (userAchievements s) (notifications s).

Definition set_users (f : list User.t -> list User.t) (s : db) : db :=
  mkDb (polls s) (pollOptions s) (pollOptionTranslations s)
       (predictions s) (f (users s)) (voteSnapshots s) (pollAnalytics s)
       (achievements s) (userAchievements s) (notifications s).

Definition set_pollAnalytics
    (f : list PollAnalytics.t -> list PollAnalytics.t) (s : db) : db :=
  mkDb (polls s) (pollOptions s) (pollOptionTranslations s)
       (predictions s) (users s) (voteSnapshots s) (f (pollAnalytics s))
       (achievements s) (userAchievements s) (notifications s).

Definition set_userAchievements
    (f : list UserAchievement.t -> list UserAchievement.t) (s : db) : db :=
  mkDb (polls s) (pollOptions s) (pollOptionTranslations s)
       (predictions s) (users s) (voteSnapshots s) (pollAnalytics s)
       (achievements s) (f (userAchievements s)) (notifications s).

Definition set_notifications
    (f : list Notification.t -> list Notification.t) (s : db) : db :=
  mkDb (polls s) (pollOptions s) (pollOptionTranslations s)
       (predictions s) (users s) (voteSnapshots s) (pollAnalytics s)
       (achievements s) (userAchievements s) (f (notifications s)).

(** *** Exceptions and the monad of store operations *)

Inductive exn : Type :=
| Error (message : string)                (* [throw new Error(message)] *)
| RecordNotFound (model : string)         (* update of a row that is absent *)
| UniqueConstraint (model : string)       (* create repeating a unique key *)
| InvalidValue (model field : string)     (* no integer for an [Int] column *)
| MissingRelation (model field : string). (* required relation without row *)

Inductive result (A : Type) : Type :=
| Ok (a : A)
| Throw (e : exn).
Arguments Ok {A} a.
Arguments Throw {A} e.

(** A write runs from a store to a result and the store it leaves; an
    exception keeps the writes made before it. *)
Definition M (A : Type) : Type := db -> result A * db.

Definition ret {A} (a : A) : M A := fun s => (Ok a, s).
Definition throw {A} (e : exn) : M A := fun s => (Throw e, s).
Definition bind {A B} (c : M A) (k : A -> M B) : M B :=
  fun s => match c s with
           | (Ok a, s') => k a s'
           | (Throw e, s') => (Throw e, s')
           end.
Definition gets {A} (f : db -> A) : M A := fun s => (Ok (f s), s).
Definition modify (f : db -> db) : M unit := fun s => (Ok tt, f s).

Declare Scope m_scope.
Delimit Scope m_scope with M.
Notation "x <- c ;; k" := (bind c (fun x => k))
  (at level 61, c at next level, right associativity) : m_scope.
Notation "c ;;; k" := (bind c (fun _ => k))
  (at level 61, right associativity) : m_scope.

(** [for (const x of xs) { await body(x) }] *)
Fixpoint for_of {A} (xs : list A) (body : A -> M unit) : M unit :=
  match xs with
  | [] => ret tt
  | x :: xs' => bind (body x) (fun _ => for_of xs' body)
  end.

(** Replace the first row that satisfies [p]. *)
Fixpoint replace_first {A} (p : A -> bool) (f : A -> A) (l : list A)
  : list A :=
  match l with
  | [] => []
  | x :: l' => if p x then f x :: l' else x :: replace_first p f l'
  end.

(** *** The Prisma calls the service makes *)

Module Prisma.
Local Open Scope string_scope.

Definition poll_findUnique (id : string) (s : db) : option Poll.t :=
  find (fun p => String.eqb (Poll.id p) id) (polls s).

Definition poll_update (id : string) (f : Poll.t -> Poll.t) : M Poll.t :=
  fun s =>
    match poll_findUnique id s with
    | Some row =>
        (Ok (f row),
         set_polls (replace_first (fun p => String.eqb (Poll.id p) id) f) s)
    | None => (Throw (RecordNotFound "Poll"), s)
    end.

Definition has_id (id : string) (p : Prediction.t) : bool :=
  String.eqb (Prediction.id p) id.

Definition is_user (id : string) (u : User.t) : bool :=
  String.eqb (User.id u) id.

Definition prediction_findById (id : string) (s : db)
  : option Prediction.t :=
  find (has_id id) (predictions s).

(** [findUnique({ where: { userId_pollId: { userId, pollId } } })] *)
Definition prediction_findUnique (userId pollId : string) (s : db)
  : option Prediction.t :=
  find (fun p => String.eqb (Prediction.userId p) userId
                 && String.eqb (Prediction.pollId p) pollId)
       (predictions s).

Definition prediction_findMany (where_ : Prediction.t -> bool) (s : db)
  : list Prediction.t :=
  filter where_ (predictions s).

Definition prediction_update (id : string)
    (f : Prediction.t -> Prediction.t) : M Prediction.t :=
  fun s =>
    match prediction_findById id s with
    | Some row =>
        (Ok (f row), set_predictions (replace_first (has_id id) f) s)
    | None => (Throw (RecordNotFound "Prediction"), s)
    end.

(** [create] appends a row; the primary key and [@@unique([userId,
    pollId])] are checked. *)
Definition prediction_create (row : Prediction.t) : M Prediction.t :=
  fun s =>
    if existsb
         (fun p =>
            String.eqb (Prediction.id p) (Prediction.id row)
            || (String.eqb (Prediction.userId p) (Prediction.userId row)
                && String.eqb (Prediction.pollId p) (Prediction.pollId row)))
         (predictions s)
    then (Throw (UniqueConstraint "Prediction"), s)
    else (Ok row, set_predictions (fun l => (l ++ [row])%list) s).

Definition user_findUnique (id : string) (s : db) : option User.t :=
  find (is_user id) (users s).

Definition add_reputation (d : Z) (u : User.t) : User.t :=
  User.mk (User.id u) (User.username u) (User.displayName u)
    (User.avatar u) (User.reputation u + d)%Z.

(** [user.update({ data: { reputation: { increment } } })] *)
Definition user_incrementReputation (id : string) (increment : num)
  : M unit :=
  fun s =>
    match user_findUnique id s with
    | None => (Throw (RecordNotFound "User"), s)
    | Some _ =>
        match Num.to_int increment with
        | None => (Throw (InvalidValue "User" "reputation"), s)
        | Some d =>
            (Ok tt,
             set_users (replace_first (is_user id) (add_reputation d)) s)
        end
    end.

Definition notification_create (row : Notification.t) : M unit :=
  modify (set_notifications (fun l => (l ++ [row])%list)).
End Prisma.

(* ================================================================== *)
(** ** The service *)
(* ================================================================== *)

Inductive Trend : Type := up | down | stable.

Module MarketOdds.
Record t : Type := mk {
  optionId : string;
  option_ : string;
  probability : num;
  impliedOdds : string;
  volume : num;
  trend : Trend;
  confidence : num
}.
End MarketOdds.

Module PredictionPayload.
Record t : Type := mk {
  userId : string;
  pollId : string;
  optionId : string;
  confidence : Q;
  points : Z;
  reasoning : option string   (* [None] is [undefined] *)
}.
End PredictionPayload.

Module MarketAnalytics.
Record t : Type := mk {
  totalVolume : num;
  uniquePredictors : num;
  averageConfidence : num;
  consensusProbability : num;
  marketEfficiency : num;
  volatility : num;
  liquidityIndex : num
}.
End MarketAnalytics.

Module LeaderboardRow.
Record t : Type := mk {
  userId : string;
  username : string;
  avatar : option string;
  reputation : Z;
  totalPredictions : nat;
  totalPayout : num;
  totalStake : num;
  netProfit : num;
  winRate : num;
  roi : num
}.
End LeaderboardRow.

Inductive Timeframe : Type := daily | weekly | monthly | all.

Module PredictionMarketService.
Local Open Scope string_scope.
Local Open Scope num_scope.
Local Open Scope m_scope.

Definition HOUSE_EDGE : num := Fin (5 # 100).
Definition MIN_PREDICTION : Z := 1.
Definition MAX_PREDICTION : Z := 1000.
Definition CONFIDENCE_WEIGHT : num := Fin (7 # 10).
Definition VOLUME_WEIGHT : num := Fin (3 # 10).

Definition pts (p : Prediction.t) : num := Num.of_Z (Prediction.points p).
Definition conf (p : Prediction.t) : num := Fin (Prediction.confidence p).

(** **** Private helpers *)

Definition calculateWeightedConfidence (predictions : list Prediction.t)
  : num :=
  if Nat.eqb (List.length predictions) 0 then n0
  else
    let totalWeight := sum_by pts predictions in
    if Num.eqb totalWeight n0 then n0
    else sum_by (fun pred => conf pred * pts pred) predictions / totalWeight.

Definition calculateMarketProbability (predictions : list Prediction.t)
    (totalVolume : num) : num :=
  if Nat.eqb (List.length predictions) 0 || Num.eqb totalVolume n0 then n0
  else
    let optionVolume := sum_by pts predictions in
    let weightedConfidence := calculateWeightedConfidence predictions in
    let volumeShare := optionVolume / totalVolume in
    (volumeShare * VOLUME_WEIGHT) + (weightedConfidence * CONFIDENCE_WEIGHT).

Definition day_ms : Z := 24 * 60 * 60 * 1000.

Definition calculateTrend (now : Z) (optionId : string) (s : db) : Trend :=
  let recentPredictions :=
    sort (fun a b => Num.of_Z (Prediction.createdAt a)
                     - Num.of_Z (Prediction.createdAt b))
      (Prisma.prediction_findMany
         (fun p => String.eqb (Prediction.optionId p) optionId
                   && (now - day_ms <=? Prediction.createdAt p)%Z) s) in
  if Nat.ltb (List.length recentPredictions) 2 then stable
  else
    let half := Nat.div (List.length recentPredictions) 2 in
    let firstHalf := firstn half recentPredictions in
    let secondHalf := skipn half recentPredictions in
    let firstAvg := sum_by conf firstHalf / len firstHalf in
    let secondAvg := sum_by conf secondHalf / len secondHalf in
    let threshold := Fin (5 # 100) in
    if Num.gtb secondAvg (firstAvg + threshold) then up
    else if Num.ltb secondAvg (firstAvg - threshold) then down
    else stable.

Definition formatOdds (probability : num) : string :=
  if Num.eqb probability n0 then "∞:1"
  else if Num.eqb probability n1 then "1:∞"
  else
    let odds := (n1 / probability) - n1 in
    if Num.geb odds n1 then Num.toFixed1 odds ++ ":1"
    else "1:" ++ Num.toFixed1 (n1 / odds).

Definition user_weight (pu : Prediction.t * User.t) : num :=
  pts (fst pu)
  * (n1 + Num.of_Z (User.reputation (snd pu)) / Fin (inject_Z 1000)).

Definition calculateConsensus (predictions : list (Prediction.t * User.t))
  : num :=
  if Nat.eqb (List.length predictions) 0 then n0
  else
    let totalWeight := sum_by user_weight predictions in
    sum_by (fun pu =>
              conf (fst pu) * pts (fst pu)
              * (n1 + Num.of_Z (User.reputation (snd pu))
                      / Fin (inject_Z 1000)))
           predictions
    / totalWeight.

Definition calculateMarketEfficiency
    (predictions : list (Prediction.t * User.t)) : num :=
  if Nat.ltb (List.length predictions) 2 then n1
  else
    let confidences := map (fun pu => conf (fst pu)) predictions in
    let mean := sum_by (fun c => c) confidences / len confidences in
    let variance :=
      sum_by (fun c => Num.square (c - mean)) confidences
      / len confidences in
    Num.max n0 (n1 - (variance * Fin (inject_Z 4))).

(** [for (let i = 1; i < n; i++) push(|xs[i] - xs[i-1]|)] *)
Fixpoint consecutive_changes (xs : list num) : list num :=
  match xs with
  | a :: (b :: _) as rest => Num.abs (b - a) :: consecutive_changes rest
  | _ => []
  end.

Definition calculateVolatility (pollId : string) (s : db) : num :=
  let snapshots :=
    firstn 10
      (sort (fun a b => Num.of_Z (VoteSnapshot.snapshotDate a)
                        - Num.of_Z (VoteSnapshot.snapshotDate b))
         (filter (fun v => String.eqb (VoteSnapshot.pollId v) pollId)
            (voteSnapshots s))) in
  if Nat.ltb (List.length snapshots) 2 then n0
  else
    let percentageChanges :=
      consecutive_changes
        (map (fun v => Fin (VoteSnapshot.percentage v)) snapshots) in
    sum_by (fun change => change) percentageChanges / len percentageChanges.

Definition calculateLiquidityIndex (volume predictors : num) : num :=
  let volumeScore := Num.min (volume / Fin (inject_Z 10000)) n1 in
  let predictorScore := Num.min (predictors / Fin (inject_Z 100)) n1 in
  (volumeScore + predictorScore) / Fin (inject_Z 2).

Definition updateMarketOdds (pollId : string) : M unit := ret tt.

(** [today.setHours(0, 0, 0, 0)], taking the server's day to be the
    UTC day. *)
Definition startOfDay (now : Z) : Z := (now - now mod day_ms)%Z.

Definition distinct_users (predictions : list Prediction.t) : nat :=
  List.length (nodup string_dec (map Prediction.userId predictions)).

Definition updatePollAnalytics (now : Z) (pollId : string) : M unit :=
  let today := startOfDay now in
  predictions <-
    gets (Prisma.prediction_findMany
            (fun p => String.eqb (Prediction.pollId p) pollId)) ;;
  let row :=
    PollAnalytics.mk pollId today (distinct_users predictions)
      (List.length predictions)
      (if Nat.ltb 0 (List.length predictions)
       then len predictions / Fin (inject_Z 100) else n0) in
  let key a :=
    String.eqb (PollAnalytics.pollId a) pollId
    && (PollAnalytics.date a =? today)%Z in
  modify (set_pollAnalytics
            (fun l => if existsb key l
                      then replace_first key (fun _ => row) l
                      else (l ++ [row])%list)).

Definition unlockAchievement (userId achievementName : string) : M unit :=
  achievement <-
    gets (fun s => find (fun a => String.eqb (Achievement.name a)
                                    achievementName)
                     (achievements s)) ;;
  match achievement with
  | None => ret tt
  | Some achievement =>
      let key ua :=
        String.eqb (UserAchievement.userId ua) userId
        && String.eqb (UserAchievement.achievementId ua)
                      (Achievement.id achievement) in
      modify (set_userAchievements
                (fun l =>
                   if existsb key l
                   then replace_first key
                          (fun ua => UserAchievement.mk
                                       (UserAchievement.userId ua)
                                       (UserAchievement.achievementId ua)
                                       true) l
                   else (l ++ [UserAchievement.mk userId
                                 (Achievement.id achievement) true])%list))
      ;;;
      Prisma.notification_create
        (Notification.mk userId "ACHIEVEMENT_UNLOCKED"
           "Achievement Unlocked!"
           ("You earned the " ++ String (ascii_of_nat 34) ""
              ++ Achievement.name achievement
              ++ String (ascii_of_nat 34) "" ++ " achievement!")
           (Notification.AchievementData (Achievement.id achievement)))
  end.

Definition checkPredictionAchievements (userId : string) : M unit :=
  userPredictions <-
    gets (fun s => List.length
                     (Prisma.prediction_findMany
                        (fun p => String.eqb (Prediction.userId p) userId)
                        s)) ;;
  let achievements :=
    ((if Nat.eqb userPredictions 1 then ["first_prediction"] else [])
       ++ (if Nat.eqb userPredictions 10 then ["prediction_novice"] else [])
       ++ (if Nat.eqb userPredictions 100 then ["prediction_expert"]
           else []))%list in
  for_of achievements (fun achievementName =>
    unlockAchievement userId achievementName).

Definition updateUserReputation (userId : string)
    (pointChange confidence : num) : M unit :=
  let reputationChange :=
    Num.floor (pointChange * Fin (1 # 10) * (n1 + confidence)) in
  Prisma.user_incrementReputation userId reputationChange.

Definition show_payout (payout : option Z) : string :=
  match payout with
  | Some z => show_int z
  | None => "null"
  end.

Definition createResolutionNotifications
    (pollId winningOptionId : string) : M unit :=
  predictions <-
    gets (Prisma.prediction_findMany
            (fun p => String.eqb (Prediction.pollId p) pollId)) ;;
  for_of predictions (fun prediction =>
    let isWinner :=
      String.eqb (Prediction.optionId prediction) winningOptionId in
    Prisma.notification_create
      (Notification.mk (Prediction.userId prediction) "POLL_RESOLVED"
         (if isWinner then "Prediction Won!" else "Prediction Resolved")
         (if isWinner
          then "Congratulations! You won "
                 ++ show_payout (Prediction.payout prediction) ++ " points!"
          else "Your prediction was incorrect, but thanks for participating!")
         (Notification.ResolutionData pollId (Prediction.id prediction)
            (Prediction.payout prediction)))).

Definition getTimeframeStart (now : Z) (timeframe : Timeframe)
  : option Z :=
  match timeframe with
  | daily => Some (now - 24 * 60 * 60 * 1000)%Z
  | weekly => Some (now - 7 * 24 * 60 * 60 * 1000)%Z
  | monthly => Some (now - 30 * 24 * 60 * 60 * 1000)%Z
  | all => None
  end.

(** **** createPrediction *)

(** The [data] of the update branch: [optionId], [confidence], [points],
    [reasoning] and [createdAt: new Date()].  Prisma leaves a column
    alone when its value in [data] is [undefined]. *)
Definition overwrite (now : Z) (payload : PredictionPayload.t)
    (row : Prediction.t) : Prediction.t :=
  Prediction.mk (Prediction.id row) (Prediction.userId row)
    (Prediction.pollId row)
    (PredictionPayload.optionId payload)
    (PredictionPayload.confidence payload)
    (match PredictionPayload.reasoning payload with
     | Some r => Some r
     | None => Prediction.reasoning row
     end)
    (PredictionPayload.points payload)
    (Prediction.payout row) (Prediction.isResolved row)
    now (Prediction.resolvedAt row).

Definition createPrediction (now : Z) (uuid : string)
    (payload : PredictionPayload.t) : M Prediction.t :=
  let userId := PredictionPayload.userId payload in
  let pollId := PredictionPayload.pollId payload in
  let optionId := PredictionPayload.optionId payload in
  let confidence := PredictionPayload.confidence payload in
  let points := PredictionPayload.points payload in
  let reasoning := PredictionPayload.reasoning payload in
  if Num.ltb (Fin confidence) n0 || Num.gtb (Fin confidence) n1
  then throw (Error "Confidence must be between 0 and 1")
  else if (points <? MIN_PREDICTION)%Z || (points >? MAX_PREDICTION)%Z
  then throw (Error ("Points must be between " ++ show_int MIN_PREDICTION
                      ++ " and " ++ show_int MAX_PREDICTION))
  else
    poll <- gets (Prisma.poll_findUnique pollId) ;;
    match poll with
    | None => throw (Error "Poll is not active")
    | Some poll =>
        if negb (Poll.isActive poll)
        then throw (Error "Poll is not active")
        else if match Poll.expiresAt poll with
                | Some expiresAt => (now >? expiresAt)%Z
                | None => false
                end
        then throw (Error "Poll has expired")
        else
          existingPrediction <-
            gets (Prisma.prediction_findUnique userId pollId) ;;
          prediction <-
            match existingPrediction with
            | Some existingPrediction =>
                Prisma.prediction_update
                  (Prediction.id existingPrediction)
                  (overwrite now payload)
            | None =>
                Prisma.prediction_create
                  (Prediction.mk uuid userId pollId optionId confidence
                     reasoning points None false now None)
            end ;;
          updateMarketOdds pollId ;;;
          updatePollAnalytics now pollId ;;;
          checkPredictionAchievements userId ;;;
          ret prediction
    end.

(** **** getMarketOdds *)

Definition option_predictions (s : db) (option : PollOption.t)
  : list Prediction.t :=
  Prisma.prediction_findMany
    (fun p => String.eqb (Prediction.optionId p) (PollOption.id option)
              && negb (Prediction.isResolved p)) s.

Definition option_text (s : db) (option : PollOption.t) : string :=
  str_or
    (option_map PollOptionTranslation.text
       (hd_error
          (filter (fun t =>
                     String.eqb (PollOptionTranslation.optionId t)
                                (PollOption.id option)
                     && String.eqb (PollOptionTranslation.language t) "en")
             (pollOptionTranslations s))))
    ("Option " ++ show_int (PollOption.orderIndex option + 1)).

Definition poll_options (pollId : string) (s : db) : list PollOption.t :=
  filter (fun o => String.eqb (PollOption.pollId o) pollId) (pollOptions s).

Definition option_odds (now : Z) (s : db) (totalVolume : num)
    (option : PollOption.t) : MarketOdds.t :=
  let predictions := option_predictions s option in
  let volume := sum_by pts predictions in
  let weightedConfidence := calculateWeightedConfidence predictions in
  let probability := calculateMarketProbability predictions totalVolume in
  let trend := calculateTrend now (PollOption.id option) s in
  MarketOdds.mk (PollOption.id option) (option_text s option) probability
    (formatOdds probability) volume trend weightedConfidence.

Definition normalize (normalizationFactor : num) (odds : MarketOdds.t)
  : MarketOdds.t :=
  let probability := MarketOdds.probability odds * normalizationFactor in
  MarketOdds.mk (MarketOdds.optionId odds) (MarketOdds.option_ odds)
    probability (formatOdds probability) (MarketOdds.volume odds)
    (MarketOdds.trend odds) (MarketOdds.confidence odds).

Definition getMarketOdds (now : Z) (pollId : string) (s : db)
  : result (list MarketOdds.t) :=
  match Prisma.poll_findUnique pollId s with
  | None => Throw (Error "Poll not found")
  | Some poll =>
      let options := poll_options pollId s in
      let totalVolume :=
        sum_by (fun option => sum_by pts (option_predictions s option))
               options in
      let marketOdds := map (option_odds now s totalVolume) options in
      let totalProb := sum_by MarketOdds.probability marketOdds in
      let normalizationFactor := (n1 - HOUSE_EDGE) / totalProb in
      let marketOdds := map (normalize normalizationFactor) marketOdds in
      Ok (sort (fun a b => MarketOdds.probability b
                           - MarketOdds.probability a)
               marketOdds)
  end.

(** **** getMarketAnalytics *)

(** [include: { user: ... }] on a required relation. *)
Fixpoint include_user (s : db) (predictions : list Prediction.t)
  : result (list (Prediction.t * User.t)) :=
  match predictions with
  | [] => Ok []
  | p :: ps =>
      match Prisma.user_findUnique (Prediction.userId p) s with
      | None => Throw (MissingRelation "Prediction" "user")
      | Some u =>
          match include_user s ps with
          | Ok rows => Ok ((p, u) :: rows)
          | Throw e => Throw e
          end
      end
  end.

Definition getMarketAnalytics (pollId : string) (s : db)
  : result MarketAnalytics.t :=
  match include_user s
          (Prisma.prediction_findMany
             (fun p => String.eqb (Prediction.pollId p) pollId
                       && negb (Prediction.isResolved p)) s) with
  | Throw e => Throw e
  | Ok predictions =>
      let totalVolume := sum_by (fun pu => pts (fst pu)) predictions in
      let uniquePredictors :=
        Num.of_nat (distinct_users (map fst predictions)) in
      let averageConfidence :=
        if Nat.ltb 0 (List.length predictions)
        then sum_by (fun pu => conf (fst pu)) predictions / len predictions
        else n0 in
      let consensusProbability := calculateConsensus predictions in
      let marketEfficiency := calculateMarketEfficiency predictions in
      let volatility := calculateVolatility pollId s in
      let liquidityIndex :=
        calculateLiquidityIndex totalVolume uniquePredictors in
      Ok (MarketAnalytics.mk totalVolume uniquePredictors averageConfidence
            consensusProbability marketEfficiency volatility liquidityIndex)
  end.

(** **** resolvePoll *)

Definition resolved_with (now payout : Z) (row : Prediction.t)
  : Prediction.t :=
  Prediction.mk (Prediction.id row) (Prediction.userId row)
    (Prediction.pollId row) (Prediction.optionId row)
    (Prediction.confidence row) (Prediction.reasoning row)
    (Prediction.points row) (Some payout) true
    (Prediction.createdAt row) (Some now).

(** [prisma.prediction.update({ data: { payout, isResolved: true,
    resolvedAt: new Date() } })]; [payout] is an [Int] column. *)
Definition settle (now : Z) (id : string) (payout : num)
  : M Prediction.t :=
  match Num.to_int payout with
  | None => throw (InvalidValue "Prediction" "payout")
  | Some z => Prisma.prediction_update id (resolved_with now z)
  end.

Definition finalPayout (winningPool totalPool : num)
    (prediction : Prediction.t) : num :=
  let share := pts prediction / winningPool in
  let basePayout := share * totalPool * (n1 - HOUSE_EDGE) in
  let confidenceBonus := conf prediction * Fin (1 # 10) in
  Num.floor (basePayout * (n1 + confidenceBonus)).

Definition resolvePoll (now : Z)
    (pollId winningOptionId resolutionSource : string) : M unit :=
  poll <- gets (Prisma.poll_findUnique pollId) ;;
  poll_predictions <-
    gets (Prisma.prediction_findMany
            (fun p => String.eqb (Prediction.pollId p) pollId
                      && negb (Prediction.isResolved p))) ;;
  match poll with
  | None => throw (Error "Poll not found")
  | Some poll =>
      match Poll.resolvedAt poll with
      | Some _ => throw (Error "Poll already resolved")
      | None =>
          Prisma.poll_update pollId
            (fun row =>
               Poll.mk (Poll.id row) (Poll.expiresAt row) (Some now)
                 (Some winningOptionId) (Some resolutionSource) false) ;;;
          let totalPool := sum_by pts poll_predictions in
          let winningPredictions :=
            filter (fun pred => String.eqb (Prediction.optionId pred)
                                           winningOptionId)
                   poll_predictions in
          let winningPool := sum_by pts winningPredictions in
          if Num.eqb winningPool n0 then ret tt
          else
            for_of winningPredictions (fun prediction =>
              let payout := finalPayout winningPool totalPool prediction in
              settle now (Prediction.id prediction) payout ;;;
              updateUserReputation (Prediction.userId prediction)
                payout (conf prediction)) ;;;
            let losingPredictions :=
              filter (fun pred =>
                        negb (String.eqb (Prediction.optionId pred)
                                         winningOptionId))
                     poll_predictions in
            for_of losingPredictions (fun prediction =>
              settle now (Prediction.id prediction) n0 ;;;
              updateUserReputation (Prediction.userId prediction)
                (Num.neg (pts prediction) * Fin (1 # 10)) n0) ;;;
            createResolutionNotifications pollId winningOptionId
      end
  end.

(** **** getLeaderboard *)

Definition in_scope (startDate : option Z) (p : Prediction.t) : bool :=
  match startDate with
  | Some d => (d <=? Prediction.createdAt p)%Z
  | None => true
  end.

Definition payout_or_0 (p : Prediction.t) : num :=
  match Prediction.payout p with
  | Some z => Num.of_Z z
  | None => n0
  end.

Definition leaderboard_row (startDate : option Z) (s : db) (user : User.t)
  : LeaderboardRow.t :=
  let predictions :=
    Prisma.prediction_findMany
      (fun p => String.eqb (Prediction.userId p) (User.id user)
                && Prediction.isResolved p && in_scope startDate p) s in
  let count :=
    List.length
      (Prisma.prediction_findMany
         (fun p => String.eqb (Prediction.userId p) (User.id user)
                   && in_scope startDate p) s) in
  let totalPayout := sum_by payout_or_0 predictions in
  let totalStake := sum_by pts predictions in
  let winRate :=
    if Nat.ltb 0 (List.length predictions)
    then len (filter (fun pred => Num.gtb (payout_or_0 pred) n0) predictions)
         / len predictions
    else n0 in
  let roi :=
    if Num.gtb totalStake n0
    then ((totalPayout - totalStake) / totalStake) * Fin (inject_Z 100)
    else n0 in
  LeaderboardRow.mk (User.id user)
    (str_or (User.username user) (str_or (User.displayName user) "Anonymous"))
    (User.avatar user) (User.reputation user) count totalPayout totalStake
    (totalPayout - totalStake)
    (Num.round (winRate * Fin (inject_Z 100)))
    (Num.round (roi * Fin (inject_Z 100)) / Fin (inject_Z 100)).

Definition getLeaderboard (now : Z) (timeframe : Timeframe) (limit : nat)
    (s : db) : list LeaderboardRow.t :=
  let startDate := getTimeframeStart now timeframe in
  let users :=
    firstn limit
      (filter (fun u =>
                 existsb (fun p => String.eqb (Prediction.userId p)
                                              (User.id u)
                                   && in_scope startDate p)
                         (predictions s))
              (users s)) in
  sort (fun a b => LeaderboardRow.netProfit b - LeaderboardRow.netProfit a)
       (map (leaderboard_row startDate s) users).

End PredictionMarketService.

(* ================================================================== *)
(** ** Vocabulary of the statements *)
(* ================================================================== *)

Local Open Scope string_scope.
Import PredictionMarketService.

(** A table whose rows are addressed by a string key: the test behind
    [where: { id }]. *)
Definition at_key {A : Type} (key : A -> string) (k : string) (x : A)
  : bool :=
  String.eqb (key x) k.

(** One keyed update per element of [xs], in order: what a loop of
    [update] calls does to a table. *)
Definition apply_all {A B : Type} (key : A -> string) (kx : B -> string)
    (fx : B -> A -> A) (xs : list B) (l : list A) : list A :=
  fold_left (fun l b => replace_first (at_key key (kx b)) (fx b) l) xs l.

(** The stakes of a list of predictions, added up in [Z]: the value of
    [predictions.reduce((sum, pred) => sum + pred.points, 0)]. *)
Fixpoint total_points (l : list Prediction.t) : Z :=
  match l with
  | [] => 0
  | p :: l' => Prediction.points p + total_points l'
  end.

(** Sums of rationals: [qsum] for the statements, [qfold] in the order
    [reduce] adds. *)
Fixpoint qsum {A : Type} (f : A -> Q) (l : list A) : Q :=
  match l with
  | [] => 0
  | x :: l' => f x + qsum f l'
  end.

Definition qfold {A : Type} (f : A -> Q) (l : list A) (a : Q) : Q :=
  fold_left (fun sum x => sum + f x) l a.

(** The payout of a winning prediction, [winningPool] and [totalPool]
    being the integers [W] and [T]. *)
Definition payout_of (W T : Z) (p : Prediction.t) : Z :=
  Qfloor (inject_Z (Prediction.points p) / inject_Z W * inject_Z T
          * (1 - (5 # 100))
          * (1 + Prediction.confidence p * (1 # 10))).

(** The reputation deltas [updateUserReputation] applies for a winning and
    for a losing prediction. *)
Definition winner_reputation (W T : Z) (p : Prediction.t) : Z :=
  Qfloor (inject_Z (payout_of W T p) * (1 # 10)
          * (1 + Prediction.confidence p)).

Definition loser_reputation (p : Prediction.t) : Z :=
  Qfloor (- inject_Z (Prediction.points p) * (1 # 10) * (1 # 10) * (1 + 0)).

(** The prediction and user tables after a settlement loop over [xs] that
    pays [zP x] and credits [zD x]. *)
Definition pay (now : Z) (zP : Prediction.t -> Z)
  : list Prediction.t -> list Prediction.t -> list Prediction.t :=
  apply_all Prediction.id Prediction.id (fun x => resolved_with now (zP x)).

Definition credit (zD : Prediction.t -> Z)
  : list Prediction.t -> list User.t -> list User.t :=
  apply_all User.id Prediction.userId (fun x => Prisma.add_reputation (zD x)).

(** The users, respectively the ids, of [xs] are stored. *)
Definition known_users (s : db) (xs : list Prediction.t) : Prop :=
  forall x, In x xs -> In (Prediction.userId x) (map User.id (users s)).

Definition known_ids (s : db) (xs : list Prediction.t) : Prop :=
  forall x, In x xs -> In (Prediction.id x) (map Prediction.id (predictions s)).

(** [poll.predictions] as [resolvePoll] includes them, and the two
    filters it applies. *)
Definition unresolved_on (pollId : string) (s : db) : list Prediction.t :=
  Prisma.prediction_findMany
    (fun p => String.eqb (Prediction.pollId p) pollId
              && negb (Prediction.isResolved p)) s.

Definition winners (w : string) (ps : list Prediction.t)
  : list Prediction.t :=
  filter (fun pred => String.eqb (Prediction.optionId pred) w) ps.

Definition losers (w : string) (ps : list Prediction.t)
  : list Prediction.t :=
  filter (fun pred => negb (String.eqb (Prediction.optionId pred) w)) ps.

(** The [data] of the poll update in [resolvePoll]. *)
Definition close_poll (now : Z) (w src : string) (row : Poll.t) : Poll.t :=
  Poll.mk (Poll.id row) (Poll.expiresAt row) (Some now) (Some w) (Some src)
    false.

(** Every prediction row points at a stored user (the foreign key of
    [Prediction.userId]). *)
Definition users_linked (s : db) : Prop := known_users s (predictions s).

(** What [createResolutionNotifications] leaves alone. *)
Definition same_market (s s' : db) : Prop :=
  polls s' = polls s /\ predictions s' = predictions s /\ users s' = users s.

(** [@id] of [Prediction]. *)
Definition ids_unique (s : db) : Prop :=
  NoDup (map Prediction.id (predictions s)).

(** [@@unique([userId, pollId])] of [Prediction]. *)
Definition one_per_user_and_poll (s : db) : Prop :=
  NoDup (map (fun p => (Prediction.userId p, Prediction.pollId p))
             (predictions s)).

(** The two-prediction market of the specification: userX stakes 100 on A
    at confidence 0.9, userY stakes 50 on B at confidence 0.4. *)
Module Scenario.
Definition poll : Poll.t := Poll.mk "poll" None None None None true.
Definition optionA : PollOption.t := PollOption.mk "A" "poll" 0.
Definition optionB : PollOption.t := PollOption.mk "B" "poll" 1.
Definition userX : User.t := User.mk "userX" None None None 1000.
Definition userY : User.t := User.mk "userY" None None None 1000.
Definition predictionX : Prediction.t :=
  Prediction.mk "pX" "userX" "poll" "A" (9 # 10) None 100 None false
    1000 None.
Definition predictionY : Prediction.t :=
  Prediction.mk "pY" "userY" "poll" "B" (4 # 10) None 50 None false
    2000 None.

Definition store (rows : list Prediction.t) : db :=
  mkDb [poll] [optionA; optionB] [] rows [userX; userY] [] [] [] [] [].

Definition market : db := store [predictionX; predictionY].

(** Nobody backed A. *)
Definition one_sided : db := store [predictionY].

(** No prediction at all. *)
Definition empty : db := store [].

Definition resolved_at : Z := 5000.
End Scenario.



(** The reputation a user has in the store. *)
Definition reputation_of (userId : string) (s : db) : option Z :=
  option_map User.reputation (Prisma.user_findUnique userId s).

Module Resubmission.
(** userX already holds a prediction with a written reasoning and sends a
    new one without. *)
Definition first : Prediction.t :=
  Prediction.mk "pX" "userX" "poll" "A" (9 # 10) (Some "first thoughts")
    100 None false 1000 None.
Definition store : db := Scenario.store [first].
Definition payload : PredictionPayload.t :=
  PredictionPayload.mk "userX" "poll" "B" (1 # 2) 20 None.
Definition submitted_at : Z := 3000.
End Resubmission.

Module Board.
(** The two-prediction market once B has won: userX lost 100, userY was
    paid 148 for a stake of 50. *)
Definition store : db :=
  snd (resolvePoll Scenario.resolved_at "poll" "B" "admin" Scenario.market).
End Board.

Module Quiet.
(** A poll without predictions whose vote history moved from 40% to
    60%. *)
Definition store : db :=
  mkDb [Scenario.poll] [Scenario.optionA; Scenario.optionB] [] []
    [Scenario.userX; Scenario.userY]
    [VoteSnapshot.mk "poll" 1 (40 # 1); VoteSnapshot.mk "poll" 2 (60 # 1)]
    [] [] [] [].
End Quiet.

(** What the analytics and achievement steps of [createPrediction] leave
    alone. *)
Definition same_predictions (s s' : db) : Prop :=
  predictions s' = predictions s.

(** Every stored prediction passed the checks of [createPrediction] that
    matter here: a stake of at least [MIN_PREDICTION] and a confidence that
    is not negative. *)
Definition valid_stakes (s : db) : Prop :=
  forall p, In p (predictions s) ->
    (MIN_PREDICTION <= Prediction.points p)%Z
    /\ 0 <= Prediction.confidence p.

(** The stake-weighted mean confidence and the raw probability of an
    option as rationals, [T] being the total volume of the poll. *)
Definition weighted_q (preds : list Prediction.t) : Q :=
  qfold (fun p => Prediction.confidence p * inject_Z (Prediction.points p))
        preds 0
  / inject_Z (total_points preds).

Definition raw_q (T : Z) (preds : list Prediction.t) : Q :=
  match preds with
  | [] => 0
  | _ :: _ =>
      inject_Z (total_points preds) / inject_Z T * (3 # 10)
      + (if (total_points preds =? 0)%Z then 0 else weighted_q preds)
        * (7 # 10)
  end.

(** [totalVolume] of [getMarketOdds]. *)
Definition options_volume (s : db) (options : list PollOption.t) : Z :=
  fold_right (fun o acc => (total_points (option_predictions s o) + acc)%Z)
             0%Z options.

(** The value of a finite [probability]. *)
Definition prob_q (odds : MarketOdds.t) : Q :=
  match MarketOdds.probability odds with
  | Num.Fin q => q
  | _ => 0
  end.

(** The tables that neither a submission's bookkeeping (analytics,
    achievements, notifications) nor anything else in [createPrediction]
    but the prediction write itself may touch. *)
Definition same_core (s s' : db) : Prop :=
  polls s' = polls s
  /\ pollOptions s' = pollOptions s
  /\ pollOptionTranslations s' = pollOptionTranslations s
  /\ predictions s' = predictions s
  /\ users s' = users s
  /\ voteSnapshots s' = voteSnapshots s
  /\ achievements s' = achievements s.

(** Every stored stake and confidence is within the bounds
    [createPrediction] checks. *)
Definition stakes_in_range (s : db) : Prop :=
  forall p, In p (predictions s) ->
    (MIN_PREDICTION <= Prediction.points p <= MAX_PREDICTION)%Z
    /\ 0 <= Prediction.confidence p <= 1.

Definition payload_in_range (payload : PredictionPayload.t) : Prop :=
  0 <= PredictionPayload.confidence payload <= 1
  /\ (MIN_PREDICTION <= PredictionPayload.points payload
      <= MAX_PREDICTION)%Z.

(** The poll is stored, active and not past its expiry at [now]. *)
Definition open_for_predictions (now : Z) (pollId : string) (s : db)
  : Prop :=
  exists poll,
    Prisma.poll_findUnique pollId s = Some poll
    /\ Poll.isActive poll = true
    /\ (forall e, Poll.expiresAt poll = Some e -> (now <= e)%Z).

Definition validation_messages : list string :=
  ["Confidence must be between 0 and 1";
   "Points must be between 1 and 1000";
   "Poll is not active";
   "Poll has expired"].

(** The row [createPrediction] creates for a first submission. *)
Definition new_row (now : Z) (uuid : string) (payload : PredictionPayload.t)
  : Prediction.t :=
  Prediction.mk uuid (PredictionPayload.userId payload)
    (PredictionPayload.pollId payload) (PredictionPayload.optionId payload)
    (PredictionPayload.confidence payload)
    (PredictionPayload.reasoning payload)
    (PredictionPayload.points payload) None false now None.

(** The rows a user holds on a poll. *)
Definition rows_of (userId pollId : string) (s : db) : list Prediction.t :=
  filter (fun p => String.eqb (Prediction.userId p) userId
                   && String.eqb (Prediction.pollId p) pollId)
         (predictions s).

(** What a resolution must not change in a prediction row. *)
Definition stake_of (p : Prediction.t)
  : string * string * string * string * Q * Z * Z :=
  (Prediction.id p, Prediction.userId p, Prediction.pollId p,
   Prediction.optionId p, Prediction.confidence p, Prediction.points p,
   Prediction.createdAt p).




(** The comparator [(a, b) => m(b) - m(a)] of the two descending sorts, and
    the order [m(a) >= m(b)] it is meant to produce. *)
Definition descending {A : Type} (m : A -> num) (a b : A) : num :=
  Num.sub (m b) (m a).

Definition at_least {A : Type} (m : A -> num) (a b : A) : Prop :=
  Num.geb (m a) (m b) = true.

(** The value of a finite number. *)
Definition qval (a : num) : Q :=
  match a with
  | Num.Fin q => q
  | _ => 0
  end.

(** A number is finite and lies between two rationals. *)
Definition within (lo hi : Q) (a : num) : Prop :=
  exists q, a = Fin q /\ lo <= q <= hi.

(** A number is finite and not negative. *)
Definition nonnegative (a : num) : Prop :=
  exists q, a = Fin q /\ 0 <= q.

(** The absolute steps between consecutive rationals. *)
Fixpoint abs_steps (xs : list Q) : list Q :=
  match xs with
  | a :: (b :: _) as rest => Qabs (b + - a) :: abs_steps rest
  | _ => []
  end.

(** The key of the analytics upsert, [pollId_date]. *)
Definition analytics_key (pollId : string) (date : Z) (a : PollAnalytics.t)
  : bool :=
  String.eqb (PollAnalytics.pollId a) pollId
  && (PollAnalytics.date a =? date)%Z.

(** The key of the achievement upsert, [userId_achievementId]. *)
Definition unlock_key (userId achievementId : string)
    (ua : UserAchievement.t) : bool :=
  String.eqb (UserAchievement.userId ua) userId
  && String.eqb (UserAchievement.achievementId ua) achievementId.

(** A poll whose two vote snapshots agree. *)
Module Flat.
Definition store : db :=
  mkDb [Scenario.poll] [Scenario.optionA; Scenario.optionB] [] []
    [Scenario.userX; Scenario.userY]
    [VoteSnapshot.mk "poll" 1 (55 # 1); VoteSnapshot.mk "poll" 2 (55 # 1)]
    [] [] [] [].
End Flat.

(** The two-prediction market with the achievements table filled in. *)
Module Achievements.
Definition store : db :=
  mkDb [Scenario.poll] [Scenario.optionA; Scenario.optionB] []
    [Scenario.predictionY] [Scenario.userX; Scenario.userY] [] []
    [Achievement.mk "a1" "first_prediction"] [] [].
Definition payload : PredictionPayload.t :=
  PredictionPayload.mk "userX" "poll" "A" (9 # 10) 100 None.
End Achievements.

(** Prisma's [upsert] on a table: the first row under the key is replaced,
    or the row is appended when the key is absent. *)
Definition upsert {A : Type} (key : A -> bool) (row : A) (l : list A)
  : list A :=
  if existsb key l then replace_first key (fun _ => row) l
  else (l ++ [row])%list.

(** An exception raised by [throw new Error(...)]. *)
Definition is_Error (e : exn) : Prop :=
  match e with
  | Error _ => True
  | _ => False
  end.

(** The number of predictions a user has stored. *)
Definition predictions_of (userId : string) (s : db) : nat :=
  List.length
    (Prisma.prediction_findMany
       (fun p => String.eqb (Prediction.userId p) userId) s).

(** The achievement a prediction count unlocks, if any. *)
Definition milestone (count : nat) : option string :=
  if Nat.eqb count 1 then Some "first_prediction"
  else if Nat.eqb count 10 then Some "prediction_novice"
  else if Nat.eqb count 100 then Some "prediction_expert"
  else None.

(** The notification [unlockAchievement] writes. *)
Definition unlock_notice (userId : string) (achievement : Achievement.t)
  : Notification.t :=
  Notification.mk userId "ACHIEVEMENT_UNLOCKED" "Achievement Unlocked!"
    ("You earned the " ++ String (ascii_of_nat 34) ""
       ++ Achievement.name achievement
       ++ String (ascii_of_nat 34) "" ++ " achievement!")
    (Notification.AchievementData (Achievement.id achievement)).

(** userX with one settled prediction on an earlier poll. *)
Module Veteran.
Definition earlier : Prediction.t :=
  Prediction.mk "p0" "userX" "old-poll" "Z" (1 # 2) None 10 (Some 0%Z) true
    10 (Some 20%Z).
Definition store : db := Scenario.store [earlier].
End Veteran.

(* ================================================================== *)
(** ** Lists, keyed tables and sums: lemmas *)
(* ================================================================== *)

Section SortFacts.
Context {A : Type} (cmp : A -> A -> num).

Lemma insert_sorted_perm (x : A) (l : list A) :
  Permutation (insert_sorted cmp x l) (x :: l).
Proof.
  induction l as [|y l IH]; cbn [insert_sorted].
  - apply Permutation_refl.
  - destruct (Num.gtb (cmp x y) n0).
    + eapply perm_trans; [apply perm_skip, IH | apply perm_swap].
    + apply Permutation_refl.
Qed.

Lemma sort_perm (l : list A) : Permutation (sort cmp l) l.
Proof.
  induction l as [|x l IH]; simpl.
  - apply perm_nil.
  - eapply perm_trans; [apply insert_sorted_perm | apply perm_skip, IH].
Qed.
End SortFacts.

(** Lookups in a keyed table, under updates that keep the key. *)
Section Keyed.
Context {A : Type} (key : A -> string).

Lemma find_at_key_In (k : string) (l : list A) :
  In k (map key l) -> exists x, find (at_key key k) l = Some x.
Proof.
  induction l as [|y l IH]; simpl; [tauto|].
  intros [H|H]; unfold at_key at 1.
  - rewrite H, String.eqb_refl. eauto.
  - destruct (String.eqb (key y) k); eauto.
Qed.

Lemma find_at_key_NoDup (x : A) (l : list A) :
  NoDup (map key l) -> In x l -> find (at_key key (key x)) l = Some x.
Proof.
  induction l as [|y l IH]; simpl; [tauto|].
  intros Hnd [->|Hin].
  - unfold at_key. now rewrite String.eqb_refl.
  - inversion Hnd as [|? ? Hy Hnd']; subst.
    unfold at_key at 1.
    destruct (String.eqb_spec (key y) (key x)) as [E|_]; [|auto].
    exfalso. apply Hy. rewrite E. now apply in_map.
Qed.

Section Update.
Context (f : A -> A) (key_f : forall x, key (f x) = key x).

Lemma map_key_replace_first (p : A -> bool) (l : list A) :
  map key (replace_first p f l) = map key l.
Proof.
  induction l as [|y l IH]; simpl; [reflexivity|].
  destruct (p y); simpl; [now rewrite key_f | now rewrite IH].
Qed.

Lemma find_replace_first_same (k : string) (l : list A) :
  find (at_key key k) (replace_first (at_key key k) f l)
  = option_map f (find (at_key key k) l).
Proof.
  induction l as [|y l IH]; simpl; [reflexivity|].
  destruct (at_key key k y) eqn:E; simpl.
  - unfold at_key in *. now rewrite key_f, E.
  - now rewrite E.
Qed.

Lemma find_replace_first_other (k k' : string) (l : list A) :
  k <> k' ->
  find (at_key key k) (replace_first (at_key key k') f l)
  = find (at_key key k) l.
Proof.
  intros Hk. induction l as [|y l IH]; simpl; [reflexivity|].
  destruct (at_key key k' y) eqn:E; simpl.
  - unfold at_key in *. rewrite key_f.
    apply String.eqb_eq in E. rewrite E.
    destruct (String.eqb_spec k' k); [congruence|reflexivity].
  - now rewrite IH.
Qed.
End Update.

Section Batch.
Context {B : Type} (kx : B -> string) (fx : B -> A -> A)
        (key_fx : forall b x, key (fx b x) = key x).

Lemma apply_all_cons (b : B) (xs : list B) (l : list A) :
  apply_all key kx fx (b :: xs) l
  = apply_all key kx fx xs (replace_first (at_key key (kx b)) (fx b) l).
Proof. reflexivity. Qed.

Lemma map_key_apply_all (xs : list B) (l : list A) :
  map key (apply_all key kx fx xs l) = map key l.
Proof.
  revert l; induction xs as [|b xs IH]; intros l; [reflexivity|].
  rewrite apply_all_cons, IH.
  now apply map_key_replace_first.
Qed.

Lemma find_apply_all_absent (k : string) (xs : list B) (l : list A) :
  ~ In k (map kx xs) ->
  find (at_key key k) (apply_all key kx fx xs l) = find (at_key key k) l.
Proof.
  revert l; induction xs as [|b xs IH]; intros l Hk; [reflexivity|].
  rewrite apply_all_cons, IH.
  - apply find_replace_first_other; [apply key_fx|].
    intros ->. apply Hk. now left.
  - intros H. apply Hk. now right.
Qed.

Lemma find_apply_all_present (b : B) (xs : list B) (l : list A) :
  NoDup (map kx xs) -> In b xs ->
  find (at_key key (kx b)) (apply_all key kx fx xs l)
  = option_map (fx b) (find (at_key key (kx b)) l).
Proof.
  revert l; induction xs as [|c xs IH]; intros l Hnd Hin;
    [destruct Hin|].
  inversion Hnd as [|? ? Hc Hnd']; subst.
  rewrite apply_all_cons.
  destruct Hin as [->|Hin].
  - rewrite find_apply_all_absent by assumption.
    apply find_replace_first_same, key_fx.
  - rewrite IH by assumption.
    f_equal. apply find_replace_first_other; [apply key_fx|].
    intros E. apply Hc. rewrite <- E. now apply in_map.
Qed.
End Batch.
End Keyed.

(** *** Sums *)

Lemma add_of_Z (a b : Z) :
  Num.add (Num.of_Z a) (Num.of_Z b) = Num.of_Z (a + b).
Proof.
  unfold Num.of_Z, inject_Z. simpl. unfold Qplus. simpl.
  now rewrite !Z.mul_1_r.
Qed.

Lemma sum_by_of_Z {A : Type} (f : A -> num) (g : A -> Z) (l : list A) :
  (forall x, In x l -> f x = Num.of_Z (g x)) ->
  forall a, fold_left (fun sum x => Num.add sum (f x)) l (Num.of_Z a)
            = Num.of_Z (fold_right (fun x acc => (g x + acc)%Z) 0%Z l + a).
Proof.
  induction l as [|x l IH]; intros Hf a; cbn [fold_left fold_right].
  - reflexivity.
  - rewrite (Hf x) by now left. rewrite add_of_Z.
    rewrite IH by (intros; apply Hf; now right).
    f_equal. lia.
Qed.

Lemma sum_by_pts (l : list Prediction.t) :
  sum_by PredictionMarketService.pts l = Num.of_Z (total_points l).
Proof.
  unfold sum_by. change n0 with (Num.of_Z 0).
  rewrite (sum_by_of_Z _ Prediction.points) by reflexivity.
  f_equal. rewrite Z.add_0_r.
  induction l as [|x l IH]; simpl; [reflexivity | now rewrite IH].
Qed.

Lemma sum_by_Fin {A : Type} (f : A -> num) (g : A -> Q) (l : list A) :
  (forall x, In x l -> f x = Fin (g x)) ->
  sum_by f l = Fin (qfold g l 0).
Proof.
  unfold sum_by, qfold, n0. generalize 0 as a.
  induction l as [|x l IH]; intros a Hf; simpl; [reflexivity|].
  rewrite (Hf x) by now left. simpl.
  apply IH. intros; apply Hf; now right.
Qed.

Lemma qfold_qsum {A : Type} (g : A -> Q) (l : list A) (a : Q) :
  qfold g l a == a + qsum g l.
Proof.
  unfold qfold. revert a; induction l as [|x l IH]; intros a; simpl.
  - lra.
  - rewrite IH. lra.
Qed.

Lemma qsum_nonneg {A : Type} (g : A -> Q) (l : list A) :
  (forall x, In x l -> 0 <= g x) -> 0 <= qsum g l.
Proof.
  induction l as [|x l IH]; intros H; simpl; [lra|].
  assert (0 <= g x) by (apply H; now left).
  assert (0 <= qsum g l) by (apply IH; intros; apply H; now right).
  lra.
Qed.

Lemma qsum_ge_member {A : Type} (g : A -> Q) (l : list A) (x : A) :
  (forall y, In y l -> 0 <= g y) -> In x l -> g x <= qsum g l.
Proof.
  induction l as [|y l IH]; intros H Hin; simpl; [destruct Hin|].
  destruct Hin as [->|Hin].
  - assert (0 <= qsum g l) by (apply qsum_nonneg; intros; apply H; now right).
    lra.
  - assert (0 <= g y) by (apply H; now left).
    assert (g x <= qsum g l) by (apply IH; [intros; apply H; now right|easy]).
    lra.
Qed.

Lemma qsum_ext {A : Type} (g h : A -> Q) (l : list A) :
  (forall x, In x l -> g x == h x) -> qsum g l == qsum h l.
Proof.
  induction l as [|x l IH]; intros H; simpl; [reflexivity|].
  rewrite (H x) by now left. rewrite IH; [reflexivity|].
  intros; apply H; now right.
Qed.






(** *** Running the store monad *)

Lemma bind_ok {A B} (c : M A) (k : A -> M B) (s s' : db) (a : A) :
  c s = (Ok a, s') -> bind c k s = k a s'.
Proof. unfold bind. now intros ->. Qed.


Lemma for_of_frame {A} (P : db -> db -> Prop) (body : A -> M unit)
    (xs : list A) :
  (forall s, P s s) ->
  (forall s1 s2 s3, P s1 s2 -> P s2 s3 -> P s1 s3) ->
  (forall x s, In x xs -> exists s', body x s = (Ok tt, s') /\ P s s') ->
  forall s, exists s', for_of xs body s = (Ok tt, s') /\ P s s'.
Proof.
  intros Hrefl Htrans. induction xs as [|x xs IH]; intros Hbody s; simpl.
  - exists s. split; [reflexivity | apply Hrefl].
  - destruct (Hbody x s (or_introl eq_refl)) as (s1 & E1 & P1).
    destruct (IH (fun y t Hy => Hbody y t (or_intror Hy)) s1)
      as (s2 & E2 & P2).
    exists s2. split; [|eauto].
    now rewrite (bind_ok _ _ _ _ _ E1).
Qed.

Lemma bind_gets {A B} (f : db -> A) (k : A -> M B) (s : db) :
  bind (gets f) k s = k (f s) s.
Proof. reflexivity. Qed.


(** *** Numbers that stay finite *)

Lemma eqb_of_Z_0 (z : Z) : Num.eqb (Num.of_Z z) n0 = (z =? 0)%Z.
Proof.
  unfold Num.eqb, Num.of_Z, n0.
  destruct (Z.eqb_spec z 0) as [->|Hz]; [reflexivity|].
  destruct (Qeq_bool (inject_Z z) 0) eqn:E; [|reflexivity].
  apply Qeq_bool_eq in E. exfalso. apply Hz.
  unfold Qeq in E. simpl in E. lia.
Qed.

Lemma is_zero_inject_Z (z : Z) : z <> 0%Z -> Num.is_zero (inject_Z z) = false.
Proof.
  intros Hz. generalize (eqb_of_Z_0 z).
  unfold Num.eqb, Num.of_Z, n0, Num.is_zero.
  intros ->. now apply Z.eqb_neq.
Qed.

Lemma to_int_inject_Z (z : Z) : Num.to_int (Fin (inject_Z z)) = Some z.
Proof.
  unfold Num.to_int. rewrite Qfloor_Z.
  now rewrite (proj2 (Qeq_bool_iff _ _) (Qeq_refl _)).
Qed.

Lemma finalPayout_finite (W T : Z) (p : Prediction.t) :
  W <> 0%Z ->
  finalPayout (Num.of_Z W) (Num.of_Z T) p = Fin (inject_Z (payout_of W T p)).
Proof.
  intros HW. unfold finalPayout, pts, conf, Num.of_Z, Num.div.
  rewrite (is_zero_inject_Z W HW). reflexivity.
Qed.

(** *** The two settlement loops *)

Lemma settle_run (now : Z) (id : string) (payout : num) (z : Z) (s : db) :
  Num.to_int payout = Some z ->
  In id (map Prediction.id (predictions s)) ->
  exists r,
    settle now id payout s
    = (Ok r,
       set_predictions
         (replace_first (at_key Prediction.id id) (resolved_with now z)) s).
Proof.
  intros Hz Hin. unfold settle. rewrite Hz.
  unfold Prisma.prediction_update, Prisma.prediction_findById.
  destruct (find_at_key_In Prediction.id id _ Hin) as (row & Hrow).
  change (Prisma.has_id id) with (at_key Prediction.id id).
  rewrite Hrow. eauto.
Qed.

Lemma updateUserReputation_run (userId : string) (g c : num) (d : Z)
    (s : db) :
  Num.to_int (Num.floor (Num.mul (Num.mul g (Fin (1 # 10))) (Num.add n1 c)))
  = Some d ->
  In userId (map User.id (users s)) ->
  updateUserReputation userId g c s
  = (Ok tt,
     set_users (replace_first (at_key User.id userId)
                  (Prisma.add_reputation d)) s).
Proof.
  intros Hd Hin. unfold updateUserReputation, Prisma.user_incrementReputation.
  unfold Prisma.user_findUnique.
  destruct (find_at_key_In User.id userId _ Hin) as (row & Hrow).
  change (Prisma.is_user userId) with (at_key User.id userId).
  rewrite Hrow, Hd. reflexivity.
Qed.

Lemma settle_loop (now : Z) (P G C : Prediction.t -> num)
    (zP zD : Prediction.t -> Z) (xs : list Prediction.t) :
  (forall x, In x xs -> Num.to_int (P x) = Some (zP x)) ->
  (forall x, In x xs ->
     Num.to_int
       (Num.floor (Num.mul (Num.mul (G x) (Fin (1 # 10)))
                     (Num.add n1 (C x))))
     = Some (zD x)) ->
  forall s, known_ids s xs -> known_users s xs ->
  for_of xs
    (fun prediction =>
       bind (settle now (Prediction.id prediction) (P prediction))
         (fun _ => updateUserReputation (Prediction.userId prediction)
                     (G prediction) (C prediction))) s
  = (Ok tt, set_users (credit zD xs) (set_predictions (pay now zP xs) s)).
Proof.
  intros HP HD.
  set (body := fun prediction : Prediction.t => _).
  induction xs as [|x xs IH]; intros s Hids Husers.
  - destruct s; reflexivity.
  - cbn [for_of].
    assert (Hbody :
      body x s
      = (Ok tt,
         set_users (replace_first (at_key User.id (Prediction.userId x))
                      (Prisma.add_reputation (zD x)))
           (set_predictions
              (replace_first (at_key Prediction.id (Prediction.id x))
                 (resolved_with now (zP x))) s))).
    { unfold body.
      destruct (settle_run now (Prediction.id x) (P x) (zP x) s) as (r & E1);
        [apply HP; now left | apply Hids; now left |].
      rewrite (bind_ok _ _ _ _ _ E1).
      apply updateUserReputation_run;
        [apply HD; now left | apply Husers; now left]. }
    rewrite (bind_ok _ _ _ _ _ Hbody).
    rewrite IH.
    + destruct s; reflexivity.
    + intros; apply HP; now right.
    + intros; apply HD; now right.
    + intros y Hy. cbn [predictions set_users set_predictions].
      rewrite map_key_replace_first by reflexivity. apply Hids; now right.
    + intros y Hy. cbn [users set_users set_predictions].
      rewrite map_key_replace_first by reflexivity. apply Husers; now right.
Qed.

(** *** resolvePoll, run on a store *)

Lemma createResolutionNotifications_run (pollId w : string) (s : db) :
  exists s',
    createResolutionNotifications pollId w s = (Ok tt, s')
    /\ same_market s s'.
Proof.
  unfold createResolutionNotifications. rewrite bind_gets.
  apply for_of_frame.
  - now intros t.
  - intros s1 s2 s3 (A1 & B1 & C1) (A2 & B2 & C2).
    repeat split; congruence.
  - intros x t _. eexists. split; [reflexivity|]. now repeat split.
Qed.

Lemma in_unresolved_on (pollId : string) (s : db) (p : Prediction.t) :
  In p (unresolved_on pollId s) ->
  In p (predictions s) /\ Prediction.pollId p = pollId
  /\ Prediction.isResolved p = false.
Proof.
  unfold unresolved_on, Prisma.prediction_findMany.
  rewrite filter_In. intros (H & E).
  apply andb_prop in E as (E1 & E2).
  apply String.eqb_eq in E1. apply negb_true_iff in E2. auto.
Qed.

Lemma resolvePoll_run (now : Z) (pollId w src : string) (s : db)
    (poll : Poll.t) :
  Prisma.poll_findUnique pollId s = Some poll ->
  Poll.resolvedAt poll = None ->
  users_linked s ->
  let ps := unresolved_on pollId s in
  let W := total_points (winners w ps) in
  let T := total_points ps in
  exists s',
    resolvePoll now pollId w src s = (Ok tt, s')
    /\ polls s'
       = replace_first (at_key Poll.id pollId) (close_poll now w src) (polls s)
    /\ predictions s'
       = (if (W =? 0)%Z then predictions s
          else pay now (fun _ => 0%Z) (losers w ps)
                 (pay now (payout_of W T) (winners w ps) (predictions s)))
    /\ users s'
       = (if (W =? 0)%Z then users s
          else credit loser_reputation (losers w ps)
                 (credit (winner_reputation W T) (winners w ps) (users s))).
Proof.
  intros Hpoll Hres Hlinked ps W T.
  unfold resolvePoll. rewrite !bind_gets, Hpoll, Hres.
  fold (unresolved_on pollId s). fold ps.
  assert (Hupd :
    Prisma.poll_update pollId
      (fun row => Poll.mk (Poll.id row) (Poll.expiresAt row) (Some now)
                    (Some w) (Some src) false) s
    = (Ok (close_poll now w src poll),
       set_polls (replace_first (at_key Poll.id pollId)
                    (close_poll now w src)) s)).
  { unfold Prisma.poll_update. now rewrite Hpoll. }
  rewrite (bind_ok _ _ _ _ _ Hupd).
  fold (winners w ps). fold (losers w ps).
  rewrite !sum_by_pts. fold W. fold T. rewrite eqb_of_Z_0.
  set (s1 := set_polls _ s).
  destruct (Z.eqb_spec W 0) as [HW|HW].
  - exists s1. now repeat split.
  - assert (Hin : forall x, In x ps -> In x (predictions s))
      by (intros x Hx; now apply in_unresolved_on in Hx).
    assert (HinW : forall x, In x (winners w ps) -> In x (predictions s))
      by (intros x Hx; apply Hin; unfold winners in Hx;
          now apply filter_In in Hx).
    assert (HinL : forall x, In x (losers w ps) -> In x (predictions s))
      by (intros x Hx; apply Hin; unfold losers in Hx;
          now apply filter_In in Hx).
    pose proof
      (settle_loop now (finalPayout (Num.of_Z W) (Num.of_Z T))
         (finalPayout (Num.of_Z W) (Num.of_Z T)) conf
         (payout_of W T) (winner_reputation W T) (winners w ps)) as E1.
    specialize (E1 (fun x _ => eq_trans
                      (f_equal Num.to_int (finalPayout_finite W T x HW))
                      (to_int_inject_Z _))).
    assert (HD1 : forall x, In x (winners w ps) ->
      Num.to_int
        (Num.floor
           (Num.mul (Num.mul (finalPayout (Num.of_Z W) (Num.of_Z T) x)
                       (Fin (1 # 10))) (Num.add n1 (conf x))))
      = Some (winner_reputation W T x)).
    { intros x _. rewrite finalPayout_finite by assumption.
      apply to_int_inject_Z. }
    specialize (E1 HD1 s1).
    assert (K1 : known_ids s1 (winners w ps))
      by (intros x Hx; apply in_map; now apply HinW).
    assert (U1 : known_users s1 (winners w ps))
      by (intros x Hx; apply Hlinked; now apply HinW).
    specialize (E1 K1 U1).
    set (s2 := set_users _ _) in E1.
    erewrite bind_ok; [|exact E1].
    pose proof
      (settle_loop now (fun _ => n0)
         (fun x => Num.mul (Num.neg (pts x)) (Fin (1 # 10))) (fun _ => n0)
         (fun _ => 0%Z) loser_reputation (losers w ps)) as E2.
    specialize (E2 (fun x _ => eq_refl)).
    specialize (E2 (fun x _ => to_int_inject_Z _) s2).
    assert (K2 : known_ids s2 (losers w ps)).
    { intros x Hx. unfold s2, pay. cbn [predictions set_users set_predictions].
      rewrite map_key_apply_all by reflexivity.
      apply in_map. now apply HinL. }
    assert (U2 : known_users s2 (losers w ps)).
    { intros x Hx. unfold s2, credit. cbn [users set_users set_predictions].
      rewrite map_key_apply_all by reflexivity.
      apply Hlinked. now apply HinL. }
    specialize (E2 K2 U2).
    set (s3 := set_users _ _) in E2.
    erewrite bind_ok; [|exact E2].
    destruct (createResolutionNotifications_run pollId w s3)
      as (s4 & E4 & P4 & Q4 & R4).
    exists s4. split; [exact E4|].
    rewrite P4, Q4, R4. now repeat split.
Qed.

(** *** Keys of the prediction table *)

Lemma NoDup_map_filter {A B : Type} (k : A -> B) (f : A -> bool)
    (l : list A) :
  NoDup (map k l) -> NoDup (map k (filter f l)).
Proof.
  induction l as [|x l IH]; simpl; intros H; [constructor|].
  inversion H as [|? ? Hx Hl]; subst.
  destruct (f x); simpl; [|auto].
  constructor; [|auto].
  intros Hin. apply Hx. apply in_map_iff in Hin as (y & E & Hy).
  apply filter_In in Hy as (Hy & _). rewrite <- E. now apply in_map.
Qed.

Lemma NoDup_map_eq {A B : Type} (k : A -> B) (l : list A) (x y : A) :
  NoDup (map k l) -> In x l -> In y l -> k x = k y -> x = y.
Proof.
  induction l as [|z l IH]; simpl; intros H Hx Hy E; [destruct Hx|].
  inversion H as [|? ? Hz Hl]; subst.
  destruct Hx as [->|Hx], Hy as [->|Hy]; auto.
  - exfalso. apply Hz. rewrite E. now apply in_map.
  - exfalso. apply Hz. rewrite <- E. now apply in_map.
Qed.

Lemma user_ids_of_poll (pollId : string) (s : db) :
  one_per_user_and_poll s ->
  NoDup (map Prediction.userId (unresolved_on pollId s)).
Proof.
  unfold one_per_user_and_poll, unresolved_on, Prisma.prediction_findMany.
  induction (predictions s) as [|x l IH]; simpl; intros H; [constructor|].
  inversion H as [|? ? Hx Hl]; subst.
  destruct (String.eqb_spec (Prediction.pollId x) pollId) as [E|_];
    simpl; [|auto].
  destruct (negb (Prediction.isResolved x)); simpl; [|auto].
  constructor; [|auto].
  intros Hin. apply Hx. apply in_map_iff in Hin as (y & Ey & Hy).
  apply filter_In in Hy as (Hy & Fy). apply andb_prop in Fy as (Fy & _).
  apply String.eqb_eq in Fy. apply in_map_iff. exists y.
  split; [congruence | assumption].
Qed.

Lemma winners_incl (w : string) (ps : list Prediction.t) (p : Prediction.t) :
  In p (winners w ps) -> In p ps /\ Prediction.optionId p = w.
Proof.
  unfold winners. rewrite filter_In. intros (H & E).
  now apply String.eqb_eq in E.
Qed.

Lemma losers_incl (w : string) (ps : list Prediction.t) (p : Prediction.t) :
  In p (losers w ps) -> In p ps /\ Prediction.optionId p <> w.
Proof.
  unfold losers. rewrite filter_In. intros (H & E).
  apply negb_true_iff, String.eqb_neq in E. auto.
Qed.

Lemma resolvePoll_ok_inv (now : Z) (pollId w src : string) (s s' : db)
    (u : unit) :
  resolvePoll now pollId w src s = (Ok u, s') ->
  exists poll,
    Prisma.poll_findUnique pollId s = Some poll
    /\ Poll.resolvedAt poll = None.
Proof.
  unfold resolvePoll. rewrite !bind_gets.
  destruct (Prisma.poll_findUnique pollId s) as [poll|]; [|discriminate].
  destruct (Poll.resolvedAt poll) eqn:E; [discriminate|]. eauto.
Qed.

(** The stored row of every settled prediction, winners first. *)
Lemma resolvePoll_rows (now : Z) (pollId w src : string) (s s' : db) :
  ids_unique s -> users_linked s ->
  resolvePoll now pollId w src s = (Ok tt, s') ->
  let ps := unresolved_on pollId s in
  let W := total_points (winners w ps) in
  let T := total_points ps in
  W <> 0%Z ->
  (forall p, In p (winners w ps) ->
     Prisma.prediction_findById (Prediction.id p) s'
     = Some (resolved_with now (payout_of W T p) p))
  /\ (forall p, In p (losers w ps) ->
        Prisma.prediction_findById (Prediction.id p) s'
        = Some (resolved_with now 0 p)).
Proof.
  intros Hids Hlinked Hrun ps W T HW.
  destruct (resolvePoll_ok_inv _ _ _ _ _ _ _ Hrun) as (poll & Hpoll & Hres).
  destruct (resolvePoll_run now pollId w src s poll Hpoll Hres Hlinked)
    as (s'' & Hrun' & _ & Hpreds & _).
  rewrite Hrun in Hrun'. injection Hrun' as <-.
  fold ps W T in Hpreds.
  rewrite (proj2 (Z.eqb_neq W 0) HW) in Hpreds.
  assert (Hps : NoDup (map Prediction.id ps))
    by (apply NoDup_map_filter, Hids).
  assert (Hin : forall x, In x ps -> In x (predictions s))
    by (intros x Hx; now apply in_unresolved_on in Hx).
  unfold Prisma.prediction_findById.
  change Prisma.has_id with (at_key Prediction.id).
  rewrite Hpreds. unfold pay. split; intros p Hp.
  - apply winners_incl in Hp as Hp'. destruct Hp' as (Hp1 & Hp2).
    rewrite find_apply_all_absent; [| reflexivity |].
    + rewrite find_apply_all_present;
        [| reflexivity | now apply NoDup_map_filter | assumption].
      rewrite find_at_key_NoDup; [reflexivity | exact Hids | now apply Hin].
    + intros Hl. apply in_map_iff in Hl as (y & Ey & Hy).
      apply losers_incl in Hy as (Hy1 & Hy2).
      apply Hy2. rewrite <- Hp2. f_equal.
      now apply (NoDup_map_eq Prediction.id ps).
  - apply losers_incl in Hp as Hp'. destruct Hp' as (Hp1 & Hp2).
    rewrite find_apply_all_present;
      [| reflexivity | now apply NoDup_map_filter | assumption].
    rewrite find_apply_all_absent; [| reflexivity |].
    + rewrite find_at_key_NoDup; [reflexivity | exact Hids | now apply Hin].
    + intros Hl. apply in_map_iff in Hl as (y & Ey & Hy).
      apply winners_incl in Hy as (Hy1 & Hy2).
      apply Hp2. rewrite <- Hy2. f_equal.
      now apply (NoDup_map_eq Prediction.id ps).
Qed.

(** Without a stake on the winning option the call stops after closing the
    poll: predictions and reputations are those of the store it started
    from. *)
Lemma resolvePoll_no_winner (now : Z) (pollId w src : string) (s s' : db) :
  users_linked s ->
  resolvePoll now pollId w src s = (Ok tt, s') ->
  total_points (winners w (unresolved_on pollId s)) = 0%Z ->
  predictions s' = predictions s /\ users s' = users s.
Proof.
  intros Hlinked Hrun HW.
  destruct (resolvePoll_ok_inv _ _ _ _ _ _ _ Hrun) as (poll & Hpoll & Hres).
  destruct (resolvePoll_run now pollId w src s poll Hpoll Hres Hlinked)
    as (s'' & Hrun' & _ & Hpreds & Husers).
  rewrite Hrun in Hrun'. injection Hrun' as <-.
  rewrite HW in Hpreds, Husers. now split.
Qed.


Lemma scenario_ids_unique : ids_unique Scenario.market.
Proof.
  unfold ids_unique. simpl.
  repeat constructor; simpl; intuition discriminate.
Defined.

Lemma scenario_users_linked : users_linked Scenario.market.
Proof.
  intros x [<-|[<-|[]]]; simpl; auto.
Defined.


Lemma total_points_nonneg (l : list Prediction.t) :
  (forall p, In p l -> (0 <= Prediction.points p)%Z) ->
  (0 <= total_points l)%Z.
Proof.
  induction l as [|x l IH]; simpl; intros H; [lia|].
  assert (0 <= Prediction.points x)%Z by (apply H; now left).
  assert (0 <= total_points l)%Z by (apply IH; intros; apply H; now right).
  lia.
Qed.






(** C5.  Resolution is exactly-once: on a stored, unresolved poll the first
    [resolvePoll] succeeds, and every later [resolvePoll] on that poll
    throws "Poll already resolved" and hands back the store as the first
    call left it (poll, predictions and reputations included). *)
Theorem resolvePoll_exactly_once :
  forall (now : Z) (pollId w src : string) (s : db) (poll : Poll.t),
    Prisma.poll_findUnique pollId s = Some poll ->
    Poll.resolvedAt poll = None ->
    users_linked s ->
    exists s',
      resolvePoll now pollId w src s = (Ok tt, s')
      /\ forall (now' : Z) (w' src' : string),
           resolvePoll now' pollId w' src' s'
           = (Throw (Error "Poll already resolved"), s').
Proof.
  intros now pollId w src s poll Hpoll Hres Hlinked.
  destruct (resolvePoll_run now pollId w src s poll Hpoll Hres Hlinked)
    as (s' & Hrun & Hpolls & _).
  exists s'. split; [exact Hrun|].
  intros now' w' src'. unfold resolvePoll. rewrite !bind_gets.
  unfold Prisma.poll_findUnique in *. rewrite Hpolls.
  change (fun p : Poll.t => String.eqb (Poll.id p) pollId)
    with (at_key Poll.id pollId) in *.
  rewrite find_replace_first_same by reflexivity.
  rewrite Hpoll. reflexivity.
Qed.

Lemma resolvePoll_exactly_once_witness :
  exists s',
    resolvePoll Scenario.resolved_at "poll" "A" "admin" Scenario.market
    = (Ok tt, s')
    /\ forall (now' : Z) (w' src' : string),
         resolvePoll now' "poll" w' src' s'
         = (Throw (Error "Poll already resolved"), s').
Proof.
  apply (resolvePoll_exactly_once Scenario.resolved_at "poll" "A" "admin"
           Scenario.market Scenario.poll eq_refl eq_refl
           scenario_users_linked).
Defined.

(** C6 (the code departs from it).  When nobody staked on the winning
    option, [resolvePoll] succeeds and closes the poll, yet returns before
    the loop over the losing predictions: the one prediction of the poll
    keeps [isResolved = false], no payout and no [resolvedAt]. *)
Theorem resolvePoll_no_winner_leaves_predictions_open :
  exists s',
    resolvePoll Scenario.resolved_at "poll" "A" "admin" Scenario.one_sided
    = (Ok tt, s')
    /\ option_map Poll.resolvedAt (Prisma.poll_findUnique "poll" s')
       = Some (Some Scenario.resolved_at)
    /\ unresolved_on "poll" Scenario.one_sided = [Scenario.predictionY]
    /\ Prisma.prediction_findById "pY" s' = Some Scenario.predictionY
    /\ Prediction.isResolved Scenario.predictionY = false
    /\ Prediction.payout Scenario.predictionY = None
    /\ Prediction.resolvedAt Scenario.predictionY = None.
Proof.
  eexists. split; [vm_compute; reflexivity|].
  repeat split.
Qed.

Lemma loser_reputation_floor (p : Prediction.t) :
  loser_reputation p = Qfloor (- inject_Z (Prediction.points p) * (1 # 100)).
Proof.
  unfold loser_reputation. apply Qfloor_comp. field.
Qed.

(** C7, amended.  In a successful resolution that has a winner, the
    reputation of the user behind a losing prediction changes by
    [floor(-stake * 0.01)], that is, it drops by the stake's hundredth
    rounded up. *)
Theorem resolvePoll_loser_reputation :
  forall (now : Z) (pollId w src : string) (s s' : db) (p : Prediction.t),
    users_linked s -> one_per_user_and_poll s ->
    resolvePoll now pollId w src s = (Ok tt, s') ->
    let ps := unresolved_on pollId s in
    total_points (winners w ps) <> 0%Z ->
    In p (losers w ps) ->
    exists r,
      reputation_of (Prediction.userId p) s = Some r
      /\ reputation_of (Prediction.userId p) s'
         = Some (r + Qfloor (- inject_Z (Prediction.points p) * (1 # 100)))%Z.
Proof.
  intros now pollId w src s s' p Hlinked Huniq Hrun ps HW Hp.
  destruct (resolvePoll_ok_inv _ _ _ _ _ _ _ Hrun) as (poll & Hpoll & Hres).
  destruct (resolvePoll_run now pollId w src s poll Hpoll Hres Hlinked)
    as (s'' & Hrun' & _ & _ & Husers).
  rewrite Hrun in Hrun'. injection Hrun' as <-.
  fold ps in Husers. rewrite (proj2 (Z.eqb_neq _ 0) HW) in Husers.
  assert (Hnd : NoDup (map Prediction.userId ps))
    by now apply user_ids_of_poll.
  apply losers_incl in Hp as Hp'. destruct Hp' as (Hp1 & Hp2).
  assert (Hin : In p (predictions s)) by now apply in_unresolved_on in Hp1.
  destruct (find_at_key_In User.id (Prediction.userId p) (users s))
    as (u & Hu); [now apply Hlinked|].
  exists (User.reputation u).
  unfold reputation_of, Prisma.user_findUnique.
  change Prisma.is_user with (at_key User.id).
  rewrite Husers. unfold credit.
  rewrite find_apply_all_present;
    [| reflexivity | now apply NoDup_map_filter | assumption].
  rewrite find_apply_all_absent; [| reflexivity |].
  - rewrite Hu. simpl. now rewrite loser_reputation_floor.
  - intros Hl. apply in_map_iff in Hl as (y & Ey & Hy).
    apply winners_incl in Hy as (Hy1 & Hy2).
    apply Hp2. rewrite <- Hy2. f_equal.
    now apply (NoDup_map_eq Prediction.userId ps).
Qed.

Lemma scenario_one_per_user_and_poll : one_per_user_and_poll Scenario.market.
Proof.
  unfold one_per_user_and_poll. simpl.
  repeat constructor; simpl; intuition discriminate.
Defined.

Lemma resolvePoll_loser_reputation_witness :
  exists r,
    reputation_of "userY" Scenario.market = Some r
    /\ reputation_of "userY"
         (snd (resolvePoll Scenario.resolved_at "poll" "A" "admin"
                 Scenario.market))
       = Some (r + Qfloor (- inject_Z 50 * (1 # 100)))%Z.
Proof.
  apply (resolvePoll_loser_reputation Scenario.resolved_at "poll" "A" "admin"
           Scenario.market _ Scenario.predictionY scenario_users_linked
           scenario_one_per_user_and_poll eq_refl).
  - vm_compute. discriminate.
  - simpl. auto.
Defined.

(** C7 as stated fails: the losing stake of 50 costs one point of
    reputation, where [-floor(50 * 0.1 * 0.1)] is 0. *)
Lemma resolvePoll_loser_reputation_counterexample :
  let s' := snd (resolvePoll Scenario.resolved_at "poll" "A" "admin"
                   Scenario.market) in
  In Scenario.predictionY (losers "A" (unresolved_on "poll" Scenario.market))
  /\ reputation_of "userY" Scenario.market = Some 1000%Z
  /\ reputation_of "userY" s' = Some 999%Z
  /\ (999 - 1000 <> - Qfloor (inject_Z 50 * (1 # 10) * (1 # 10)))%Z.
Proof.
  repeat split; try (vm_compute; reflexivity).
  - simpl. auto.
  - vm_compute. discriminate.
Qed.

(** *** createPrediction *)

Lemma unlockAchievement_run (userId name : string) (s : db) :
  exists s', unlockAchievement userId name s = (Ok tt, s')
             /\ same_predictions s s'.
Proof.
  unfold unlockAchievement. rewrite bind_gets.
  destruct (find _ (achievements s)).
  - eexists. split; reflexivity.
  - eexists. split; reflexivity.
Qed.

Lemma checkPredictionAchievements_run (userId : string) (s : db) :
  exists s', checkPredictionAchievements userId s = (Ok tt, s')
             /\ same_predictions s s'.
Proof.
  unfold checkPredictionAchievements. rewrite bind_gets.
  apply for_of_frame.
  - reflexivity.
  - unfold same_predictions. intros; congruence.
  - intros x t _. apply unlockAchievement_run.
Qed.

Lemma updatePollAnalytics_run (now : Z) (pollId : string) (s : db) :
  exists s', updatePollAnalytics now pollId s = (Ok tt, s')
             /\ same_predictions s s'.
Proof.
  unfold updatePollAnalytics. rewrite bind_gets.
  eexists. split; reflexivity.
Qed.

Lemma prediction_findUnique_In (userId pollId : string) (s : db)
    (e : Prediction.t) :
  Prisma.prediction_findUnique userId pollId s = Some e ->
  In e (predictions s) /\ Prediction.userId e = userId
  /\ Prediction.pollId e = pollId.
Proof.
  unfold Prisma.prediction_findUnique. intros H.
  apply find_some in H as (H & E).
  apply andb_prop in E as (E1 & E2).
  apply String.eqb_eq in E1, E2. auto.
Qed.

(** C10, amended.  A [createPrediction] that finds a prediction of the
    same user on the same poll overwrites it in place: the stored row gets
    [createdAt] set to the time of the new submission and the payload's
    [optionId], [confidence] and [points]; [reasoning] is replaced when the
    payload has one and kept otherwise; [id], [userId] and [pollId] do not
    change. *)
Theorem createPrediction_overwrite :
  forall (now : Z) (uuid : string) (payload : PredictionPayload.t)
         (s s' : db) (existing result : Prediction.t),
    ids_unique s ->
    Prisma.prediction_findUnique (PredictionPayload.userId payload)
      (PredictionPayload.pollId payload) s = Some existing ->
    createPrediction now uuid payload s = (Ok result, s') ->
    Prisma.prediction_findById (Prediction.id existing) s' = Some result
    /\ Prediction.createdAt result = now
    /\ Prediction.optionId result = PredictionPayload.optionId payload
    /\ Prediction.confidence result = PredictionPayload.confidence payload
    /\ Prediction.points result = PredictionPayload.points payload
    /\ Prediction.reasoning result
       = match PredictionPayload.reasoning payload with
         | Some r => Some r
         | None => Prediction.reasoning existing
         end
    /\ Prediction.id result = Prediction.id existing
    /\ Prediction.userId result = Prediction.userId existing
    /\ Prediction.pollId result = Prediction.pollId existing.
Proof.
  intros now uuid payload s s' existing result Hids Hex.
  apply prediction_findUnique_In in Hex as Hex'. destruct Hex' as (Hin & _).
  unfold createPrediction.
  destruct (_ || _); [discriminate|].
  destruct (_ || _); [discriminate|].
  rewrite bind_gets.
  destruct (Prisma.poll_findUnique _ s) as [poll|]; [|discriminate].
  destruct (negb (Poll.isActive poll)); [discriminate|].
  destruct (match Poll.expiresAt poll with Some _ => _ | None => _ end);
    [discriminate|].
  rewrite bind_gets, Hex.
  assert (Hupd :
    Prisma.prediction_update (Prediction.id existing) (overwrite now payload) s
    = (Ok (overwrite now payload existing),
       set_predictions
         (replace_first (at_key Prediction.id (Prediction.id existing))
            (overwrite now payload)) s)).
  { unfold Prisma.prediction_update, Prisma.prediction_findById.
    change Prisma.has_id with (at_key Prediction.id).
    now rewrite (find_at_key_NoDup Prediction.id existing _ Hids Hin). }
  rewrite (bind_ok _ _ _ _ _ Hupd).
  set (s1 := set_predictions _ s).
  unfold updateMarketOdds.
  change (bind (ret tt) ?k s1) with (k tt s1). cbv beta.
  destruct (updatePollAnalytics_run now (PredictionPayload.pollId payload) s1)
    as (s2 & E2 & F2).
  rewrite (bind_ok _ _ _ _ _ E2).
  destruct (checkPredictionAchievements_run
              (PredictionPayload.userId payload) s2) as (s3 & E3 & F3).
  rewrite (bind_ok _ _ _ _ _ E3).
  unfold ret. intros H. injection H as <- <-.
  split; [|now repeat split].
  unfold Prisma.prediction_findById.
  change Prisma.has_id with (at_key Prediction.id).
  rewrite F3, F2. unfold s1. cbn [predictions set_predictions].
  rewrite find_replace_first_same by reflexivity.
  now rewrite (find_at_key_NoDup Prediction.id existing _ Hids Hin).
Qed.

Lemma resubmission_ids_unique : ids_unique Resubmission.store.
Proof.
  unfold ids_unique. simpl. repeat constructor. simpl. tauto.
Defined.

Lemma createPrediction_overwrite_witness :
  let run := createPrediction Resubmission.submitted_at "fresh"
               Resubmission.payload Resubmission.store in
  Prisma.prediction_findById "pX" (snd run)
  = Some (overwrite Resubmission.submitted_at Resubmission.payload
            Resubmission.first)
  /\ Prediction.createdAt
       (overwrite Resubmission.submitted_at Resubmission.payload
          Resubmission.first) = Resubmission.submitted_at.
Proof.
  destruct (createPrediction_overwrite Resubmission.submitted_at "fresh"
              Resubmission.payload Resubmission.store _ Resubmission.first
              _ resubmission_ids_unique eq_refl eq_refl)
    as (H1 & H2 & _).
  split; [exact H1 | exact H2].
Defined.

(** C10 as stated fails for [reasoning]: a payload without one leaves the
    stored text in place. *)
Lemma createPrediction_overwrite_counterexample :
  let run := createPrediction Resubmission.submitted_at "fresh"
               Resubmission.payload Resubmission.store in
  Prisma.prediction_findUnique "userX" "poll" Resubmission.store
  = Some Resubmission.first
  /\ (exists result, fst run = Ok result)
  /\ option_map Prediction.reasoning
       (Prisma.prediction_findUnique "userX" "poll" (snd run))
     = Some (Some "first thoughts")
  /\ PredictionPayload.reasoning Resubmission.payload = None
  /\ option_map Prediction.reasoning
       (Prisma.prediction_findUnique "userX" "poll" (snd run))
     <> Some (PredictionPayload.reasoning Resubmission.payload).
Proof.
  repeat split; try (vm_compute; reflexivity).
  - eexists. vm_compute. reflexivity.
  - vm_compute. discriminate.
Qed.

(** C9, amended.  On a poll without unresolved predictions
    [getMarketAnalytics] returns, and [totalVolume], [uniquePredictors],
    [averageConfidence], [consensusProbability] and [liquidityIndex] are
    zero; [marketEfficiency] is 1, and [volatility] is what the poll's vote
    snapshots give (zero when there are fewer than two). *)
Theorem getMarketAnalytics_without_predictions :
  forall (pollId : string) (s : db),
    unresolved_on pollId s = [] ->
    exists a,
      getMarketAnalytics pollId s = Ok a
      /\ MarketAnalytics.totalVolume a = n0
      /\ MarketAnalytics.uniquePredictors a = n0
      /\ MarketAnalytics.averageConfidence a = n0
      /\ MarketAnalytics.consensusProbability a = n0
      /\ Num.same (MarketAnalytics.liquidityIndex a) n0
      /\ MarketAnalytics.marketEfficiency a = n1
      /\ MarketAnalytics.volatility a = calculateVolatility pollId s
      /\ ((List.length
             (filter (fun v => String.eqb (VoteSnapshot.pollId v) pollId)
                (voteSnapshots s)) < 2)%nat ->
          MarketAnalytics.volatility a = n0).
Proof.
  intros pollId s Hnone. unfold getMarketAnalytics.
  fold (unresolved_on pollId s). rewrite Hnone. cbn [include_user].
  eexists. split; [reflexivity|].
  cbn [MarketAnalytics.totalVolume MarketAnalytics.uniquePredictors
       MarketAnalytics.averageConfidence MarketAnalytics.marketEfficiency
       MarketAnalytics.consensusProbability MarketAnalytics.volatility
       MarketAnalytics.liquidityIndex].
  do 4 (split; [reflexivity|]).
  split; [vm_compute; reflexivity|].
  do 2 (split; [reflexivity|]).
  intros Hfew. unfold calculateVolatility.
    set (snaps := filter _ (voteSnapshots s)) in *.
    assert (Hlen : (List.length
                      (firstn 10
                         (sort (fun a b =>
                                  Num.sub
                                    (Num.of_Z (VoteSnapshot.snapshotDate a))
                                    (Num.of_Z (VoteSnapshot.snapshotDate b)))
                               snaps)) < 2)%nat).
  { rewrite length_firstn.
    rewrite (Permutation_length (sort_perm _ snaps)). lia. }
  apply Nat.ltb_lt in Hlen. now rewrite Hlen.
Qed.

Lemma getMarketAnalytics_without_predictions_witness :
  exists a,
    getMarketAnalytics "poll" Scenario.empty = Ok a
    /\ MarketAnalytics.totalVolume a = n0
    /\ MarketAnalytics.uniquePredictors a = n0
    /\ MarketAnalytics.averageConfidence a = n0
    /\ MarketAnalytics.consensusProbability a = n0
    /\ Num.same (MarketAnalytics.liquidityIndex a) n0
    /\ MarketAnalytics.marketEfficiency a = n1
    /\ MarketAnalytics.volatility a = calculateVolatility "poll" Scenario.empty
    /\ ((List.length
           (filter (fun v => String.eqb (VoteSnapshot.pollId v) "poll")
              (voteSnapshots Scenario.empty)) < 2)%nat ->
        MarketAnalytics.volatility a = n0).
Proof.
  apply (getMarketAnalytics_without_predictions "poll" Scenario.empty).
  reflexivity.
Defined.

(** C9 as stated fails: without predictions the efficiency is 1, and the
    volatility follows the vote history. *)
Lemma getMarketAnalytics_without_predictions_counterexample :
  unresolved_on "poll" Quiet.store = []
  /\ exists a,
       getMarketAnalytics "poll" Quiet.store = Ok a
       /\ MarketAnalytics.marketEfficiency a = Fin 1
       /\ MarketAnalytics.volatility a = Fin 20
       /\ ~ Num.same (MarketAnalytics.marketEfficiency a) n0
       /\ ~ Num.same (MarketAnalytics.volatility a) n0.
Proof.
  split; [reflexivity|].
  eexists. split; [vm_compute; reflexivity|].
  repeat split; try (vm_compute; reflexivity);
    vm_compute; intros H; discriminate H.
Qed.

(** C8 (the code departs from it).  [take: limit] cuts the users down
    before they are ranked: once B has won, the full ranking puts userY
    (net profit 98) ahead of userX (net profit -100), but with [limit = 1]
    the leaderboard consists of userX. *)
Theorem getLeaderboard_truncates_before_ranking :
  map (fun r => (LeaderboardRow.userId r, LeaderboardRow.netProfit r))
      (getLeaderboard Scenario.resolved_at all 2 Board.store)
  = [("userY", Fin 98); ("userX", Fin (-100))]
  /\ map (fun r => (LeaderboardRow.userId r, LeaderboardRow.netProfit r))
         (getLeaderboard Scenario.resolved_at all 1 Board.store)
     = [("userX", Fin (-100))].
Proof.
  split; vm_compute; reflexivity.
Qed.

(** C2 (the code departs from it).  On a poll without predictions the sum
    of the raw probabilities is 0, the normalization factor is
    [0.95 / 0 = Infinity], and every option comes back with probability
    [0 * Infinity = NaN] and implied odds "1:NaN" instead of 0 and the
    sentinel. *)
Theorem getMarketOdds_without_predictions :
  (forall o, In o (poll_options "poll" Scenario.empty) ->
             option_predictions Scenario.empty o = [])
  /\ exists odds,
       getMarketOdds Scenario.resolved_at "poll" Scenario.empty = Ok odds
       /\ map (fun o => (MarketOdds.optionId o, MarketOdds.probability o,
                         MarketOdds.impliedOdds o)) odds
          = [("A", NaN, "1:NaN"); ("B", NaN, "1:NaN")].
Proof.
  split.
  - intros o _. reflexivity.
  - eexists. split; vm_compute; reflexivity.
Qed.

(** *** getMarketOdds over the rationals *)

Lemma calculateMarketProbability_q (T : Z) (preds : list Prediction.t) :
  T <> 0%Z ->
  calculateMarketProbability preds (Num.of_Z T) = Fin (raw_q T preds).
Proof.
  intros HT. unfold calculateMarketProbability.
  destruct preds as [|x l]; [reflexivity|].
  set (preds := x :: l).
  change (Nat.eqb (List.length preds) 0) with false.
  rewrite eqb_of_Z_0, (proj2 (Z.eqb_neq T 0) HT). cbn [orb].
  unfold calculateWeightedConfidence.
  change (Nat.eqb (List.length preds) 0) with false. cbv iota.
  rewrite !sum_by_pts, eqb_of_Z_0.
  unfold raw_q. fold preds.
  destruct (Z.eqb_spec (total_points preds) 0) as [E|E].
  - unfold Num.of_Z, Num.div. rewrite (is_zero_inject_Z T HT). reflexivity.
  - rewrite (sum_by_Fin _
               (fun p => Prediction.confidence p
                         * inject_Z (Prediction.points p)))
      by reflexivity.
    unfold Num.of_Z, Num.div.
    rewrite (is_zero_inject_Z T HT), (is_zero_inject_Z _ E). reflexivity.
Qed.

Lemma inject_Z_pos (z : Z) : (0 < z)%Z -> 0 < inject_Z z.
Proof. intros H. change 0 with (inject_Z 0). now rewrite <- Zlt_Qlt. Qed.

Lemma inject_Z_nonneg (z : Z) : (0 <= z)%Z -> 0 <= inject_Z z.
Proof. intros H. change 0 with (inject_Z 0). now rewrite <- Zle_Qle. Qed.

Lemma raw_q_nonneg (T : Z) (preds : list Prediction.t) :
  (0 < T)%Z ->
  (forall p, In p preds ->
     (1 <= Prediction.points p)%Z /\ 0 <= Prediction.confidence p) ->
  0 <= raw_q T preds /\ (preds <> [] -> 0 < raw_q T preds).
Proof.
  intros HT Hv. destruct preds as [|x l]; [split; [apply Qle_refl|tauto]|].
  set (preds := x :: l) in *.
  assert (HV : (0 < total_points preds)%Z).
  { assert (0 <= total_points l)%Z.
    { apply total_points_nonneg. intros p Hp.
      destruct (Hv p (or_intror Hp)). lia. }
    destruct (Hv x (or_introl eq_refl)). unfold preds. simpl. lia. }
  assert (Hshare : 0 < inject_Z (total_points preds) / inject_Z T).
  { apply Qlt_shift_div_l; [now apply inject_Z_pos|].
    rewrite Qmult_0_l. now apply inject_Z_pos. }
  assert (Hw : 0 <= weighted_q preds).
  { unfold weighted_q. apply Qle_shift_div_l; [now apply inject_Z_pos|].
    rewrite Qmult_0_l, qfold_qsum, Qplus_0_l.
    apply qsum_nonneg. intros p Hp. destruct (Hv p Hp) as (H1 & H2).
    apply Qmult_le_0_compat; [assumption|].
    apply inject_Z_nonneg. lia. }
  assert (Hpos : 0 < raw_q T preds).
  { unfold raw_q. fold preds.
    destruct (Z.eqb_spec (total_points preds) 0); [lia|].
    set (share := inject_Z (total_points preds) / inject_Z T) in *.
    set (wq := weighted_q preds) in *.
    change (0 < share * (3 # 10) + wq * (7 # 10)).
    clearbody share wq. lra. }
  split; [now apply Qlt_le_weak | now intros _].
Qed.

Lemma options_volume_sum (s : db) (options : list PollOption.t) :
  sum_by (fun option => sum_by pts (option_predictions s option)) options
  = Num.of_Z (options_volume s options).
Proof.
  unfold sum_by at 1. change n0 with (Num.of_Z 0).
  rewrite (sum_by_of_Z _ (fun o => total_points (option_predictions s o)))
    by (intros; apply sum_by_pts).
  now rewrite Z.add_0_r.
Qed.

Lemma options_volume_pos (s : db) (options : list PollOption.t) :
  valid_stakes s ->
  (exists o p, In o options /\ In p (option_predictions s o)) ->
  (0 < options_volume s options)%Z.
Proof.
  intros Hv (o & p & Ho & Hp).
  assert (Hnn : forall o', (0 <= total_points (option_predictions s o'))%Z).
  { intros o'. apply total_points_nonneg. intros q Hq.
    apply filter_In in Hq as (Hq & _). destruct (Hv q Hq) as (H & _).
    unfold MIN_PREDICTION in H. lia. }
  assert (Hpos : (0 < total_points (option_predictions s o))%Z).
  { destruct (option_predictions s o) as [|x l] eqn:E; [destruct Hp|].
    assert (0 <= total_points l)%Z.
    { apply total_points_nonneg. intros q Hq.
      assert (Hq' : In q (option_predictions s o)) by (rewrite E; now right).
      apply filter_In in Hq' as (Hq' & _). destruct (Hv q Hq') as (H & _).
      unfold MIN_PREDICTION in H. lia. }
    assert (Hx : In x (option_predictions s o)) by (rewrite E; now left).
    apply filter_In in Hx as (Hx & _). destruct (Hv x Hx) as (H' & _).
    unfold MIN_PREDICTION in H'. simpl. lia. }
  induction options as [|o' l IH]; [destruct Ho|]. simpl.
  assert (Hl : (0 <= options_volume s l)%Z).
  { clear IH Ho. induction l as [|o'' l IH]; simpl; [lia|].
    specialize (Hnn o''). lia. }
  destruct Ho as [->|Ho]; [lia|].
  specialize (IH Ho). specialize (Hnn o'). lia.
Qed.

Lemma is_zero_pos (q : Q) : 0 < q -> Num.is_zero q = false.
Proof.
  intros H. unfold Num.is_zero.
  destruct (Qeq_bool q 0) eqn:E; [|reflexivity].
  apply Qeq_bool_eq in E. rewrite E in H. now apply Qlt_irrefl in H.
Qed.

Lemma qsum_pos {A : Type} (g : A -> Q) (l : list A) (x : A) :
  (forall y, In y l -> 0 <= g y) -> In x l -> 0 < g x -> 0 < qsum g l.
Proof.
  intros Hnn Hin Hx.
  apply Qlt_le_trans with (g x); [assumption | now apply qsum_ge_member].
Qed.


Lemma scenario_valid_stakes : valid_stakes Scenario.market.
Proof.
  intros p [<-|[<-|[]]]; unfold MIN_PREDICTION; simpl; split; lia || lra.
Defined.


Lemma sum_by_zeros {A : Type} (f : A -> num) (l : list A) :
  (forall x, In x l -> f x = n0) -> sum_by f l = n0.
Proof.
  unfold sum_by. induction l as [|x l IH]; intros H; cbn [fold_left];
    [reflexivity|].
  rewrite (H x) by now left.
  change (Num.add n0 n0) with n0.
  apply IH. intros; apply H; now right.
Qed.

(** The division by zero of C2 on every store: as soon as no option of the
    poll has an open prediction, all returned probabilities are [NaN]. *)
Lemma getMarketOdds_NaN (now : Z) (pollId : string) (s : db) (poll : Poll.t) :
  Prisma.poll_findUnique pollId s = Some poll ->
  (forall o, In o (poll_options pollId s) -> option_predictions s o = []) ->
  exists odds,
    getMarketOdds now pollId s = Ok odds
    /\ List.length odds = List.length (poll_options pollId s)
    /\ forall x, In x odds ->
         MarketOdds.probability x = NaN
         /\ MarketOdds.impliedOdds x = "1:NaN".
Proof.
  intros Hpoll Hnone. unfold getMarketOdds. rewrite Hpoll.
  set (options := poll_options pollId s) in *.
  eexists. split; [reflexivity|].
  split.
  { rewrite (Permutation_length (sort_perm _ _)). now rewrite !length_map. }
  rewrite (sum_by_zeros _ options).
  2:{ intros o Ho. now rewrite (Hnone o Ho). }
  set (raw := map (option_odds now s n0) options).
  assert (Hraw : forall x, In x raw -> MarketOdds.probability x = n0).
  { intros x Hx. apply in_map_iff in Hx as (o & <- & Ho).
    unfold option_odds. cbn [MarketOdds.probability].
    now rewrite (Hnone o Ho). }
  rewrite (sum_by_zeros _ raw Hraw).
  change (Num.div (Num.sub n1 HOUSE_EDGE) n0) with PInf.
  intros x Hx. apply (Permutation_in _ (sort_perm _ _)) in Hx.
  apply in_map_iff in Hx as (y & <- & Hy).
  unfold normalize.
  cbn [MarketOdds.probability MarketOdds.impliedOdds].
  rewrite (Hraw y Hy). split; reflexivity.
Qed.

(* ================================================================== *)
(** ** Further properties of the service *)
(* ================================================================== *)

(** *** Lists *)

Lemma map_replace_first_inv {A B : Type} (g : A -> B) (p : A -> bool)
    (f : A -> A) (l : list A) :
  (forall x, g (f x) = g x) -> map g (replace_first p f l) = map g l.
Proof.
  intros Hg. induction l as [|y l IH]; simpl; [reflexivity|].
  destruct (p y); simpl; [now rewrite Hg | now rewrite IH].
Qed.

Lemma In_replace_first {A : Type} (p : A -> bool) (f : A -> A) (l : list A)
    (x : A) :
  In x (replace_first p f l) -> In x l \/ exists y, In y l /\ x = f y.
Proof.
  induction l as [|y l IH]; simpl; [tauto|].
  destruct (p y); simpl.
  - intros [<-|H]; [right; exists y; auto | auto].
  - intros [<-|H]; [auto|].
    destruct (IH H) as [H'|(z & Hz & ->)]; [auto|].
    right. exists z. auto.
Qed.

Lemma filter_nil {A : Type} (f : A -> bool) (l : list A) :
  (forall x, In x l -> f x = false) -> filter f l = [].
Proof.
  induction l as [|y l IH]; simpl; intros H; [reflexivity|].
  rewrite (H y) by now left. apply IH. intros; apply H; now right.
Qed.

Lemma find_none_iff {A : Type} (f : A -> bool) (l : list A) :
  find f l = None <-> forall x, In x l -> f x = false.
Proof.
  split; [apply find_none|].
  induction l as [|y l IH]; simpl; intros H; [reflexivity|].
  rewrite (H y) by now left. apply IH. intros; apply H; now right.
Qed.

Lemma filter_key_singleton {A B : Type} (key : A -> B) (same : B -> A -> bool)
    (l : list A) (x : A) :
  (forall k y, same k y = true <-> key y = k) ->
  NoDup (map key l) -> In x l -> filter (same (key x)) l = [x].
Proof.
  intros Hsame. induction l as [|y l IH]; simpl; intros Hnd Hin;
    [destruct Hin|].
  inversion Hnd as [|? ? Hy Hnd']; subst.
  destruct Hin as [->|Hin].
  - rewrite (proj2 (Hsame (key x) x) eq_refl). f_equal.
    apply filter_nil. intros z Hz.
    destruct (same (key x) z) eqn:E; [|reflexivity].
    apply Hsame in E. exfalso. apply Hy. rewrite <- E. now apply in_map.
  - destruct (same (key x) y) eqn:E.
    + apply Hsame in E. exfalso. apply Hy. rewrite E. now apply in_map.
    + now apply IH.
Qed.

(** *** The bookkeeping after a submission *)

Lemma same_core_refl (s : db) : same_core s s.
Proof. now repeat split. Qed.

Lemma same_core_trans (s1 s2 s3 : db) :
  same_core s1 s2 -> same_core s2 s3 -> same_core s1 s3.
Proof.
  intros (A1 & B1 & C1 & D1 & E1 & F1 & G1) (A2 & B2 & C2 & D2 & E2 & F2 & G2).
  repeat split; congruence.
Qed.

Lemma unlockAchievement_core (userId name : string) (s : db) :
  exists s', unlockAchievement userId name s = (Ok tt, s') /\ same_core s s'.
Proof.
  unfold unlockAchievement. rewrite bind_gets.
  destruct (find _ (achievements s)).
  - eexists. split; [reflexivity | now repeat split].
  - eexists. split; [reflexivity | now repeat split].
Qed.

Lemma checkPredictionAchievements_core (userId : string) (s : db) :
  exists s',
    checkPredictionAchievements userId s = (Ok tt, s') /\ same_core s s'.
Proof.
  unfold checkPredictionAchievements. rewrite bind_gets.
  apply for_of_frame.
  - apply same_core_refl.
  - apply same_core_trans.
  - intros x t _. apply unlockAchievement_core.
Qed.

Lemma updatePollAnalytics_core (now : Z) (pollId : string) (s : db) :
  exists s', updatePollAnalytics now pollId s = (Ok tt, s') /\ same_core s s'.
Proof.
  unfold updatePollAnalytics. rewrite bind_gets.
  eexists. split; [reflexivity | now repeat split].
Qed.

(** What follows the prediction write in [createPrediction]. *)
Lemma after_write (now : Z) (payload : PredictionPayload.t)
    (prediction : Prediction.t) (s1 : db) :
  exists s',
    bind (updateMarketOdds (PredictionPayload.pollId payload))
      (fun _ =>
         bind (updatePollAnalytics now (PredictionPayload.pollId payload))
           (fun _ =>
              bind (checkPredictionAchievements
                      (PredictionPayload.userId payload))
                (fun _ => ret prediction))) s1
    = (Ok prediction, s')
    /\ same_core s1 s'.
Proof.
  unfold updateMarketOdds.
  change (bind (ret tt) ?k s1) with (k tt s1). cbv beta.
  destruct (updatePollAnalytics_core now (PredictionPayload.pollId payload) s1)
    as (s2 & E2 & F2).
  rewrite (bind_ok _ _ _ _ _ E2).
  destruct (checkPredictionAchievements_core
              (PredictionPayload.userId payload) s2) as (s3 & E3 & F3).
  rewrite (bind_ok _ _ _ _ _ E3).
  exists s3. split; [reflexivity|].
  eapply same_core_trans; eassumption.
Qed.

(** *** The checks of [createPrediction] *)

Lemma confidence_check (c : Q) :
  Num.ltb (Fin c) n0 || Num.gtb (Fin c) n1 = false <-> 0 <= c <= 1.
Proof.
  unfold Num.gtb, Num.ltb, n0, n1. rewrite orb_false_iff, !negb_false_iff.
  now rewrite !Qle_bool_iff.
Qed.

Lemma points_check (z : Z) :
  (z <? MIN_PREDICTION)%Z || (z >? MAX_PREDICTION)%Z = false
  <-> (MIN_PREDICTION <= z <= MAX_PREDICTION)%Z.
Proof.
  rewrite orb_false_iff, Z.ltb_ge, Z.gtb_ltb, Z.ltb_ge. tauto.
Qed.

Lemma expiry_check (now : Z) (poll : Poll.t) :
  match Poll.expiresAt poll with
  | Some expiresAt => (now >? expiresAt)%Z
  | None => false
  end = false
  <-> (forall e, Poll.expiresAt poll = Some e -> (now <= e)%Z).
Proof.
  destruct (Poll.expiresAt poll) as [e|].
  - rewrite Z.gtb_ltb, Z.ltb_ge. split.
    + intros H e' [= <-]. exact H.
    + intros H. now apply H.
  - split; [discriminate | reflexivity].
Qed.

Lemma createPrediction_cases (now : Z) (uuid : string)
    (payload : PredictionPayload.t) (s : db) :
  (exists m,
      In m validation_messages
      /\ createPrediction now uuid payload s = (Throw (Error m), s)
      /\ ~ (payload_in_range payload
            /\ open_for_predictions now (PredictionPayload.pollId payload) s))
  \/ (payload_in_range payload
      /\ open_for_predictions now (PredictionPayload.pollId payload) s
      /\ createPrediction now uuid payload s
         = bind
             (match Prisma.prediction_findUnique
                      (PredictionPayload.userId payload)
                      (PredictionPayload.pollId payload) s with
              | Some existingPrediction =>
                  Prisma.prediction_update (Prediction.id existingPrediction)
                    (overwrite now payload)
              | None =>
                  Prisma.prediction_create (new_row now uuid payload)
              end)
             (fun prediction =>
                bind (updateMarketOdds (PredictionPayload.pollId payload))
                  (fun _ =>
                     bind (updatePollAnalytics now
                             (PredictionPayload.pollId payload))
                       (fun _ =>
                          bind (checkPredictionAchievements
                                  (PredictionPayload.userId payload))
                            (fun _ => ret prediction)))) s).
Proof.
  unfold createPrediction, validation_messages.
  destruct (Num.ltb (Fin (PredictionPayload.confidence payload)) n0
            || Num.gtb (Fin (PredictionPayload.confidence payload)) n1)
    eqn:Econf.
  { left. eexists. split; [left; reflexivity|]. split; [reflexivity|].
    intros ((H & _) & _). apply confidence_check in H. congruence. }
  destruct ((PredictionPayload.points payload <? MIN_PREDICTION)%Z
            || (PredictionPayload.points payload >? MAX_PREDICTION)%Z)
    eqn:Epts.
  { left. eexists. split; [right; left; reflexivity|].
    split; [reflexivity|].
    intros ((_ & H) & _). apply points_check in H. congruence. }
  apply confidence_check in Econf. apply points_check in Epts.
  rewrite bind_gets.
  destruct (Prisma.poll_findUnique _ s) as [poll|] eqn:Epoll.
  2:{ left. eexists. split; [do 2 right; left; reflexivity|].
      split; [reflexivity|].
      intros (_ & (poll & H & _)). congruence. }
  destruct (Poll.isActive poll) eqn:Eact; cbn [negb].
  2:{ left. eexists. split; [do 2 right; left; reflexivity|].
      split; [reflexivity|].
      intros (_ & (poll' & H & H' & _)). congruence. }
  destruct (match Poll.expiresAt poll with Some _ => _ | None => _ end)
    eqn:Eexp.
  { left. eexists. split; [do 3 right; left; reflexivity|].
    split; [reflexivity|].
    intros (_ & (poll' & H & _ & H')).
    assert (poll' = poll) by congruence. subst poll'.
    pose proof (proj2 (expiry_check now poll) H'). congruence. }
  pose proof (proj1 (expiry_check now poll) Eexp) as Hexp.
  right. split; [now split|]. split; [exists poll; auto|].
  rewrite bind_gets. reflexivity.
Qed.

Lemma createPrediction_accepted (now : Z) (uuid : string)
    (payload : PredictionPayload.t) (s : db) :
  payload_in_range payload ->
  open_for_predictions now (PredictionPayload.pollId payload) s ->
  match Prisma.prediction_findUnique (PredictionPayload.userId payload)
          (PredictionPayload.pollId payload) s with
  | Some existing =>
      exists row s',
        Prisma.prediction_findById (Prediction.id existing) s = Some row
        /\ createPrediction now uuid payload s
           = (Ok (overwrite now payload row), s')
        /\ same_core
             (set_predictions
                (replace_first (at_key Prediction.id (Prediction.id existing))
                   (overwrite now payload)) s) s'
  | None =>
      (In uuid (map Prediction.id (predictions s))
       /\ createPrediction now uuid payload s
          = (Throw (UniqueConstraint "Prediction"), s))
      \/ (~ In uuid (map Prediction.id (predictions s))
          /\ exists s',
               createPrediction now uuid payload s
               = (Ok (new_row now uuid payload), s')
               /\ same_core
                    (set_predictions
                       (fun l => (l ++ [new_row now uuid payload])%list) s)
                    s')
  end.
Proof.
  intros Hrange Hopen.
  destruct (createPrediction_cases now uuid payload s)
    as [(m & _ & _ & Hno)|(_ & _ & Hrun)]; [tauto|].
  rewrite Hrun. clear Hrun.
  destruct (Prisma.prediction_findUnique _ _ s) as [existing|] eqn:Eex.
  - apply prediction_findUnique_In in Eex as (Hin & _).
    destruct (find_at_key_In Prediction.id (Prediction.id existing)
                (predictions s)) as (row & Hrow); [now apply in_map|].
    assert (Hupd :
      Prisma.prediction_update (Prediction.id existing)
        (overwrite now payload) s
      = (Ok (overwrite now payload row),
         set_predictions
           (replace_first (at_key Prediction.id (Prediction.id existing))
              (overwrite now payload)) s)).
    { unfold Prisma.prediction_update, Prisma.prediction_findById.
      change Prisma.has_id with (at_key Prediction.id). now rewrite Hrow. }
    rewrite (bind_ok _ _ _ _ _ Hupd).
    destruct (after_write now payload (overwrite now payload row)
                (set_predictions
                   (replace_first
                      (at_key Prediction.id (Prediction.id existing))
                      (overwrite now payload)) s)) as (s' & E & F).
    exists row, s'. split; [exact Hrow|]. split; assumption.
  - unfold Prisma.prediction_findUnique in Eex.
    assert (Hex :
      existsb
        (fun p =>
           String.eqb (Prediction.id p) (Prediction.id (new_row now uuid payload))
           || (String.eqb (Prediction.userId p)
                 (Prediction.userId (new_row now uuid payload))
               && String.eqb (Prediction.pollId p)
                    (Prediction.pollId (new_row now uuid payload))))
        (predictions s) = true
      <-> In uuid (map Prediction.id (predictions s))).
    { rewrite existsb_exists, in_map_iff. cbn [new_row Prediction.id
        Prediction.userId Prediction.pollId].
      split.
      - intros (x & Hx & E). rewrite (find_none _ _ Eex x Hx) in E.
        rewrite orb_false_r in E. apply String.eqb_eq in E. eauto.
      - intros (x & E & Hx). exists x. split; [assumption|].
        rewrite E, String.eqb_refl. reflexivity. }
    destruct (existsb _ (predictions s)) eqn:Eb.
    + left. split; [now apply Hex|].
      unfold bind, Prisma.prediction_create. now rewrite Eb.
    + right. split; [intros H; apply Hex in H; discriminate|].
      assert (Hcr :
        Prisma.prediction_create (new_row now uuid payload) s
        = (Ok (new_row now uuid payload),
           set_predictions
             (fun l => (l ++ [new_row now uuid payload])%list) s)).
      { unfold Prisma.prediction_create. now rewrite Eb. }
      rewrite (bind_ok _ _ _ _ _ Hcr).
      destruct (after_write now payload (new_row now uuid payload)
                  (set_predictions
                     (fun l => (l ++ [new_row now uuid payload])%list) s))
        as (s' & E & F).
      exists s'. split; assumption.
Qed.

(** *** createPrediction: rejection, acceptance, invariants *)

(** X1.  A submission that fails a check of [createPrediction] (confidence
    within [0, 1], points within [MIN_PREDICTION, MAX_PREDICTION], poll
    stored and active, poll not expired) is rejected with one of the four
    error messages, and the store is the one it started from. *)
Theorem createPrediction_invalid_rejected :
  forall (now : Z) (uuid : string) (payload : PredictionPayload.t) (s : db),
    ~ (payload_in_range payload
       /\ open_for_predictions now (PredictionPayload.pollId payload) s) ->
    exists m,
      In m validation_messages
      /\ createPrediction now uuid payload s = (Throw (Error m), s).
Proof.
  intros now uuid payload s Hbad.
  destruct (createPrediction_cases now uuid payload s)
    as [(m & Hm & Hrun & _)|(H1 & H2 & _)]; [eauto | tauto].
Qed.



Lemma overwrite_in_range (now : Z) (payload : PredictionPayload.t)
    (row : Prediction.t) :
  payload_in_range payload ->
  (MIN_PREDICTION <= Prediction.points (overwrite now payload row)
   <= MAX_PREDICTION)%Z
  /\ 0 <= Prediction.confidence (overwrite now payload row) <= 1.
Proof. intros (H1 & H2). split; assumption. Qed.

(** The prediction table an accepted submission leaves. *)
Lemma createPrediction_table (now : Z) (uuid : string)
    (payload : PredictionPayload.t) (s s' : db) (r : Prediction.t) :
  createPrediction now uuid payload s = (Ok r, s') ->
  payload_in_range payload
  /\ polls s' = polls s /\ pollOptions s' = pollOptions s
  /\ users s' = users s /\ voteSnapshots s' = voteSnapshots s
  /\ ((exists existing row,
          Prisma.prediction_findUnique (PredictionPayload.userId payload)
            (PredictionPayload.pollId payload) s = Some existing
          /\ Prisma.prediction_findById (Prediction.id existing) s = Some row
          /\ r = overwrite now payload row
          /\ predictions s'
             = replace_first (at_key Prediction.id (Prediction.id existing))
                 (overwrite now payload) (predictions s))
      \/ (Prisma.prediction_findUnique (PredictionPayload.userId payload)
            (PredictionPayload.pollId payload) s = None
          /\ ~ In uuid (map Prediction.id (predictions s))
          /\ r = new_row now uuid payload
          /\ predictions s' = (predictions s ++ [r])%list)).
Proof.
  intros Hrun.
  destruct (createPrediction_cases now uuid payload s)
    as [(m & _ & Hrun' & _)|(H1 & H2 & _)]; [congruence|].
  pose proof (createPrediction_accepted now uuid payload s H1 H2) as Hacc.
  split; [assumption|].
  destruct (Prisma.prediction_findUnique _ _ s) as [existing|] eqn:Eex.
  - destruct Hacc as (row & s'' & Hrow & Hrun' & (A & B & C & D & E & F & G)).
    rewrite Hrun in Hrun'. injection Hrun' as -> <-.
    repeat (split; [assumption|]).
    left. exists existing, row. now repeat split.
  - destruct Hacc as [(_ & Hrun')|(Hnot & s'' & Hrun' & (A & B & C & D & E & F & G))];
      [congruence|].
    rewrite Hrun in Hrun'. injection Hrun' as -> <-.
    repeat (split; [assumption|]).
    right. now repeat split.
Qed.

Lemma createPrediction_keys_kept (now : Z) (uuid : string)
    (payload : PredictionPayload.t) (s s' : db) (r : Prediction.t) :
  ids_unique s -> one_per_user_and_poll s ->
  createPrediction now uuid payload s = (Ok r, s') ->
  ids_unique s' /\ one_per_user_and_poll s'.
Proof.
  intros Hids Huniq Hrun.
  destruct (createPrediction_table _ _ _ _ _ _ Hrun)
    as (_ & _ & _ & _ & _ & [(ex & row & _ & _ & _ & Ht)|(Hnone & Hfresh & -> & Ht)]);
    unfold ids_unique, one_per_user_and_poll; rewrite Ht.
  - now rewrite !map_replace_first_inv by reflexivity.
  - rewrite !map_app. cbn [map new_row Prediction.id Prediction.userId
      Prediction.pollId].
    split.
    + apply NoDup_app; [assumption | repeat constructor; simpl; tauto |].
      intros x Hx [<-|[]]. now apply Hfresh.
    + apply NoDup_app; [assumption | repeat constructor; simpl; tauto |].
      intros x Hx [<-|[]].
      apply in_map_iff in Hx as (p & E & Hp).
      unfold Prisma.prediction_findUnique in Hnone.
      pose proof (find_none _ _ Hnone p Hp) as F. cbv beta in F.
      injection E as E1 E2. rewrite E1, E2, !String.eqb_refl in F.
      discriminate.
Qed.


(** X4.  An accepted submission keeps the invariants of the prediction
    table: ids stay unique and there is still at most one row per user and
    poll; and every stored stake stays within [MIN_PREDICTION,
    MAX_PREDICTION] and every confidence within [0, 1]. *)
Theorem createPrediction_keeps_invariants :
  forall (now : Z) (uuid : string) (payload : PredictionPayload.t)
         (s s' : db) (r : Prediction.t),
    createPrediction now uuid payload s = (Ok r, s') ->
    (ids_unique s -> one_per_user_and_poll s ->
     ids_unique s' /\ one_per_user_and_poll s')
    /\ (stakes_in_range s -> stakes_in_range s').
Proof.
  intros now uuid payload s s' r Hrun. split.
  - intros Hids Huniq.
    exact (createPrediction_keys_kept _ _ _ _ _ _ Hids Huniq Hrun).
  - intros Hs p Hp.
    destruct (createPrediction_table _ _ _ _ _ _ Hrun)
      as (Hrange & _ & _ & _ & _ & [(ex & row & _ & _ & _ & Ht)|(_ & _ & -> & Ht)]);
      rewrite Ht in Hp.
    + apply In_replace_first in Hp as [Hp|(y & _ & ->)]; [now apply Hs|].
      now apply overwrite_in_range.
    + apply in_app_iff in Hp as [Hp|[<-|[]]]; [now apply Hs|].
      destruct Hrange. split; assumption.
Qed.

Lemma In_replace_first_miss {A : Type} (p : A -> bool) (f : A -> A)
    (l : list A) (x : A) :
  In x l -> p x = false -> In x (replace_first p f l).
Proof.
  induction l as [|y l IH]; simpl; [tauto|].
  intros [->|H] Hp.
  - rewrite Hp. now left.
  - destruct (p y); right; auto.
Qed.

Lemma find_hd_filter {A : Type} (f : A -> bool) (l : list A) :
  find f l = hd_error (filter f l).
Proof.
  induction l as [|y l IH]; simpl; [reflexivity|].
  destruct (f y); [reflexivity | exact IH].
Qed.

Lemma user_poll_key (k : string * string) (p : Prediction.t) :
  String.eqb (Prediction.userId p) (fst k)
  && String.eqb (Prediction.pollId p) (snd k) = true
  <-> (Prediction.userId p, Prediction.pollId p) = k.
Proof.
  destruct k as (u, q). cbn [fst snd].
  rewrite andb_true_iff, !String.eqb_eq. split.
  - now intros (-> & ->).
  - now intros [= -> ->].
Qed.

(** The row a user holds on a poll after an accepted submission. *)
Lemma createPrediction_single_row (now : Z) (uuid : string)
    (payload : PredictionPayload.t) (s s' : db) (r : Prediction.t) :
  ids_unique s -> one_per_user_and_poll s ->
  createPrediction now uuid payload s = (Ok r, s') ->
  rows_of (PredictionPayload.userId payload)
    (PredictionPayload.pollId payload) s' = [r]
  /\ Prediction.optionId r = PredictionPayload.optionId payload
  /\ Prediction.confidence r = PredictionPayload.confidence payload
  /\ Prediction.points r = PredictionPayload.points payload
  /\ Prediction.createdAt r = now
  /\ (forall existing,
        Prisma.prediction_findUnique (PredictionPayload.userId payload)
          (PredictionPayload.pollId payload) s = Some existing ->
        Prediction.id r = Prediction.id existing
        /\ List.length (predictions s') = List.length (predictions s)).
Proof.
  intros Hids Huniq Hrun.
  destruct (createPrediction_keys_kept _ _ _ _ _ _ Hids Huniq Hrun)
    as (Hids' & Huniq').
  destruct (createPrediction_table _ _ _ _ _ _ Hrun)
    as (_ & _ & _ & _ & _ & [(ex & row & Hex & Hrow & -> & Ht)|(Hnone & _ & -> & Ht)]).
  - apply prediction_findUnique_In in Hex as Hex'.
    destruct Hex' as (Hin & Hu & Hq).
    assert (row = ex).
    { unfold Prisma.prediction_findById in Hrow.
      change Prisma.has_id with (at_key Prediction.id) in Hrow.
      rewrite (find_at_key_NoDup Prediction.id ex _ Hids Hin) in Hrow.
      congruence. }
    subst row.
    assert (Hr : In (overwrite now payload ex) (predictions s')).
    { rewrite Ht.
      apply (find_some (at_key Prediction.id (Prediction.id ex))).
      rewrite find_replace_first_same by reflexivity.
      now rewrite (find_at_key_NoDup Prediction.id ex _ Hids Hin). }
    split.
    + pose proof (filter_key_singleton
                    (fun p => (Prediction.userId p, Prediction.pollId p))
                    (fun k p => String.eqb (Prediction.userId p) (fst k)
                                && String.eqb (Prediction.pollId p) (snd k))
                    (predictions s') (overwrite now payload ex)
                    user_poll_key Huniq' Hr) as F.
      cbn [overwrite Prediction.userId Prediction.pollId fst snd] in F.
      rewrite Hu, Hq in F. exact F.
    + repeat (split; [reflexivity|]).
      intros existing Hex2. rewrite Hex in Hex2. injection Hex2 as <-.
      split; [reflexivity|].
      rewrite Ht. rewrite <- (length_map Prediction.id).
      rewrite map_replace_first_inv by reflexivity. apply length_map.
  - assert (Hr : In (new_row now uuid payload) (predictions s'))
      by (rewrite Ht; apply in_app_iff; right; now left).
    split.
    + exact (filter_key_singleton
               (fun p => (Prediction.userId p, Prediction.pollId p))
               (fun k p => String.eqb (Prediction.userId p) (fst k)
                           && String.eqb (Prediction.pollId p) (snd k))
               (predictions s') (new_row now uuid payload)
               user_poll_key Huniq' Hr).
    + repeat (split; [reflexivity|]).
      intros existing Hex. congruence.
Qed.

(** X5.  A user's second submission on a poll replaces the first: after two
    accepted [createPrediction] calls for the same user and poll the user
    holds exactly one row on the poll, it is the row of the first call (same
    id, the table has not grown) and it carries the second call's option,
    confidence, points and time. *)
Theorem createPrediction_twice :
  forall (now1 now2 : Z) (uuid1 uuid2 : string)
         (first second : PredictionPayload.t) (s s1 s2 : db)
         (r1 r2 : Prediction.t),
    ids_unique s -> one_per_user_and_poll s ->
    PredictionPayload.userId second = PredictionPayload.userId first ->
    PredictionPayload.pollId second = PredictionPayload.pollId first ->
    createPrediction now1 uuid1 first s = (Ok r1, s1) ->
    createPrediction now2 uuid2 second s1 = (Ok r2, s2) ->
    rows_of (PredictionPayload.userId first) (PredictionPayload.pollId first)
      s2 = [r2]
    /\ Prediction.id r2 = Prediction.id r1
    /\ List.length (predictions s2) = List.length (predictions s1)
    /\ Prediction.optionId r2 = PredictionPayload.optionId second
    /\ Prediction.confidence r2 = PredictionPayload.confidence second
    /\ Prediction.points r2 = PredictionPayload.points second
    /\ Prediction.createdAt r2 = now2.
Proof.
  intros now1 now2 uuid1 uuid2 first second s s1 s2 r1 r2
         Hids Huniq Hu Hq Hrun1 Hrun2.
  destruct (createPrediction_keys_kept _ _ _ _ _ _ Hids Huniq Hrun1)
    as (Hids1 & Huniq1).
  destruct (createPrediction_single_row _ _ _ _ _ _ Hids Huniq Hrun1)
    as (Hrows1 & _).
  destruct (createPrediction_single_row _ _ _ _ _ _ Hids1 Huniq1 Hrun2)
    as (Hrows2 & Ho & Hc & Hp & Ht & Hex).
  rewrite Hu, Hq in Hrows2, Hex.
  assert (Hfind :
    Prisma.prediction_findUnique (PredictionPayload.userId first)
      (PredictionPayload.pollId first) s1 = Some r1).
  { unfold Prisma.prediction_findUnique. rewrite find_hd_filter.
    fold (rows_of (PredictionPayload.userId first)
            (PredictionPayload.pollId first) s1).
    now rewrite Hrows1. }
  destruct (Hex r1 Hfind) as (Hid & Hlen).
  now repeat split.
Qed.

(** X6.  An accepted submission writes to the prediction table and to the
    bookkeeping only: polls, options, vote snapshots and users are as
    before (no stake is taken off the user's reputation), and with unique
    ids every row of another user or poll is still stored. *)
Theorem createPrediction_frame :
  forall (now : Z) (uuid : string) (payload : PredictionPayload.t)
         (s s' : db) (r : Prediction.t),
    ids_unique s ->
    createPrediction now uuid payload s = (Ok r, s') ->
    polls s' = polls s /\ pollOptions s' = pollOptions s
    /\ users s' = users s /\ voteSnapshots s' = voteSnapshots s
    /\ forall p, In p (predictions s) ->
         ~ (Prediction.userId p = PredictionPayload.userId payload
            /\ Prediction.pollId p = PredictionPayload.pollId payload) ->
         In p (predictions s').
Proof.
  intros now uuid payload s s' r Hids Hrun.
  destruct (createPrediction_table _ _ _ _ _ _ Hrun)
    as (_ & A & B & C & D & Ht).
  repeat (split; [assumption|]).
  intros p Hp Hother.
  destruct Ht as [(ex & row & Hex & _ & _ & Ht)|(_ & _ & _ & Ht)]; rewrite Ht.
  - apply prediction_findUnique_In in Hex as (Hin & Hu & Hq).
    apply In_replace_first_miss; [assumption|].
    unfold at_key. apply String.eqb_neq. intros E.
    apply Hother.
    rewrite (NoDup_map_eq Prediction.id _ p ex Hids Hp Hin E). auto.
  - apply in_app_iff. now left.
Qed.

(** *** resolvePoll: failure, frame, completeness *)

Lemma map_apply_all_inv {A B C : Type} (key : A -> string) (kx : B -> string)
    (fx : B -> A -> A) (g : A -> C) (xs : list B) (l : list A) :
  (forall b x, g (fx b x) = g x) ->
  map g (apply_all key kx fx xs l) = map g l.
Proof.
  intros Hg. revert l. induction xs as [|b xs IH]; intros l; [reflexivity|].
  unfold apply_all in *. cbn [fold_left]. rewrite IH.
  now apply map_replace_first_inv.
Qed.

Lemma for_of_throw_inv {A : Type} (body : A -> M unit) (xs : list A)
    (s s' : db) (e : exn) :
  for_of xs body s = (Throw e, s') ->
  exists x s1, In x xs /\ body x s1 = (Throw e, s').
Proof.
  revert s. induction xs as [|x xs IH]; intros s; cbn [for_of].
  - discriminate.
  - unfold bind at 1. destruct (body x s) as ([[]|e0], s1) eqn:E.
    + intros H. destruct (IH _ H) as (y & s2 & Hy & Hb).
      exists y, s2. split; [now right | assumption].
    + intros [= <- <-]. exists x, s. split; [now left | assumption].
Qed.

Lemma settle_step_throw (now : Z) (id userId : string) (payout g c : num)
    (s s' : db) (e : exn) :
  bind (settle now id payout) (fun _ => updateUserReputation userId g c) s
  = (Throw e, s') ->
  ~ is_Error e.
Proof.
  unfold bind, settle, throw, updateUserReputation,
    Prisma.user_incrementReputation, Prisma.prediction_update.
  destruct (Num.to_int payout); [|intros [= <- _]; exact (fun H => H)].
  destruct (Prisma.prediction_findById id s);
    [|intros [= <- _]; exact (fun H => H)].
  destruct (Prisma.user_findUnique userId _);
    [|intros [= <- _]; exact (fun H => H)].
  destruct (Num.to_int _); [discriminate|].
  intros [= <- _]. exact (fun H => H).
Qed.

(** X7.  The only application errors of [resolvePoll] are "Poll not found"
    (no such poll) and "Poll already resolved" ([resolvedAt] is set), and
    when one of them is thrown nothing has been written. *)
Theorem resolvePoll_error_writes_nothing :
  forall (now : Z) (pollId w src : string) (s s' : db) (m : string),
    resolvePoll now pollId w src s = (Throw (Error m), s') ->
    s' = s
    /\ ((m = "Poll not found" /\ Prisma.poll_findUnique pollId s = None)
        \/ (m = "Poll already resolved"
            /\ exists poll t,
                 Prisma.poll_findUnique pollId s = Some poll
                 /\ Poll.resolvedAt poll = Some t)).
Proof.
  intros now pollId w src s s' m. unfold resolvePoll. rewrite !bind_gets.
  destruct (Prisma.poll_findUnique pollId s) as [poll|] eqn:Epoll.
  2:{ intros [= <- <-]. split; [reflexivity | left; auto]. }
  destruct (Poll.resolvedAt poll) as [t|] eqn:Eres.
  { intros [= <- <-]. split; [reflexivity|]. right. split; eauto. }
  intros Hrun. exfalso.
  unfold bind at 1 in Hrun. unfold Prisma.poll_update in Hrun.
  rewrite Epoll in Hrun.
  destruct (Num.eqb _ n0); [discriminate|].
  unfold bind at 1 in Hrun.
  match type of Hrun with
  | context [for_of ?xs ?body ?st] =>
      destruct (for_of xs body st) as ([[]|e1], s1) eqn:E1
  end.
  2:{ injection Hrun as -> _.
      apply for_of_throw_inv in E1 as (x & s0 & _ & Hb).
      apply settle_step_throw in Hb. apply Hb. exact I. }
  unfold bind at 1 in Hrun.
  match type of Hrun with
  | context [for_of ?xs ?body ?st] =>
      destruct (for_of xs body st) as ([[]|e2], s2) eqn:E2
  end.
  2:{ injection Hrun as -> _.
      apply for_of_throw_inv in E2 as (x & s0 & _ & Hb).
      apply settle_step_throw in Hb. apply Hb. exact I. }
  destruct (createResolutionNotifications_run pollId w s2) as (s3 & E3 & _).
  congruence.
Qed.

(** The tables a successful [resolvePoll] leaves, with the preconditions
    read back from the success. *)
Lemma resolvePoll_tables (now : Z) (pollId w src : string) (s s' : db) :
  users_linked s ->
  resolvePoll now pollId w src s = (Ok tt, s') ->
  let ps := unresolved_on pollId s in
  let W := total_points (winners w ps) in
  let T := total_points ps in
  exists poll,
    Prisma.poll_findUnique pollId s = Some poll
    /\ Poll.resolvedAt poll = None
    /\ polls s'
       = replace_first (at_key Poll.id pollId) (close_poll now w src) (polls s)
    /\ predictions s'
       = (if (W =? 0)%Z then predictions s
          else pay now (fun _ => 0%Z) (losers w ps)
                 (pay now (payout_of W T) (winners w ps) (predictions s)))
    /\ users s'
       = (if (W =? 0)%Z then users s
          else credit loser_reputation (losers w ps)
                 (credit (winner_reputation W T) (winners w ps) (users s))).
Proof.
  intros Hlinked Hrun ps W T.
  destruct (resolvePoll_ok_inv _ _ _ _ _ _ _ Hrun) as (poll & Hpoll & Hres).
  destruct (resolvePoll_run now pollId w src s poll Hpoll Hres Hlinked)
    as (s'' & Hrun' & Hp & Hpreds & Husers).
  rewrite Hrun in Hrun'. injection Hrun' as <-.
  exists poll. now repeat split.
Qed.

Lemma resolvePoll_poll_rows :
  forall (now : Z) (pollId w src : string) (s s' : db),
    users_linked s ->
    resolvePoll now pollId w src s = (Ok tt, s') ->
    (exists poll,
        Prisma.poll_findUnique pollId s = Some poll
        /\ Prisma.poll_findUnique pollId s'
           = Some (Poll.mk (Poll.id poll) (Poll.expiresAt poll) (Some now)
                     (Some w) (Some src) false))
    /\ forall other, other <> pollId ->
         Prisma.poll_findUnique other s' = Prisma.poll_findUnique other s.
Proof.
  intros now pollId w src s s' Hlinked Hrun.
  destruct (resolvePoll_tables _ _ _ _ _ _ Hlinked Hrun)
    as (poll & Hpoll & _ & Hpolls & _).
  unfold Prisma.poll_findUnique in *. rewrite Hpolls.
  split.
  - exists poll. split; [assumption|].
    change (fun p : Poll.t => String.eqb (Poll.id p) pollId)
      with (at_key Poll.id pollId) in *.
    rewrite find_replace_first_same by reflexivity. now rewrite Hpoll.
  - intros other Hother.
    change (fun p : Poll.t => String.eqb (Poll.id p) other)
      with (at_key Poll.id other).
    now apply find_replace_first_other.
Qed.

(** X8.  A successful [resolvePoll] closes its poll and no other: the
    poll's row gets [resolvedAt = now], [resolutionResult =
    winningOptionId], the given source and [isActive = false], and the
    lookup of any other poll id is what it was. *)
Theorem resolvePoll_closes_poll :
  forall (now : Z) (pollId w src : string) (s s' : db),
    users_linked s ->
    resolvePoll now pollId w src s = (Ok tt, s') ->
    (exists poll,
        Prisma.poll_findUnique pollId s = Some poll
        /\ Prisma.poll_findUnique pollId s'
           = Some (Poll.mk (Poll.id poll) (Poll.expiresAt poll) (Some now)
                     (Some w) (Some src) false))
    /\ forall other, other <> pollId ->
         Prisma.poll_findUnique other s' = Prisma.poll_findUnique other s.
Proof. exact resolvePoll_poll_rows. Qed.

(** X9.  Once a poll is resolved it takes no more predictions: after a
    successful [resolvePoll], a [createPrediction] on that poll with
    confidence and points in range is rejected with "Poll is not active"
    and writes nothing. *)
Theorem resolvePoll_then_createPrediction :
  forall (now now' : Z) (pollId w src uuid : string) (s s' : db)
         (payload : PredictionPayload.t),
    users_linked s ->
    resolvePoll now pollId w src s = (Ok tt, s') ->
    payload_in_range payload ->
    PredictionPayload.pollId payload = pollId ->
    createPrediction now' uuid payload s'
    = (Throw (Error "Poll is not active"), s').
Proof.
  intros now now' pollId w src uuid s s' payload Hlinked Hrun (Hc & Hp) Hq.
  destruct (resolvePoll_poll_rows _ _ _ _ _ _ Hlinked Hrun)
    as ((poll & _ & Hpoll') & _).
  unfold createPrediction.
  rewrite (proj2 (confidence_check _) Hc), (proj2 (points_check _) Hp).
  rewrite bind_gets, Hq, Hpoll'. reflexivity.
Qed.

Lemma not_in_ids (s : db) (xs : list Prediction.t) (p : Prediction.t) :
  ids_unique s -> In p (predictions s) ->
  (forall x, In x xs -> In x (predictions s)) -> ~ In p xs ->
  ~ In (Prediction.id p) (map Prediction.id xs).
Proof.
  intros Hids Hp Hxs Hnot Hin.
  apply in_map_iff in Hin as (y & E & Hy).
  apply Hnot.
  now rewrite <- (NoDup_map_eq Prediction.id _ y p Hids (Hxs y Hy) Hp E).
Qed.

Lemma resolvePoll_untouched :
  forall (now : Z) (pollId w src : string) (s s' : db),
    ids_unique s -> users_linked s ->
    resolvePoll now pollId w src s = (Ok tt, s') ->
    (forall p, In p (predictions s) -> ~ In p (unresolved_on pollId s) ->
       Prisma.prediction_findById (Prediction.id p) s' = Some p)
    /\ (forall u,
          (forall p, In p (unresolved_on pollId s) ->
                     Prediction.userId p <> u) ->
          Prisma.user_findUnique u s' = Prisma.user_findUnique u s).
Proof.
  intros now pollId w src s s' Hids Hlinked Hrun.
  destruct (resolvePoll_tables _ _ _ _ _ _ Hlinked Hrun)
    as (poll & _ & _ & _ & Hpreds & Husers).
  set (ps := unresolved_on pollId s) in *.
  assert (Hin : forall x, In x ps -> In x (predictions s))
    by (intros x Hx; now apply in_unresolved_on in Hx).
  unfold Prisma.prediction_findById, Prisma.user_findUnique.
  change Prisma.has_id with (at_key Prediction.id).
  change Prisma.is_user with (at_key User.id).
  rewrite Hpreds, Husers.
  destruct (total_points (winners w ps) =? 0)%Z.
  - split; [|reflexivity].
    intros p Hp _. now apply find_at_key_NoDup.
  - split.
    + intros p Hp Hnot. unfold pay.
      rewrite !find_apply_all_absent; try reflexivity.
      * now apply find_at_key_NoDup.
      * apply (not_in_ids s); auto.
        -- intros x Hx. apply Hin. now apply winners_incl in Hx.
        -- intros Hx. apply Hnot. now apply winners_incl in Hx.
      * apply (not_in_ids s); auto.
        -- intros x Hx. apply Hin. now apply losers_incl in Hx.
        -- intros Hx. apply Hnot. now apply losers_incl in Hx.
    + intros u Hu. unfold credit.
      rewrite !find_apply_all_absent; try reflexivity.
      * intros Hx. apply in_map_iff in Hx as (y & E & Hy).
        apply winners_incl in Hy as (Hy & _). exact (Hu y Hy E).
      * intros Hx. apply in_map_iff in Hx as (y & E & Hy).
        apply losers_incl in Hy as (Hy & _). exact (Hu y Hy E).
Qed.


Lemma resolvePoll_stakes_kept :
  forall (now : Z) (pollId w src : string) (s s' : db),
    users_linked s ->
    resolvePoll now pollId w src s = (Ok tt, s') ->
    map stake_of (predictions s') = map stake_of (predictions s)
    /\ map Prediction.reasoning (predictions s')
       = map Prediction.reasoning (predictions s).
Proof.
  intros now pollId w src s s' Hlinked Hrun.
  destruct (resolvePoll_tables _ _ _ _ _ _ Hlinked Hrun)
    as (poll & _ & _ & _ & Hpreds & _).
  rewrite Hpreds.
  destruct (_ =? 0)%Z; [now split|].
  unfold pay. now rewrite !map_apply_all_inv by reflexivity.
Qed.

(** X11.  A resolution changes no row's id, user, poll, option, confidence,
    stake or creation time, and neither adds, drops nor reorders rows: only
    [payout], [isResolved] and [resolvedAt] can differ. *)
Theorem resolvePoll_keeps_stakes :
  forall (now : Z) (pollId w src : string) (s s' : db),
    users_linked s ->
    resolvePoll now pollId w src s = (Ok tt, s') ->
    map stake_of (predictions s') = map stake_of (predictions s)
    /\ map Prediction.reasoning (predictions s')
       = map Prediction.reasoning (predictions s).
Proof. exact resolvePoll_stakes_kept. Qed.

(** X12.  After a successful resolution that has a winner, no unresolved
    prediction is left on the poll. *)
Theorem resolvePoll_leaves_none_open :
  forall (now : Z) (pollId w src : string) (s s' : db),
    ids_unique s -> users_linked s ->
    resolvePoll now pollId w src s = (Ok tt, s') ->
    total_points (winners w (unresolved_on pollId s)) <> 0%Z ->
    unresolved_on pollId s' = [].
Proof.
  intros now pollId w src s s' Hids Hlinked Hrun HW.
  destruct (resolvePoll_rows now pollId w src s s' Hids Hlinked Hrun HW)
    as (Hwin & Hlose).
  destruct (resolvePoll_tables _ _ _ _ _ _ Hlinked Hrun)
    as (poll & _ & _ & _ & Hpreds & _).
  rewrite (proj2 (Z.eqb_neq _ 0) HW) in Hpreds.
  set (ps := unresolved_on pollId s) in *.
  assert (Hmap : map Prediction.id (predictions s')
                 = map Prediction.id (predictions s)).
  { rewrite Hpreds. unfold pay.
    now rewrite !map_apply_all_inv by reflexivity. }
  assert (Hids' : ids_unique s') by (unfold ids_unique; now rewrite Hmap).
  unfold unresolved_on at 1, Prisma.prediction_findMany.
  apply filter_nil. intros r' Hr'.
  destruct (String.eqb_spec (Prediction.pollId r') pollId) as [Eq|];
    [|reflexivity].
  cbn [andb]. apply negb_false_iff.
  assert (Hfind : Prisma.prediction_findById (Prediction.id r') s' = Some r')
    by (now apply find_at_key_NoDup).
  assert (Hid : In (Prediction.id r') (map Prediction.id (predictions s)))
    by (rewrite <- Hmap; now apply in_map).
  apply in_map_iff in Hid as (r & Er & Hr).
  rewrite <- Er in Hfind.
  destruct (String.eqb (Prediction.pollId r) pollId
            && negb (Prediction.isResolved r)) eqn:Ef.
  - assert (Hps : In r ps).
    { unfold ps, unresolved_on, Prisma.prediction_findMany.
      apply filter_In. now split. }
    destruct (String.eqb (Prediction.optionId r) w) eqn:Ew.
    + rewrite (Hwin r) in Hfind
        by (unfold winners; apply filter_In; now split).
      injection Hfind as <-. reflexivity.
    + rewrite (Hlose r) in Hfind
        by (unfold losers; apply filter_In; split; [assumption|];
            now rewrite Ew).
      injection Hfind as <-. reflexivity.
  - destruct (resolvePoll_untouched _ _ _ _ _ _ Hids Hlinked Hrun)
      as (Hframe & _).
    rewrite (Hframe r Hr) in Hfind.
    + injection Hfind as <-.
      rewrite Eq, String.eqb_refl in Ef. cbn [andb] in Ef.
      now apply negb_false_iff in Ef.
    + intros Hps. unfold ps, unresolved_on, Prisma.prediction_findMany in Hps.
      apply filter_In in Hps as (_ & Hps). congruence.
Qed.


(** *** Notifications of a resolution *)






(** *** Sorting finite numbers in descending order *)

Section Descending.
Context {A : Type} (m : A -> num) (v : A -> Q).

Lemma In_insert_sorted (c : A -> A -> num) (x y : A) (l : list A) :
  In y (insert_sorted c x l) -> y = x \/ In y l.
Proof.
  intros H. apply (Permutation_in _ (insert_sorted_perm c x l)) in H.
  destruct H; auto.
Qed.

Lemma insert_sorted_descending (x : A) (l : list A) :
  m x = Fin (v x) -> (forall y, In y l -> m y = Fin (v y)) ->
  StronglySorted (at_least m) l ->
  StronglySorted (at_least m) (insert_sorted (descending m) x l).
Proof.
  intros Hx Hl Hs. induction Hs as [|y l Hs IH Hy]; cbn [insert_sorted].
  - repeat constructor.
  - assert (Hy' : m y = Fin (v y)) by (apply Hl; now left).
    assert (Hl' : forall z, In z l -> m z = Fin (v z))
      by (intros; apply Hl; now right).
    unfold descending at 1. rewrite Hx, Hy'.
    cbn [Num.sub Num.add Num.neg Num.gtb Num.ltb n0].
    destruct (Qle_bool (v y + - v x) 0) eqn:E; cbn [negb].
    + apply Qle_bool_iff in E.
      constructor; [constructor; assumption|].
      constructor.
      * unfold at_least. rewrite Hx, Hy'. cbn [Num.geb].
        apply Qle_bool_iff. lra.
      * rewrite Forall_forall in *. intros z Hz.
        specialize (Hy z Hz). unfold at_least in *.
        rewrite Hx. rewrite Hy', (Hl' z Hz) in Hy. rewrite (Hl' z Hz).
        cbn [Num.geb] in *. apply Qle_bool_iff in Hy.
        apply Qle_bool_iff. lra.
    + assert (Hlt : v x < v y).
      { apply Qnot_le_lt. intros H.
        assert (Qle_bool (v y + - v x) 0 = true)
          by (apply Qle_bool_iff; lra).
        congruence. }
      constructor; [now apply IH|].
      rewrite Forall_forall in *. intros z Hz.
      apply In_insert_sorted in Hz as [->|Hz]; [|now apply Hy].
      unfold at_least. rewrite Hx, Hy'. cbn [Num.geb].
      apply Qle_bool_iff. lra.
Qed.

Lemma sort_descending (l : list A) :
  (forall y, In y l -> m y = Fin (v y)) ->
  StronglySorted (at_least m) (sort (descending m) l).
Proof.
  induction l as [|x l IH]; intros Hl; cbn [sort]; [constructor|].
  apply insert_sorted_descending.
  - apply Hl. now left.
  - intros y Hy. apply Hl. right.
    now apply (Permutation_in _ (sort_perm (descending m) l)).
  - apply IH. intros; apply Hl; now right.
Qed.
End Descending.

(** *** getMarketOdds: shape of the result *)

Lemma getMarketOdds_shape (now : Z) (pollId : string) (s : db)
    (poll : Poll.t) :
  Prisma.poll_findUnique pollId s = Some poll ->
  valid_stakes s ->
  (exists o p, In o (poll_options pollId s)
               /\ In p (option_predictions s o)) ->
  exists raw k,
    getMarketOdds now pollId s
    = Ok (sort (descending MarketOdds.probability)
            (map (normalize (Fin k)) raw))
    /\ 0 < k
    /\ (forall x, In x raw ->
          MarketOdds.probability x = Fin (prob_q x) /\ 0 <= prob_q x)
    /\ qsum prob_q raw * k == 95 # 100.
Proof.
  intros Hpoll Hv Hsome.
  unfold getMarketOdds. rewrite Hpoll.
  set (options := poll_options pollId s) in *.
  rewrite options_volume_sum.
  set (T := options_volume s options).
  assert (HT : (0 < T)%Z) by now apply options_volume_pos.
  set (raw := map (option_odds now s (Num.of_Z T)) options).
  assert (Hraw : forall o,
    MarketOdds.probability (option_odds now s (Num.of_Z T) o)
    = Fin (raw_q T (option_predictions s o))).
  { intros o. unfold option_odds. cbn [MarketOdds.probability].
    apply calculateMarketProbability_q. lia. }
  assert (Hvalid : forall o p, In p (option_predictions s o) ->
    (1 <= Prediction.points p)%Z /\ 0 <= Prediction.confidence p).
  { intros o p Hp. apply filter_In in Hp as (Hp & _). exact (Hv p Hp). }
  assert (Hraw' : forall x, In x raw ->
    MarketOdds.probability x = Fin (prob_q x) /\ 0 <= prob_q x).
  { intros x Hx. apply in_map_iff in Hx as (o & <- & _).
    unfold prob_q. rewrite Hraw. split; [reflexivity|].
    apply (raw_q_nonneg T); [assumption | apply Hvalid]. }
  rewrite (sum_by_Fin _ prob_q raw (fun x Hx => proj1 (Hraw' x Hx))).
  set (R := qfold prob_q raw 0).
  assert (HR' : qsum prob_q raw == R)
    by (unfold R; now rewrite qfold_qsum, Qplus_0_l).
  assert (HR : 0 < R).
  { rewrite <- HR'. destruct Hsome as (o & p & Ho & Hp).
    apply (qsum_pos _ _ (option_odds now s (Num.of_Z T) o)).
    - intros y Hy. now apply Hraw'.
    - unfold raw. now apply in_map.
    - unfold prob_q. rewrite Hraw.
      apply (raw_q_nonneg T); [assumption | apply Hvalid |].
      intros E. rewrite E in Hp. destruct Hp. }
  assert (Hfactor :
    Num.div (Num.sub n1 HOUSE_EDGE) (Fin R) = Fin ((1 - (5 # 100)) / R)).
  { unfold Num.div, Num.sub, Num.add, Num.neg, n1, HOUSE_EDGE.
    now rewrite (is_zero_pos R HR). }
  rewrite Hfactor.
  exists raw, ((1 - (5 # 100)) / R).
  split; [reflexivity|]. split.
  - apply Qlt_shift_div_l; [assumption | lra].
  - split; [assumption|]. rewrite HR'. field. lra.
Qed.

Lemma normalize_probability (k : Q) (x : MarketOdds.t) :
  MarketOdds.probability x = Fin (prob_q x) ->
  MarketOdds.probability (normalize (Fin k) x) = Fin (prob_q x * k)
  /\ prob_q (normalize (Fin k) x) = prob_q x * k.
Proof.
  intros H. unfold prob_q at 3, normalize. cbn [MarketOdds.probability].
  rewrite H. split; reflexivity.
Qed.

(** X15.  For a poll with at least one unresolved prediction (stakes at
    least [MIN_PREDICTION], confidences not negative), [getMarketOdds]
    returns its entries in descending order of probability: every entry's
    probability is [>=] that of every later entry. *)
Theorem getMarketOdds_descending :
  forall (now : Z) (pollId : string) (s : db) (poll : Poll.t),
    Prisma.poll_findUnique pollId s = Some poll ->
    valid_stakes s ->
    (exists o p, In o (poll_options pollId s)
                 /\ In p (option_predictions s o)) ->
    exists odds,
      getMarketOdds now pollId s = Ok odds
      /\ StronglySorted (at_least MarketOdds.probability) odds.
Proof.
  intros now pollId s poll Hpoll Hv Hsome.
  destruct (getMarketOdds_shape now pollId s poll Hpoll Hv Hsome)
    as (raw & k & Hrun & _ & Hraw & _).
  eexists. split; [exact Hrun|].
  apply (sort_descending _ prob_q).
  intros y Hy. apply in_map_iff in Hy as (x & <- & Hx).
  destruct (normalize_probability k x (proj1 (Hraw x Hx))) as (H1 & H2).
  now rewrite H1, H2.
Qed.


(** X17.  [getMarketOdds] throws "Poll not found" for an unknown poll id;
    for a stored poll it always returns, with exactly one entry per option
    of the poll, carrying that option's id and the sum of the unresolved
    stakes on it as [volume], and with [impliedOdds] computed from the
    entry's final probability. *)
Theorem getMarketOdds_entries :
  forall (now : Z) (pollId : string) (s : db),
    match Prisma.poll_findUnique pollId s with
    | None => getMarketOdds now pollId s = Throw (Error "Poll not found")
    | Some _ =>
        exists odds,
          getMarketOdds now pollId s = Ok odds
          /\ Permutation
               (map (fun x => (MarketOdds.optionId x, MarketOdds.volume x))
                    odds)
               (map (fun o =>
                       (PollOption.id o,
                        Num.of_Z (total_points (option_predictions s o))))
                    (poll_options pollId s))
          /\ forall x, In x odds ->
               MarketOdds.impliedOdds x
               = formatOdds (MarketOdds.probability x)
    end.
Proof.
  intros now pollId s. unfold getMarketOdds.
  destruct (Prisma.poll_findUnique pollId s); [|reflexivity].
  eexists. split; [reflexivity|]. split.
  - eapply perm_trans; [apply Permutation_map, sort_perm|].
    rewrite !map_map.
    erewrite map_ext; [apply Permutation_refl|].
    intros o. unfold normalize, option_odds.
    cbn [MarketOdds.optionId MarketOdds.volume].
    now rewrite sum_by_pts.
  - intros x Hx. apply (Permutation_in _ (sort_perm _ _)) in Hx.
    apply in_map_iff in Hx as (y & <- & _). reflexivity.
Qed.

(** *** The analytics helpers stay in range *)

Lemma len_Fin {A : Type} (l : list A) :
  len l = Fin (inject_Z (Z.of_nat (List.length l))).
Proof. reflexivity. Qed.

Lemma div_by_len {A : Type} (q : Q) (l : list A) :
  l <> [] ->
  Num.div (Fin q) (len l) = Fin (q / inject_Z (Z.of_nat (List.length l)))
  /\ 0 < inject_Z (Z.of_nat (List.length l)).
Proof.
  intros Hl. assert (H : (0 < Z.of_nat (List.length l))%Z)
    by (destruct l; [congruence | simpl; lia]).
  rewrite len_Fin. unfold Num.div.
  rewrite is_zero_inject_Z by lia. split; [reflexivity|].
  now apply inject_Z_pos.
Qed.

Lemma qsum_const {A : Type} (c : Q) (l : list A) :
  qsum (fun _ => c) l == inject_Z (Z.of_nat (List.length l)) * c.
Proof.
  induction l as [|x l IH]; [simpl; ring|].
  cbn [qsum List.length]. rewrite IH, Nat2Z.inj_succ.
  unfold Z.succ. rewrite inject_Z_plus. simpl (inject_Z 1). ring.
Qed.

Lemma weighted_mean_bounds {A : Type} (c w : A -> Q) (lo hi : Q)
    (l : list A) :
  (forall x, In x l -> 0 <= w x /\ lo <= c x <= hi) ->
  0 < qsum w l ->
  lo <= qsum (fun x => c x * w x) l / qsum w l <= hi.
Proof.
  intros H HW.
  assert (Hb : lo * qsum w l <= qsum (fun x => c x * w x) l
               /\ qsum (fun x => c x * w x) l <= hi * qsum w l).
  { clear HW. induction l as [|x l IH]; simpl; [lra|].
    destruct (H x (or_introl eq_refl)) as (Hw & Hlo & Hhi).
    destruct IH as (I1 & I2); [intros; apply H; now right|].
    split; nra. }
  destruct Hb as (B1 & B2). split.
  - apply Qle_shift_div_l; assumption.
  - apply Qle_shift_div_r; assumption.
Qed.

Lemma qfold_map_Fin (g : Q -> Q) (cs : list Q) (a : Q) :
  qfold (fun c => g (qval c)) (map Fin cs) a = qfold g cs a.
Proof.
  unfold qfold. revert a.
  induction cs as [|q l IH]; intros a; [reflexivity|].
  cbn [map fold_left]. apply IH.
Qed.

Lemma efficiency_value (predictions : list (Prediction.t * User.t)) :
  (2 <= List.length predictions)%nat ->
  let cs := map (fun pu => Prediction.confidence (fst pu)) predictions in
  let n := inject_Z (Z.of_nat (List.length predictions)) in
  let mean := qfold (fun c => c) cs 0 / n in
  let variance :=
    qfold (fun c => (c + - mean) * (c + - mean)) cs 0 / n in
  calculateMarketEfficiency predictions
  = Num.max n0 (Fin (1 + - (variance * inject_Z 4)))
  /\ 0 < n /\ 0 <= variance.
Proof.
  intros Hlen cs n mean variance.
  assert (Hne : map (fun pu : Prediction.t * User.t => conf (fst pu))
                  predictions <> [])
    by (destruct predictions; [simpl in Hlen; lia | discriminate]).
  unfold calculateMarketEfficiency.
  rewrite (proj2 (Nat.ltb_ge _ _) Hlen).
  set (confidences := map (fun pu => conf (fst pu)) predictions) in *.
  assert (Hc : confidences = map Fin cs)
    by (unfold confidences, cs; now rewrite map_map).
  assert (Hlen' : List.length confidences = List.length predictions)
    by apply length_map.
  rewrite (sum_by_Fin (fun c => c) qval confidences).
  2:{ intros x Hx. rewrite Hc in Hx.
      apply in_map_iff in Hx as (q & <- & _). reflexivity. }
  destruct (div_by_len (qfold qval confidences 0) confidences Hne)
    as (Hmean & Hn).
  rewrite Hmean, Hlen'.
  assert (Hfold : forall (g : Q -> Q) a,
            qfold (fun c => g (qval c)) confidences a = qfold g cs a)
    by (intros g a; rewrite Hc; apply qfold_map_Fin).
  rewrite (Hfold (fun c => c)). fold n mean.
  rewrite (sum_by_Fin _ (fun c => (qval c + - mean) * (qval c + - mean))
             confidences).
  2:{ intros x Hx. rewrite Hc in Hx.
      apply in_map_iff in Hx as (q & <- & _). reflexivity. }
  destruct (div_by_len
              (qfold (fun c => (qval c + - mean) * (qval c + - mean))
                 confidences 0) confidences Hne) as (Hvar & _).
  rewrite Hvar, Hlen'.
  rewrite (Hfold (fun c => (c + - mean) * (c + - mean))). fold n variance.
  rewrite Hlen' in Hn. fold n in Hn.
  split; [reflexivity|]. split; [assumption|].
  unfold variance. apply Qle_shift_div_l; [assumption|].
  rewrite Qmult_0_l, qfold_qsum, Qplus_0_l.
  apply qsum_nonneg. intros x _.
  generalize (x + - mean). intros d. nra.
Qed.

Lemma max_0_clamps (x : Q) :
  x <= 1 -> within 0 1 (Num.max n0 (Fin x)).
Proof.
  intros Hx. unfold Num.max, n0, Num.ltb.
  destruct (Qle_bool x 0) eqn:E; cbn [negb].
  - exists 0. split; [reflexivity | lra].
  - exists x. split; [reflexivity|]. split; [|assumption].
    apply Qlt_le_weak, Qnot_le_lt. intros H.
    apply Qle_bool_iff in H. congruence.
Qed.

Lemma efficiency_within :
  forall predictions : list (Prediction.t * User.t),
    within 0 1 (calculateMarketEfficiency predictions).
Proof.
  intros predictions.
  destruct (Nat.ltb (List.length predictions) 2) eqn:E.
  - unfold calculateMarketEfficiency. rewrite E.
    exists 1. split; [reflexivity | lra].
  - apply Nat.ltb_ge in E.
    destruct (efficiency_value predictions E) as (-> & _ & Hv).
    apply max_0_clamps.
    match type of Hv with
    | 0 <= ?v => remember v as var eqn:Ev; clear Ev
    end.
    unfold inject_Z. lra.
Qed.

Lemma efficiency_agreement :
  forall (predictions : list (Prediction.t * User.t)) (c : Q),
    (forall pu, In pu predictions -> Prediction.confidence (fst pu) == c) ->
    Num.same (calculateMarketEfficiency predictions) n1.
Proof.
  intros predictions c Hall.
  destruct (Nat.ltb (List.length predictions) 2) eqn:E.
  - unfold calculateMarketEfficiency. rewrite E. simpl. reflexivity.
  - apply Nat.ltb_ge in E.
    destruct (efficiency_value predictions E) as (-> & Hn & _).
    set (cs := map (fun pu => Prediction.confidence (fst pu)) predictions).
    set (n := inject_Z (Z.of_nat (List.length predictions))) in *.
    assert (Hcs : forall q, In q cs -> q == c).
    { intros q Hq. apply in_map_iff in Hq as (pu & <- & Hpu).
      now apply Hall. }
    assert (Hlen : List.length cs = List.length predictions)
      by apply length_map.
    assert (Hmean : qfold (fun q => q) cs 0 / n == c).
    { rewrite qfold_qsum, Qplus_0_l.
      rewrite (qsum_ext _ (fun _ => c)) by assumption.
      rewrite qsum_const, Hlen. fold n. field. lra. }
    set (mean := qfold (fun q => q) cs 0 / n) in *.
    assert (Hvar :
      qfold (fun q => (q + - mean) * (q + - mean)) cs 0 / n == 0).
    { rewrite qfold_qsum, Qplus_0_l.
      rewrite (qsum_ext _ (fun _ => 0)).
      - rewrite qsum_const. field. lra.
      - intros q Hq. rewrite (Hcs q Hq), Hmean. ring. }
    revert Hvar.
    generalize (qfold (fun q => (q + - mean) * (q + - mean)) cs 0 / n).
    intros variance Hvar.
    unfold Num.max, n0, n1, Num.ltb, Num.same.
    assert (Hx : 1 + - (variance * inject_Z 4) == 1)
      by (rewrite Hvar; unfold inject_Z; ring).
    destruct (Qle_bool (1 + - (variance * inject_Z 4)) 0) eqn:Eb;
      cbn [negb].
    + apply Qle_bool_iff in Eb. rewrite Hx in Eb. lra.
    + exact Hx.
Qed.

(** X18.  [calculateMarketEfficiency] always yields a finite number
    between 0 and 1, whatever the predictions, and it yields 1 when all
    predictions declare the same confidence. *)
Theorem calculateMarketEfficiency_bounds :
  forall predictions : list (Prediction.t * User.t),
    within 0 1 (calculateMarketEfficiency predictions)
    /\ forall c,
         (forall pu, In pu predictions ->
                     Prediction.confidence (fst pu) == c) ->
         Num.same (calculateMarketEfficiency predictions) n1.
Proof.
  intros predictions. split.
  - apply efficiency_within.
  - intros c. apply efficiency_agreement.
Qed.

Lemma min_1_value (a : Q) :
  0 <= a ->
  exists q, Num.min (Fin a) n1 = Fin q
            /\ 0 <= q <= 1 /\ (1 <= a -> q == 1).
Proof.
  intros Ha. unfold Num.min, n1, Num.ltb.
  destruct (Qle_bool a 1) eqn:E; cbn [negb].
  - apply Qle_bool_iff in E. exists a. split; [reflexivity|].
    split; [lra|]. intros H. lra.
  - exists 1. split; [reflexivity|]. split; [lra|]. intros _. reflexivity.
Qed.

Lemma liquidity_within :
  forall (volume : Z) (predictors : nat),
    (0 <= volume)%Z ->
    exists q,
      calculateLiquidityIndex (Num.of_Z volume) (Num.of_nat predictors)
      = Fin q
      /\ 0 <= q <= 1
      /\ ((10000 <= volume)%Z -> (100 <= predictors)%nat -> q == 1).
Proof.
  intros volume predictors Hv. unfold calculateLiquidityIndex.
  assert (Hvq : 0 <= inject_Z volume / inject_Z 10000).
  { apply Qle_shift_div_l; [reflexivity|].
    rewrite Qmult_0_l. now apply inject_Z_nonneg. }
  assert (Hpq : 0 <= inject_Z (Z.of_nat predictors) / inject_Z 100).
  { apply Qle_shift_div_l; [reflexivity|].
    rewrite Qmult_0_l. apply inject_Z_nonneg. lia. }
  destruct (min_1_value _ Hvq) as (q1 & E1 & B1 & S1).
  destruct (min_1_value _ Hpq) as (q2 & E2 & B2 & S2).
  change (Num.div (Num.of_Z volume) (Fin (inject_Z 10000)))
    with (Fin (inject_Z volume / inject_Z 10000)).
  change (Num.div (Num.of_nat predictors) (Fin (inject_Z 100)))
    with (Fin (inject_Z (Z.of_nat predictors) / inject_Z 100)).
  rewrite E1, E2.
  exists ((q1 + q2) / inject_Z 2). split; [reflexivity|].
  split.
  - split.
    + apply Qle_shift_div_l; [reflexivity | lra].
    + apply Qle_shift_div_r; [reflexivity|]. unfold inject_Z. lra.
  - intros H1 H2.
    assert (A1 : 1 <= inject_Z volume / inject_Z 10000).
    { apply Qle_shift_div_l; [reflexivity|]. rewrite Qmult_1_l.
      now rewrite <- Zle_Qle. }
    assert (A2 : 1 <= inject_Z (Z.of_nat predictors) / inject_Z 100).
    { apply Qle_shift_div_l; [reflexivity|]. rewrite Qmult_1_l.
      rewrite <- Zle_Qle. lia. }
    rewrite (S1 A1), (S2 A2). reflexivity.
Qed.

(** X19.  [calculateLiquidityIndex] of a volume that is not negative and a
    number of predictors is a finite number between 0 and 1, and it is 1
    once the volume reaches 10000 and the predictors reach 100. *)
Theorem calculateLiquidityIndex_bounds :
  forall (volume : Z) (predictors : nat),
    (0 <= volume)%Z ->
    exists q,
      calculateLiquidityIndex (Num.of_Z volume) (Num.of_nat predictors)
      = Fin q
      /\ 0 <= q <= 1
      /\ ((10000 <= volume)%Z -> (100 <= predictors)%nat -> q == 1).
Proof. exact liquidity_within. Qed.

(** *** Weighted means *)

Lemma weight_value (pu : Prediction.t * User.t) :
  user_weight pu
  = Fin (inject_Z (Prediction.points (fst pu))
         * (1 + inject_Z (User.reputation (snd pu)) / inject_Z 1000)).
Proof. reflexivity. Qed.

Lemma weight_pos (pu : Prediction.t * User.t) :
  (1 <= Prediction.points (fst pu))%Z ->
  (-1000 < User.reputation (snd pu))%Z ->
  0 < inject_Z (Prediction.points (fst pu))
      * (1 + inject_Z (User.reputation (snd pu)) / inject_Z 1000).
Proof.
  intros Hp Hr.
  assert (0 < inject_Z (Prediction.points (fst pu)))
    by (apply inject_Z_pos; lia).
  assert (0 < 1 + inject_Z (User.reputation (snd pu)) / inject_Z 1000).
  { assert (- (1) < inject_Z (User.reputation (snd pu)) / inject_Z 1000);
      [|lra].
    apply Qlt_shift_div_l; [reflexivity|].
    change (- (1) * inject_Z 1000) with (inject_Z (-1000)).
    now rewrite <- Zlt_Qlt. }
  nra.
Qed.

Lemma qsum_pos_all {A : Type} (g : A -> Q) (l : list A) :
  l <> [] -> (forall x, In x l -> 0 < g x) -> 0 < qsum g l.
Proof.
  destruct l as [|x l]; [congruence|]. intros _ H.
  apply (qsum_pos g (x :: l) x).
  - intros y Hy. apply Qlt_le_weak. now apply H.
  - now left.
  - apply H. now left.
Qed.

Lemma consensus_within :
  forall (predictions : list (Prediction.t * User.t)) (lo hi : Q),
    predictions <> [] ->
    (forall pu, In pu predictions ->
       (1 <= Prediction.points (fst pu))%Z
       /\ (-1000 < User.reputation (snd pu))%Z
       /\ lo <= Prediction.confidence (fst pu) <= hi) ->
    within lo hi (calculateConsensus predictions).
Proof.
  intros predictions lo hi Hne Hall. unfold calculateConsensus.
  destruct predictions as [|pu0 l] eqn:El; [congruence|].
  rewrite <- El in *. clear El.
  change (Nat.eqb (List.length predictions) 0)
    with (Nat.eqb (List.length predictions) 0).
  assert (Hlen : Nat.eqb (List.length predictions) 0 = false)
    by (destruct predictions; [congruence | reflexivity]).
  rewrite Hlen.
  set (w := fun pu : Prediction.t * User.t =>
              inject_Z (Prediction.points (fst pu))
              * (1 + inject_Z (User.reputation (snd pu)) / inject_Z 1000)).
  rewrite (sum_by_Fin user_weight w) by (intros; apply weight_value).
  rewrite (sum_by_Fin _
             (fun pu => Prediction.confidence (fst pu)
                        * inject_Z (Prediction.points (fst pu))
                        * (1 + inject_Z (User.reputation (snd pu))
                               / inject_Z 1000)))
    by reflexivity.
  assert (HW : 0 < qsum w predictions).
  { apply qsum_pos_all; [assumption|]. intros pu Hpu.
    destruct (Hall pu Hpu) as (H1 & H2 & _). now apply weight_pos. }
  assert (HW' : 0 < qfold w predictions 0)
    by now rewrite qfold_qsum, Qplus_0_l.
  unfold Num.div. rewrite (is_zero_pos _ HW').
  eexists. split; [reflexivity|].
  rewrite !qfold_qsum, !Qplus_0_l.
  rewrite (qsum_ext _ (fun pu => Prediction.confidence (fst pu) * w pu))
    by (intros; unfold w; ring).
  apply weighted_mean_bounds; [|assumption].
  intros pu Hpu. destruct (Hall pu Hpu) as (H1 & H2 & H3).
  split; [|assumption]. now apply Qlt_le_weak, weight_pos.
Qed.



(** *** Volatility *)

Lemma consecutive_changes_Fin (qs : list Q) :
  consecutive_changes (map Fin qs) = map Fin (abs_steps qs).
Proof.
  induction qs as [|a l IH]; [reflexivity|].
  destruct l as [|b l]; [reflexivity|].
  cbn [map consecutive_changes abs_steps] in *. now rewrite IH.
Qed.

Lemma abs_steps_nonneg (qs : list Q) (d : Q) :
  In d (abs_steps qs) -> 0 <= d.
Proof.
  induction qs as [|a l IH]; [intros []|].
  destruct l as [|b l]; [intros []|].
  cbn [abs_steps]. intros [<-|Hd]; [apply Qabs_nonneg | now apply IH].
Qed.

Lemma abs_steps_flat (qs : list Q) (c d : Q) :
  (forall q, In q qs -> q == c) -> In d (abs_steps qs) -> d == 0.
Proof.
  induction qs as [|a l IH]; [intros _ []|].
  destruct l as [|b l]; [intros _ []|].
  cbn [abs_steps]. intros Hall [<-|Hd].
  - rewrite (Hall a), (Hall b) by (simpl; auto).
    assert (E : c + - c == 0) by ring. now rewrite E.
  - apply IH; [|assumption]. intros q Hq. apply Hall. now right.
Qed.

Lemma abs_steps_nonempty (qs : list Q) :
  (2 <= List.length qs)%nat -> abs_steps qs <> [].
Proof.
  destruct qs as [|a [|b l]]; simpl; try lia. discriminate.
Qed.

Lemma In_firstn {A : Type} (n : nat) (l : list A) (x : A) :
  In x (firstn n l) -> In x l.
Proof.
  revert l. induction n as [|n IH]; intros [|y l]; simpl; try tauto.
  intros [->|H]; [now left | right; now apply IH].
Qed.

(** The snapshots [calculateVolatility] reads. *)
Lemma calculateVolatility_value (pollId : string) (s : db) :
  exists qs,
    (forall q, In q qs ->
       exists v, In v (voteSnapshots s)
                 /\ VoteSnapshot.pollId v = pollId
                 /\ VoteSnapshot.percentage v = q)
    /\ (calculateVolatility pollId s = n0
        \/ (abs_steps qs <> []
            /\ calculateVolatility pollId s
               = Fin (qfold (fun d => d) (abs_steps qs) 0
                      / inject_Z (Z.of_nat (List.length (abs_steps qs)))))).
Proof.
  unfold calculateVolatility.
  set (snapshots := firstn 10 _).
  exists (map VoteSnapshot.percentage snapshots). split.
  - intros q Hq. apply in_map_iff in Hq as (v & <- & Hv).
    exists v. unfold snapshots in Hv. apply In_firstn in Hv.
    apply (Permutation_in _ (sort_perm _ _)) in Hv.
    apply filter_In in Hv as (Hv & E). apply String.eqb_eq in E. auto.
  - destruct (Nat.ltb (List.length snapshots) 2) eqn:E; [now left|].
    right. apply Nat.ltb_ge in E.
    assert (Hne : abs_steps (map VoteSnapshot.percentage snapshots) <> [])
      by (apply abs_steps_nonempty; now rewrite length_map).
    split; [assumption|].
    rewrite <- (map_map VoteSnapshot.percentage Fin).
    rewrite consecutive_changes_Fin.
    set (steps := abs_steps _) in *.
    rewrite (sum_by_Fin (fun change => change) qval (map Fin steps)).
    2:{ intros x Hx. apply in_map_iff in Hx as (q & <- & _). reflexivity. }
    assert (Hne' : map Fin steps <> [])
      by (destruct steps; [congruence | discriminate]).
    destruct (div_by_len (qfold qval (map Fin steps) 0) (map Fin steps) Hne')
      as (-> & _).
    rewrite length_map.
    now rewrite (qfold_map_Fin (fun d => d)).
Qed.

Lemma volatility_nonnegative :
  forall (pollId : string) (s : db),
    nonnegative (calculateVolatility pollId s)
    /\ forall c,
         (forall v, In v (voteSnapshots s) ->
                    VoteSnapshot.pollId v = pollId ->
                    VoteSnapshot.percentage v == c) ->
         Num.same (calculateVolatility pollId s) n0.
Proof.
  intros pollId s.
  destruct (calculateVolatility_value pollId s) as (qs & Hqs & [->|(Hne & ->)]).
  { split; [exists 0; split; [reflexivity | lra]|].
    intros c _. simpl. reflexivity. }
  assert (Hn : 0 < inject_Z (Z.of_nat (List.length (abs_steps qs)))).
  { apply inject_Z_pos. destruct (abs_steps qs); [congruence | simpl; lia]. }
  split.
  - eexists. split; [reflexivity|].
    apply Qle_shift_div_l; [assumption|].
    rewrite Qmult_0_l, qfold_qsum, Qplus_0_l.
    apply qsum_nonneg. intros d Hd. now apply (abs_steps_nonneg qs).
  - intros c Hflat. unfold Num.same, n0.
    rewrite qfold_qsum, Qplus_0_l.
    rewrite (qsum_ext _ (fun _ => 0)).
    + rewrite qsum_const. field. lra.
    + intros d Hd. apply (abs_steps_flat qs c); [|assumption].
      intros q Hq. destruct (Hqs q Hq) as (v & Hv & Hp & <-).
      now apply Hflat.
Qed.

(** X22.  [calculateVolatility] is a finite number that is never negative,
    and it is zero when all vote snapshots of the poll show the same
    percentage. *)
Theorem calculateVolatility_nonnegative :
  forall (pollId : string) (s : db),
    nonnegative (calculateVolatility pollId s)
    /\ forall c,
         (forall v, In v (voteSnapshots s) ->
                    VoteSnapshot.pollId v = pollId ->
                    VoteSnapshot.percentage v == c) ->
         Num.same (calculateVolatility pollId s) n0.
Proof. exact volatility_nonnegative. Qed.

(** *** getMarketAnalytics *)

Lemma include_user_ok (s : db) (preds : list Prediction.t) :
  known_users s preds ->
  exists rows,
    include_user s preds = Ok rows
    /\ map fst rows = preds
    /\ forall pu, In pu rows -> In (snd pu) (users s).
Proof.
  induction preds as [|p l IH]; intros Hk; cbn [include_user].
  - exists []. repeat split. intros pu [].
  - destruct (find_at_key_In User.id (Prediction.userId p) (users s))
      as (u & Hu); [apply Hk; now left|].
    unfold Prisma.user_findUnique.
    change Prisma.is_user with (at_key User.id). rewrite Hu.
    destruct IH as (rows & -> & Hmap & Hin);
      [intros x Hx; apply Hk; now right|].
    exists ((p, u) :: rows). split; [reflexivity|].
    split; [cbn [map fst]; now rewrite Hmap|].
    intros pu [<-|H]; [|now apply Hin].
    now apply find_some in Hu as (Hu & _).
Qed.

Lemma sum_by_map {A B : Type} (h : A -> B) (g : B -> num) (l : list A) :
  sum_by (fun x => g (h x)) l = sum_by g (map h l).
Proof.
  unfold sum_by. generalize n0.
  induction l as [|x l IH]; intros a; [reflexivity|].
  cbn [map fold_left]. apply IH.
Qed.

Lemma mean_bounds {A : Type} (c : A -> Q) (lo hi : Q) (l : list A) :
  l <> [] -> (forall x, In x l -> lo <= c x <= hi) ->
  lo <= qsum c l / inject_Z (Z.of_nat (List.length l)) <= hi.
Proof.
  intros Hne H.
  assert (Hn : 0 < inject_Z (Z.of_nat (List.length l))).
  { apply inject_Z_pos. destruct l; [congruence | simpl; lia]. }
  assert (H1 : qsum (fun _ : A => 1) l == inject_Z (Z.of_nat (List.length l)))
    by (rewrite qsum_const; ring).
  assert (H2 : qsum (fun x => c x * 1) l == qsum c l)
    by (apply qsum_ext; intros; ring).
  rewrite <- H1, <- H2.
  apply weighted_mean_bounds.
  - intros x Hx. split; [lra | now apply H].
  - now rewrite H1.
Qed.

(** X23.  When every prediction's user is stored, stakes and confidences
    are in range and reputations are above -1000, [getMarketAnalytics]
    returns for any poll id, and its metrics are finite and in range:
    [totalVolume] is the sum of the unresolved stakes on the poll,
    [uniquePredictors] the number of distinct users behind them,
    [averageConfidence], [consensusProbability], [marketEfficiency] and
    [liquidityIndex] lie between 0 and 1, and [volatility] is not
    negative. *)
Theorem getMarketAnalytics_in_range :
  forall (pollId : string) (s : db),
    users_linked s -> stakes_in_range s ->
    (forall u, In u (users s) -> (-1000 < User.reputation u)%Z) ->
    exists a,
      getMarketAnalytics pollId s = Ok a
      /\ MarketAnalytics.totalVolume a
         = Num.of_Z (total_points (unresolved_on pollId s))
      /\ MarketAnalytics.uniquePredictors a
         = Num.of_nat (distinct_users (unresolved_on pollId s))
      /\ within 0 1 (MarketAnalytics.averageConfidence a)
      /\ within 0 1 (MarketAnalytics.consensusProbability a)
      /\ within 0 1 (MarketAnalytics.marketEfficiency a)
      /\ within 0 1 (MarketAnalytics.liquidityIndex a)
      /\ nonnegative (MarketAnalytics.volatility a).
Proof.
  intros pollId s Hlinked Hrange Hrep.
  unfold getMarketAnalytics. fold (unresolved_on pollId s).
  set (ps := unresolved_on pollId s).
  assert (Hin : forall p, In p ps -> In p (predictions s))
    by (intros p Hp; now apply in_unresolved_on in Hp).
  destruct (include_user_ok s ps) as (rows & -> & Hmap & Husers);
    [intros p Hp; apply Hlinked; now apply Hin|].
  assert (Hrow : forall pu, In pu rows ->
            (1 <= Prediction.points (fst pu))%Z
            /\ (-1000 < User.reputation (snd pu))%Z
            /\ 0 <= Prediction.confidence (fst pu) <= 1).
  { intros pu Hpu.
    assert (Hp : In (fst pu) ps) by (rewrite <- Hmap; now apply in_map).
    destruct (Hrange _ (Hin _ Hp)) as ((H1 & _) & H2).
    unfold MIN_PREDICTION in H1. auto. }
  eexists. split; [reflexivity|].
  cbn [MarketAnalytics.totalVolume MarketAnalytics.uniquePredictors
       MarketAnalytics.averageConfidence MarketAnalytics.marketEfficiency
       MarketAnalytics.consensusProbability MarketAnalytics.volatility
       MarketAnalytics.liquidityIndex].
  assert (Hvol : sum_by (fun pu : Prediction.t * User.t => pts (fst pu)) rows
                 = Num.of_Z (total_points ps))
    by (rewrite (sum_by_map fst pts), Hmap; apply sum_by_pts).
  rewrite Hvol, Hmap.
  split; [reflexivity|]. split; [reflexivity|].
  split; [|split; [|split; [|split]]].
  - destruct rows as [|pu0 l] eqn:El.
    + exists 0. split; [reflexivity | lra].
    + rewrite <- El in *.
      assert (Hpos : Nat.ltb 0 (List.length rows) = true)
        by (rewrite El; reflexivity).
      rewrite Hpos.
      rewrite (sum_by_Fin _ (fun pu => Prediction.confidence (fst pu)))
        by reflexivity.
      assert (Hne : rows <> []) by (rewrite El; discriminate).
      destruct (div_by_len
                  (qfold (fun pu => Prediction.confidence (fst pu)) rows 0)
                  rows Hne) as (-> & _).
      eexists. split; [reflexivity|].
      rewrite qfold_qsum, Qplus_0_l.
      apply mean_bounds; [assumption|].
      intros pu Hpu. now destruct (Hrow pu Hpu) as (_ & _ & H).
  - destruct rows as [|pu0 l] eqn:El.
    + exists 0. split; [reflexivity | lra].
    + rewrite <- El in *. apply consensus_within; [|assumption].
      rewrite El. discriminate.
  - apply efficiency_within.
  - destruct (liquidity_within (total_points ps) (distinct_users ps))
      as (q & -> & Hq & _).
    + apply total_points_nonneg. intros p Hp.
      destruct (Hrange _ (Hin _ Hp)) as ((H1 & _) & _).
      unfold MIN_PREDICTION in H1. lia.
    + now exists q.
  - apply volatility_nonnegative.
Qed.

(** *** getLeaderboard *)

Lemma sum_by_payouts (l : list Prediction.t) :
  exists P : Z, sum_by payout_or_0 l = Num.of_Z P.
Proof.
  unfold sum_by. change n0 with (Num.of_Z 0).
  eexists.
  apply (sum_by_of_Z payout_or_0
           (fun p => match Prediction.payout p with
                     | Some z => z
                     | None => 0%Z
                     end)).
  intros p _. unfold payout_or_0. now destruct (Prediction.payout p).
Qed.

Lemma round_percent (w : Q) :
  0 <= w <= 1 -> within 0 100 (Num.round (Num.mul (Fin w) (Fin (inject_Z 100)))).
Proof.
  intros (H0 & H1). cbn [Num.mul Num.round].
  eexists. split; [reflexivity|]. split.
  - change 0 with (inject_Z 0). rewrite <- Zle_Qle.
    apply (Z.le_trans _ (Qfloor 0)); [reflexivity|].
    apply Qfloor_resp_le. unfold inject_Z. lra.
  - change (100 # 1) with (inject_Z 100). rewrite <- Zle_Qle.
    apply (Z.le_trans _ (Qfloor (100 + (1 # 2)))); [|reflexivity].
    apply Qfloor_resp_le. unfold inject_Z. lra.
Qed.

Lemma leaderboard_row_values (startDate : option Z) (s : db) (user : User.t) :
  let r := leaderboard_row startDate s user in
  LeaderboardRow.userId r = User.id user
  /\ (exists P S : Z,
         LeaderboardRow.totalPayout r = Num.of_Z P
         /\ LeaderboardRow.totalStake r = Num.of_Z S
         /\ LeaderboardRow.netProfit r = Fin (inject_Z P + - inject_Z S)
         /\ Num.finite (LeaderboardRow.roi r)
         /\ (S = 0%Z -> Num.same (LeaderboardRow.roi r) n0))
  /\ within 0 100 (LeaderboardRow.winRate r).
Proof.
  unfold leaderboard_row.
  set (predictions :=
         Prisma.prediction_findMany
           (fun p => String.eqb (Prediction.userId p) (User.id user)
                     && Prediction.isResolved p && in_scope startDate p) s).
  cbn [LeaderboardRow.userId LeaderboardRow.totalPayout
       LeaderboardRow.totalStake LeaderboardRow.netProfit
       LeaderboardRow.roi LeaderboardRow.winRate].
  split; [reflexivity|]. split.
  - destruct (sum_by_payouts predictions) as (P & ->).
    rewrite sum_by_pts. set (S := total_points predictions).
    exists P, S. do 3 (split; [reflexivity|]).
    unfold Num.gtb, Num.ltb, Num.of_Z, n0.
    destruct (Qle_bool (inject_Z S) 0) eqn:E; cbn [negb].
    + split; [exact I|]. intros _. vm_compute. reflexivity.
    + assert (HS : S <> 0%Z).
      { intros ->. vm_compute in E. discriminate. }
      unfold Num.div at 2. rewrite (is_zero_inject_Z S HS).
      split; [exact I | tauto].
  - destruct predictions as [|p l] eqn:El.
    + exists 0. split; [reflexivity | lra].
    + rewrite <- El in *.
      assert (Hne : predictions <> []) by (rewrite El; discriminate).
      assert (Hpos : Nat.ltb 0 (List.length predictions) = true)
        by (rewrite El; reflexivity).
      rewrite Hpos, len_Fin.
      destruct (div_by_len
                  (inject_Z (Z.of_nat
                     (List.length
                        (filter (fun pred => Num.gtb (payout_or_0 pred) n0)
                           predictions))))
                  predictions Hne) as (-> & Hn).
      apply round_percent. split.
      * apply Qle_shift_div_l; [assumption|].
        rewrite Qmult_0_l. apply inject_Z_nonneg. lia.
      * apply Qle_shift_div_r; [assumption|].
        rewrite Qmult_1_l, <- Zle_Qle.
        apply Nat2Z.inj_le, filter_length_le.
Qed.

Lemma leaderboard_rows (now : Z) (timeframe : Timeframe) (limit : nat)
    (s : db) (r : LeaderboardRow.t) :
  In r (getLeaderboard now timeframe limit s) ->
  exists u,
    In u (users s)
    /\ r = leaderboard_row (getTimeframeStart now timeframe) s u
    /\ exists p,
         In p (predictions s)
         /\ Prediction.userId p = User.id u
         /\ in_scope (getTimeframeStart now timeframe) p = true.
Proof.
  unfold getLeaderboard. intros Hr.
  apply (Permutation_in _ (sort_perm _ _)) in Hr.
  apply in_map_iff in Hr as (u & <- & Hu).
  apply In_firstn in Hu. apply filter_In in Hu as (Hu & Hex).
  apply existsb_exists in Hex as (p & Hp & E).
  apply andb_prop in E as (E1 & E2). apply String.eqb_eq in E1.
  exists u. split; [assumption|]. split; [reflexivity|].
  exists p. auto.
Qed.

(** X24.  [getLeaderboard] returns its rows in descending order of net
    profit, for every store, timeframe and limit. *)
Theorem getLeaderboard_descending :
  forall (now : Z) (timeframe : Timeframe) (limit : nat) (s : db),
    StronglySorted (at_least LeaderboardRow.netProfit)
      (getLeaderboard now timeframe limit s).
Proof.
  intros now timeframe limit s. unfold getLeaderboard.
  apply (sort_descending _ (fun r => qval (LeaderboardRow.netProfit r))).
  intros r Hr. apply in_map_iff in Hr as (u & <- & _).
  destruct (leaderboard_row_values (getTimeframeStart now timeframe) s u)
    as (_ & (P & S & _ & _ & -> & _) & _).
  reflexivity.
Qed.

(** X25.  [getLeaderboard] returns at most [limit] rows, and every row
    belongs to a stored user who has a prediction within the timeframe. *)
Theorem getLeaderboard_rows :
  forall (now : Z) (timeframe : Timeframe) (limit : nat) (s : db),
    (List.length (getLeaderboard now timeframe limit s) <= limit)%nat
    /\ forall r, In r (getLeaderboard now timeframe limit s) ->
         exists u p,
           In u (users s) /\ LeaderboardRow.userId r = User.id u
           /\ In p (predictions s)
           /\ Prediction.userId p = User.id u
           /\ in_scope (getTimeframeStart now timeframe) p = true.
Proof.
  intros now timeframe limit s. split.
  - unfold getLeaderboard.
    rewrite (Permutation_length (sort_perm _ _)), length_map.
    apply firstn_le_length.
  - intros r Hr.
    destruct (leaderboard_rows _ _ _ _ _ Hr) as (u & Hu & -> & p & Hp & E1 & E2).
    exists u, p. repeat split; assumption.
Qed.

(** X26.  Every leaderboard row holds finite numbers: the net profit is
    the difference of two integer sums, the win rate is a percentage
    between 0 and 100, and the ROI is finite, being 0 when the user's
    total stake is 0 (no division by zero). *)
Theorem getLeaderboard_row_values :
  forall (now : Z) (timeframe : Timeframe) (limit : nat) (s : db)
         (r : LeaderboardRow.t),
    In r (getLeaderboard now timeframe limit s) ->
    (exists P S : Z,
        LeaderboardRow.totalPayout r = Num.of_Z P
        /\ LeaderboardRow.totalStake r = Num.of_Z S
        /\ LeaderboardRow.netProfit r = Fin (inject_Z P + - inject_Z S)
        /\ Num.finite (LeaderboardRow.roi r)
        /\ (S = 0%Z -> Num.same (LeaderboardRow.roi r) n0))
    /\ within 0 100 (LeaderboardRow.winRate r).
Proof.
  intros now timeframe limit s r Hr.
  destruct (leaderboard_rows _ _ _ _ _ Hr) as (u & _ & -> & _).
  apply leaderboard_row_values.
Qed.

(** *** Upserts *)

Section Upsert.
Context {A : Type} (key : A -> bool) (row : A) (key_row : key row = true).

Lemma replace_first_const_twice (l : list A) :
  replace_first key (fun _ => row) (replace_first key (fun _ => row) l)
  = replace_first key (fun _ => row) l.
Proof.
  induction l as [|x l IH]; simpl; [reflexivity|].
  destruct (key x) eqn:E; simpl.
  - now rewrite key_row.
  - now rewrite E, IH.
Qed.

Lemma existsb_replace_first (l : list A) :
  existsb key l = true ->
  existsb key (replace_first key (fun _ => row) l) = true.
Proof.
  induction l as [|x l IH]; simpl; [discriminate|].
  destruct (key x) eqn:E; simpl.
  - now rewrite key_row.
  - rewrite E. exact IH.
Qed.

Lemma replace_first_appended (l : list A) :
  existsb key l = false ->
  replace_first key (fun _ => row) (l ++ [row]) = (l ++ [row])%list.
Proof.
  induction l as [|x l IH]; simpl.
  - now rewrite key_row.
  - destruct (key x); simpl; [discriminate|].
    intros H. now rewrite IH.
Qed.

Lemma upsert_idempotent (l : list A) :
  upsert key row (upsert key row l) = upsert key row l.
Proof.
  unfold upsert at 2 3. destruct (existsb key l) eqn:E.
  - unfold upsert. rewrite existsb_replace_first by assumption.
    apply replace_first_const_twice.
  - unfold upsert. rewrite existsb_app. cbn [existsb].
    rewrite key_row, orb_true_r. now apply replace_first_appended.
Qed.

Lemma find_upsert (l : list A) : find key (upsert key row l) = Some row.
Proof.
  unfold upsert. destruct (existsb key l) eqn:E.
  - induction l as [|x l IH]; simpl in *; [discriminate|].
    destruct (key x) eqn:Ex; simpl.
    + now rewrite key_row.
    + rewrite Ex. now apply IH.
  - induction l as [|x l IH]; simpl in *.
    + now rewrite key_row.
    + destruct (key x) eqn:Ex; simpl in *; [discriminate|]. now apply IH.
Qed.

Lemma upsert_keeps_others (other : A -> bool) (l : list A) :
  (forall x, other x = true -> key x = false) ->
  filter other (upsert key row l) = filter other l.
Proof.
  intros Hother.
  assert (Hrow : other row = false).
  { destruct (other row) eqn:E; [|reflexivity].
    apply Hother in E. congruence. }
  unfold upsert. destruct (existsb key l).
  - induction l as [|x l IH]; simpl; [reflexivity|].
    destruct (key x) eqn:Ex; simpl.
    + rewrite Hrow. destruct (other x) eqn:Eo; [|reflexivity].
      apply Hother in Eo. congruence.
    + now rewrite IH.
  - rewrite filter_app. cbn [filter]. rewrite Hrow. apply app_nil_r.
Qed.
End Upsert.

(** X27.  [updatePollAnalytics] is an upsert on (poll, day): it leaves the
    day's row for the poll with [totalVotes] set to the number of
    predictions stored for the poll and [uniqueVoters] to the number of
    distinct users behind them, it leaves the rows of every other poll or
    day as they are, and running it again on the result changes nothing. *)
Theorem updatePollAnalytics_upsert :
  forall (now : Z) (pollId : string) (s : db),
    exists s' row,
      updatePollAnalytics now pollId s = (Ok tt, s')
      /\ find (analytics_key pollId (startOfDay now)) (pollAnalytics s')
         = Some row
      /\ PollAnalytics.totalVotes row
         = List.length
             (filter (fun p => String.eqb (Prediction.pollId p) pollId)
                (predictions s))
      /\ PollAnalytics.uniqueVoters row
         = distinct_users
             (filter (fun p => String.eqb (Prediction.pollId p) pollId)
                (predictions s))
      /\ filter (fun a => negb (analytics_key pollId (startOfDay now) a))
           (pollAnalytics s')
         = filter (fun a => negb (analytics_key pollId (startOfDay now) a))
             (pollAnalytics s)
      /\ updatePollAnalytics now pollId s' = (Ok tt, s').
Proof.
  intros now pollId s.
  unfold updatePollAnalytics. rewrite bind_gets.
  unfold Prisma.prediction_findMany.
  set (preds := filter _ (predictions s)).
  set (row := PollAnalytics.mk pollId (startOfDay now) (distinct_users preds)
                (List.length preds) _).
  assert (Hkey : analytics_key pollId (startOfDay now) row = true).
  { unfold analytics_key, row. cbn [PollAnalytics.pollId PollAnalytics.date].
    now rewrite String.eqb_refl, Z.eqb_refl. }
  exists (set_pollAnalytics (upsert (analytics_key pollId (startOfDay now)) row)
            s), row.
  split; [reflexivity|].
  cbn [pollAnalytics set_pollAnalytics].
  split; [now apply find_upsert|].
  split; [reflexivity|]. split; [reflexivity|].
  split.
  - apply (upsert_keeps_others _ row Hkey).
    intros x Hx. now apply negb_true_iff in Hx.
  - rewrite bind_gets. cbn [predictions set_pollAnalytics].
    fold preds. fold row.
    change (modify
              (set_pollAnalytics
                 (upsert (analytics_key pollId (startOfDay now)) row))
              (set_pollAnalytics
                 (upsert (analytics_key pollId (startOfDay now)) row) s)
            = (Ok tt,
               set_pollAnalytics
                 (upsert (analytics_key pollId (startOfDay now)) row) s)).
    unfold modify, set_pollAnalytics.
    cbn [polls pollOptions pollOptionTranslations predictions users
         voteSnapshots pollAnalytics achievements userAchievements
         notifications].
    now rewrite (upsert_idempotent _ row Hkey).
Qed.

(** *** Achievements *)

Lemma find_replace_first_hit {A : Type} (key : A -> bool) (f : A -> A)
    (row : A) (l : list A) :
  key row = true -> (forall x, key x = true -> f x = row) ->
  existsb key l = true ->
  find key (replace_first key f l) = Some row.
Proof.
  intros Hrow Hf. induction l as [|x l IH]; simpl; [discriminate|].
  destruct (key x) eqn:E; simpl.
  - intros _. rewrite (Hf x E), Hrow. reflexivity.
  - rewrite E. exact IH.
Qed.

Lemma find_appended {A : Type} (key : A -> bool) (row : A) (l : list A) :
  key row = true -> existsb key l = false ->
  find key (l ++ [row]) = Some row.
Proof.
  intros Hrow. induction l as [|x l IH]; simpl.
  - now rewrite Hrow.
  - destruct (key x); simpl; [discriminate | exact IH].
Qed.

Lemma unlockAchievement_effect (userId name : string) (s : db) :
  match find (fun a => String.eqb (Achievement.name a) name)
          (achievements s) with
  | None => unlockAchievement userId name s = (Ok tt, s)
  | Some a =>
      exists s',
        unlockAchievement userId name s = (Ok tt, s')
        /\ find (unlock_key userId (Achievement.id a)) (userAchievements s')
           = Some (UserAchievement.mk userId (Achievement.id a) true)
        /\ notifications s'
           = (notifications s ++ [unlock_notice userId a])%list
        /\ same_core s s'
  end.
Proof.
  unfold unlockAchievement. rewrite bind_gets.
  destruct (find _ (achievements s)) as [a|]; [|reflexivity].
  eexists. split; [reflexivity|].
  cbn [userAchievements notifications set_notifications set_userAchievements].
  split; [|split; [reflexivity | now repeat split]].
  fold (unlock_key userId (Achievement.id a)).
  assert (Hrow : unlock_key userId (Achievement.id a)
                   (UserAchievement.mk userId (Achievement.id a) true) = true).
  { unfold unlock_key. cbn. now rewrite !String.eqb_refl. }
  destruct (existsb _ (userAchievements s)) eqn:E.
  - apply find_replace_first_hit; [assumption | | assumption].
    intros x Hx. unfold unlock_key in Hx.
    apply andb_prop in Hx as (H1 & H2).
    apply String.eqb_eq in H1, H2. now rewrite H1, H2.
  - now apply find_appended.
Qed.

(** X28.  [unlockAchievement] does nothing for a name that is not in the
    achievement table; for a known achievement it leaves the user's row for
    it completed (a single row under the key, created or updated) and
    appends one ACHIEVEMENT_UNLOCKED notification for the user, whether or
    not the achievement had been unlocked before. *)
Theorem unlockAchievement_upsert :
  forall (userId name : string) (s : db),
    match find (fun a => String.eqb (Achievement.name a) name)
            (achievements s) with
    | None => unlockAchievement userId name s = (Ok tt, s)
    | Some a =>
        exists s',
          unlockAchievement userId name s = (Ok tt, s')
          /\ find (unlock_key userId (Achievement.id a)) (userAchievements s')
             = Some (UserAchievement.mk userId (Achievement.id a) true)
          /\ notifications s'
             = (notifications s ++ [unlock_notice userId a])%list
          /\ same_core s s'
    end.
Proof. exact unlockAchievement_effect. Qed.

Lemma checkPredictionAchievements_milestone (userId : string) (s : db) :
  checkPredictionAchievements userId s
  = match milestone (predictions_of userId s) with
    | Some name => unlockAchievement userId name s
    | None => (Ok tt, s)
    end.
Proof.
  unfold checkPredictionAchievements. rewrite bind_gets. cbv beta.
  fold (predictions_of userId s). unfold milestone.
  destruct (Nat.eqb_spec (predictions_of userId s) 1) as [->|H1].
  - cbn [Nat.eqb app for_of].
    unfold bind. destruct (unlockAchievement userId "first_prediction" s)
      as ([[]|e], s1); reflexivity.
  - destruct (Nat.eqb_spec (predictions_of userId s) 10) as [->|H10].
    + cbn [Nat.eqb app for_of].
      unfold bind. destruct (unlockAchievement userId "prediction_novice" s)
        as ([[]|e], s1); reflexivity.
    + destruct (Nat.eqb_spec (predictions_of userId s) 100) as [E100|H100].
      * cbn [app for_of].
        unfold bind.
        destruct (unlockAchievement userId "prediction_expert" s)
          as ([[]|e], s1); reflexivity.
      * reflexivity.
Qed.

Lemma updatePollAnalytics_closed (now : Z) (pollId : string) (s : db) :
  exists F, updatePollAnalytics now pollId s = (Ok tt, set_pollAnalytics F s).
Proof.
  unfold updatePollAnalytics. rewrite bind_gets. eexists. reflexivity.
Qed.

(** The steps of an accepted submission after the prediction write. *)
Lemma createPrediction_steps (now : Z) (uuid : string)
    (payload : PredictionPayload.t) (s s' : db) (r : Prediction.t) :
  createPrediction now uuid payload s = (Ok r, s') ->
  exists s2,
    checkPredictionAchievements (PredictionPayload.userId payload) s2
    = (Ok tt, s')
    /\ predictions s2 = predictions s'
    /\ achievements s2 = achievements s
    /\ userAchievements s2 = userAchievements s
    /\ notifications s2 = notifications s.
Proof.
  intros Hrun.
  destruct (createPrediction_cases now uuid payload s)
    as [(m & _ & Hrun' & _)|(_ & _ & Hrun')]; [congruence|].
  rewrite Hrun in Hrun'. symmetry in Hrun'.
  unfold bind at 1 in Hrun'.
  match type of Hrun' with
  | context [match ?c s with _ => _ end] =>
      assert (Hw : exists g, c s = (Throw g, s)
                             \/ exists row f, c s = (Ok row, set_predictions f s))
  end.
  { destruct (Prisma.prediction_findUnique _ _ s).
    - unfold Prisma.prediction_update.
      destruct (Prisma.prediction_findById _ s);
        exists (RecordNotFound "Prediction"); [right; eauto | now left].
    - unfold Prisma.prediction_create.
      destruct (existsb _ (predictions s));
        exists (UniqueConstraint "Prediction"); [now left | right; eauto]. }
  destruct Hw as (g & [Hw|(row & f & Hw)]); rewrite Hw in Hrun';
    [discriminate|].
  unfold updateMarketOdds in Hrun'.
  change (bind (ret tt) ?k ?st) with (k tt st) in Hrun'. cbv beta in Hrun'.
  destruct (updatePollAnalytics_closed now (PredictionPayload.pollId payload)
              (set_predictions f s)) as (F & HF).
  rewrite (bind_ok _ _ _ _ _ HF) in Hrun'.
  set (s2 := set_pollAnalytics F (set_predictions f s)) in *.
  destruct (checkPredictionAchievements_core
              (PredictionPayload.userId payload) s2)
    as (s3 & E3 & (_ & _ & _ & P3 & _)).
  rewrite (bind_ok _ _ _ _ _ E3) in Hrun'.
  injection Hrun' as _ <-.
  exists s2. split; [exact E3|]. split; [now rewrite P3|].
  now repeat split.
Qed.

(** X29.  The first prediction a user ever submits unlocks the
    "first_prediction" achievement when the achievement table has it: the
    user's row for it is completed and one ACHIEVEMENT_UNLOCKED
    notification is appended. *)
Theorem createPrediction_first_prediction :
  forall (now : Z) (uuid : string) (payload : PredictionPayload.t)
         (s s' : db) (r : Prediction.t) (a : Achievement.t),
    (forall p, In p (predictions s) ->
               Prediction.userId p <> PredictionPayload.userId payload) ->
    find (fun a => String.eqb (Achievement.name a) "first_prediction")
      (achievements s) = Some a ->
    createPrediction now uuid payload s = (Ok r, s') ->
    find (unlock_key (PredictionPayload.userId payload) (Achievement.id a))
      (userAchievements s')
    = Some (UserAchievement.mk (PredictionPayload.userId payload)
              (Achievement.id a) true)
    /\ notifications s'
       = (notifications s
            ++ [unlock_notice (PredictionPayload.userId payload) a])%list.
Proof.
  intros now uuid payload s s' r a Hnone Ha Hrun.
  destruct (createPrediction_steps _ _ _ _ _ _ Hrun)
    as (s2 & Hcheck & Hp & Hach & Hua & Hn).
  destruct (createPrediction_table _ _ _ _ _ _ Hrun)
    as (_ & _ & _ & _ & _ & [(ex & row & Hex & _)|(_ & _ & -> & Ht)]).
  { apply prediction_findUnique_In in Hex as (Hin & Hu & _).
    exfalso. exact (Hnone ex Hin Hu). }
  assert (Hcount : predictions_of (PredictionPayload.userId payload) s2 = 1%nat).
  { unfold predictions_of, Prisma.prediction_findMany.
    rewrite Hp, Ht, filter_app, filter_nil.
    - cbn [filter new_row Prediction.userId app].
      now rewrite String.eqb_refl.
    - intros p Hin. apply String.eqb_neq. now apply Hnone. }
  rewrite checkPredictionAchievements_milestone, Hcount in Hcheck.
  cbn [milestone Nat.eqb] in Hcheck.
  pose proof (unlockAchievement_effect (PredictionPayload.userId payload)
                "first_prediction" s2) as Heff.
  rewrite Hach, Ha in Heff.
  destruct Heff as (s3 & Hrun3 & Hfind & Hnot & _).
  rewrite Hcheck in Hrun3. injection Hrun3 as <-.
  split; [exact Hfind|]. now rewrite Hnot, Hn.
Qed.

(** X30.  A submission writes achievements and notifications at the
    milestones only: when the user's number of stored predictions after
    the write is none of 1, 10 and 100, the achievement rows and the
    notifications are those from before the call. *)
Theorem createPrediction_between_milestones :
  forall (now : Z) (uuid : string) (payload : PredictionPayload.t)
         (s s' : db) (r : Prediction.t),
    createPrediction now uuid payload s = (Ok r, s') ->
    milestone (predictions_of (PredictionPayload.userId payload) s') = None ->
    userAchievements s' = userAchievements s
    /\ notifications s' = notifications s.
Proof.
  intros now uuid payload s s' r Hrun Hnone.
  destruct (createPrediction_steps _ _ _ _ _ _ Hrun)
    as (s2 & Hcheck & Hp & _ & Hua & Hn).
  assert (Hcount : predictions_of (PredictionPayload.userId payload) s2
                   = predictions_of (PredictionPayload.userId payload) s')
    by (unfold predictions_of, Prisma.prediction_findMany; now rewrite Hp).
  rewrite checkPredictionAchievements_milestone, Hcount, Hnone in Hcheck.
  injection Hcheck as <-. now split.
Qed.

(** *** The properties at work on the sample stores *)

Lemma resubmission_one_per_user_and_poll :
  one_per_user_and_poll Resubmission.store.
Proof.
  unfold one_per_user_and_poll. simpl. repeat constructor. simpl. tauto.
Defined.

Lemma resubmission_stakes_in_range : stakes_in_range Resubmission.store.
Proof.
  intros p [<-|[]]. unfold MIN_PREDICTION, MAX_PREDICTION. simpl.
  split; split; lia || lra.
Defined.

Lemma one_sided_ids_unique : ids_unique Scenario.one_sided.
Proof.
  unfold ids_unique. simpl. repeat constructor. simpl. tauto.
Defined.

Lemma one_sided_one_per_user_and_poll :
  one_per_user_and_poll Scenario.one_sided.
Proof.
  unfold one_per_user_and_poll. simpl. repeat constructor. simpl. tauto.
Defined.

Lemma scenario_stakes_in_range : stakes_in_range Scenario.market.
Proof.
  intros p [<-|[<-|[]]]; unfold MIN_PREDICTION, MAX_PREDICTION; simpl;
    split; split; lia || lra.
Defined.

Lemma scenario_reputations :
  forall u, In u (users Scenario.market) -> (-1000 < User.reputation u)%Z.
Proof.
  intros u [<-|[<-|[]]]; simpl; lia.
Defined.


Lemma createPrediction_invalid_rejected_witness :
  exists m,
    In m validation_messages
    /\ createPrediction Resubmission.submitted_at "fresh"
         (PredictionPayload.mk "userX" "poll" "A" (2 # 1) 100 None)
         Scenario.market
       = (Throw (Error m), Scenario.market).
Proof.
  apply createPrediction_invalid_rejected.
  intros (((_ & H) & _) & _). simpl in H. apply Qle_bool_iff in H.
  discriminate H.
Defined.



Lemma createPrediction_keeps_invariants_witness :
  let s' := snd (createPrediction Resubmission.submitted_at "fresh"
                   Resubmission.payload Resubmission.store) in
  (ids_unique s' /\ one_per_user_and_poll s') /\ stakes_in_range s'.
Proof.
  destruct (createPrediction_keeps_invariants Resubmission.submitted_at
              "fresh" Resubmission.payload Resubmission.store _ _ eq_refl)
    as (H1 & H2).
  split.
  - exact (H1 resubmission_ids_unique resubmission_one_per_user_and_poll).
  - exact (H2 resubmission_stakes_in_range).
Defined.

Lemma createPrediction_twice_witness :
  let s1 := snd (createPrediction 3000 "u1" Achievements.payload
                   Scenario.one_sided) in
  let run2 := createPrediction 4000 "u2" Resubmission.payload s1 in
  exists r2,
    fst run2 = Ok r2
    /\ rows_of "userX" "poll" (snd run2) = [r2]
    /\ Prediction.id r2 = "u1"
    /\ Prediction.optionId r2 = "B"
    /\ Prediction.points r2 = 20%Z
    /\ Prediction.createdAt r2 = 4000%Z.
Proof.
  destruct (createPrediction_twice 3000 4000 "u1" "u2" Achievements.payload
              Resubmission.payload Scenario.one_sided _ _ _ _
              one_sided_ids_unique one_sided_one_per_user_and_poll
              eq_refl eq_refl eq_refl eq_refl)
    as (H1 & H2 & _ & H4 & _ & H6 & H7).
  eexists. split; [reflexivity|].
  split; [exact H1|]. split; [exact H2|]. split; [exact H4|].
  split; [exact H6 | exact H7].
Defined.

Lemma createPrediction_frame_witness :
  let s' := snd (createPrediction 3000 "u1" Achievements.payload
                   Scenario.one_sided) in
  users s' = users Scenario.one_sided
  /\ In Scenario.predictionY (predictions s').
Proof.
  destruct (createPrediction_frame 3000 "u1" Achievements.payload
              Scenario.one_sided _ _ one_sided_ids_unique eq_refl)
    as (_ & _ & H3 & _ & H5).
  split; [exact H3|].
  apply H5; [now left|]. intros (H & _). discriminate H.
Defined.

Lemma resolvePoll_error_writes_nothing_witness :
  snd (resolvePoll 6000 "poll" "A" "admin" Board.store) = Board.store
  /\ (("Poll already resolved" = "Poll not found"
       /\ Prisma.poll_findUnique "poll" Board.store = None)
      \/ ("Poll already resolved" = "Poll already resolved"
          /\ exists poll t,
               Prisma.poll_findUnique "poll" Board.store = Some poll
               /\ Poll.resolvedAt poll = Some t)).
Proof.
  apply (resolvePoll_error_writes_nothing 6000 "poll" "A" "admin" Board.store).
  reflexivity.
Defined.

Lemma resolvePoll_closes_poll_witness :
  let s' := snd (resolvePoll Scenario.resolved_at "poll" "A" "admin"
                   Scenario.market) in
  (exists poll,
      Prisma.poll_findUnique "poll" Scenario.market = Some poll
      /\ Prisma.poll_findUnique "poll" s'
         = Some (Poll.mk (Poll.id poll) (Poll.expiresAt poll)
                   (Some Scenario.resolved_at) (Some "A") (Some "admin")
                   false))
  /\ forall other, other <> "poll" ->
       Prisma.poll_findUnique other s'
       = Prisma.poll_findUnique other Scenario.market.
Proof.
  apply (resolvePoll_closes_poll Scenario.resolved_at "poll" "A" "admin"
           Scenario.market _ scenario_users_linked eq_refl).
Defined.

Lemma resolvePoll_then_createPrediction_witness :
  let s' := snd (resolvePoll Scenario.resolved_at "poll" "A" "admin"
                   Scenario.market) in
  createPrediction 6000 "fresh" Resubmission.payload s'
  = (Throw (Error "Poll is not active"), s').
Proof.
  apply (resolvePoll_then_createPrediction Scenario.resolved_at 6000 "poll"
           "A" "admin" "fresh" Scenario.market _ Resubmission.payload
           scenario_users_linked eq_refl).
  - unfold payload_in_range, MIN_PREDICTION, MAX_PREDICTION. simpl.
    split; split; lia || lra.
  - reflexivity.
Defined.


Lemma resolvePoll_keeps_stakes_witness :
  let s' := snd (resolvePoll Scenario.resolved_at "poll" "A" "admin"
                   Scenario.market) in
  map stake_of (predictions s') = map stake_of (predictions Scenario.market)
  /\ map Prediction.reasoning (predictions s')
     = map Prediction.reasoning (predictions Scenario.market).
Proof.
  apply (resolvePoll_keeps_stakes Scenario.resolved_at "poll" "A" "admin"
           Scenario.market _ scenario_users_linked eq_refl).
Defined.

Lemma resolvePoll_leaves_none_open_witness :
  unresolved_on "poll"
    (snd (resolvePoll Scenario.resolved_at "poll" "A" "admin"
            Scenario.market)) = [].
Proof.
  apply (resolvePoll_leaves_none_open Scenario.resolved_at "poll" "A" "admin"
           Scenario.market _ scenario_ids_unique scenario_users_linked
           eq_refl).
  intros H. discriminate H.
Defined.



Lemma scenario_backed :
  exists o p, In o (poll_options "poll" Scenario.market)
              /\ In p (option_predictions Scenario.market o).
Proof.
  exists Scenario.optionA, Scenario.predictionX.
  split; now left.
Defined.

Lemma getMarketOdds_descending_witness :
  exists odds,
    getMarketOdds 3000 "poll" Scenario.market = Ok odds
    /\ StronglySorted (at_least MarketOdds.probability) odds.
Proof.
  apply (getMarketOdds_descending 3000 "poll" Scenario.market Scenario.poll
           eq_refl scenario_valid_stakes scenario_backed).
Defined.


Lemma calculateMarketEfficiency_bounds_witness :
  Num.same
    (calculateMarketEfficiency
       [(Scenario.predictionX, Scenario.userX);
        (Scenario.predictionX, Scenario.userY)]) n1.
Proof.
  apply (proj2 (calculateMarketEfficiency_bounds
                  [(Scenario.predictionX, Scenario.userX);
                   (Scenario.predictionX, Scenario.userY)]) (9 # 10)).
  intros pu [<-|[<-|[]]]; reflexivity.
Defined.

Lemma calculateLiquidityIndex_bounds_witness :
  exists q,
    calculateLiquidityIndex (Num.of_Z 150) (Num.of_nat 2) = Fin q
    /\ 0 <= q <= 1
    /\ ((10000 <= 150)%Z -> (100 <= 2)%nat -> q == 1).
Proof.
  apply (calculateLiquidityIndex_bounds 150 2). lia.
Defined.



Lemma calculateVolatility_nonnegative_witness :
  Num.same (calculateVolatility "poll" Flat.store) n0.
Proof.
  apply (proj2 (calculateVolatility_nonnegative "poll" Flat.store) (55 # 1)).
  intros v [<-|[<-|[]]] _; reflexivity.
Defined.

Lemma getMarketAnalytics_in_range_witness :
  exists a,
    getMarketAnalytics "poll" Scenario.market = Ok a
    /\ MarketAnalytics.totalVolume a = Num.of_Z 150
    /\ MarketAnalytics.uniquePredictors a = Num.of_nat 2
    /\ within 0 1 (MarketAnalytics.averageConfidence a)
    /\ within 0 1 (MarketAnalytics.consensusProbability a)
    /\ within 0 1 (MarketAnalytics.marketEfficiency a)
    /\ within 0 1 (MarketAnalytics.liquidityIndex a)
    /\ nonnegative (MarketAnalytics.volatility a).
Proof.
  apply (getMarketAnalytics_in_range "poll" Scenario.market
           scenario_users_linked scenario_stakes_in_range
           scenario_reputations).
Defined.

Lemma board_first_row :
  exists r rest, getLeaderboard 6000 all 1 Board.store = r :: rest.
Proof.
  eexists. eexists. vm_compute. reflexivity.
Defined.

Lemma getLeaderboard_rows_witness :
  exists r u p,
    In r (getLeaderboard 6000 all 1 Board.store)
    /\ In u (users Board.store) /\ LeaderboardRow.userId r = User.id u
    /\ In p (predictions Board.store)
    /\ Prediction.userId p = User.id u
    /\ in_scope (getTimeframeStart 6000 all) p = true.
Proof.
  destruct board_first_row as (r & rest & E).
  assert (Hin : In r (getLeaderboard 6000 all 1 Board.store))
    by (rewrite E; now left).
  destruct (proj2 (getLeaderboard_rows 6000 all 1 Board.store) r Hin)
    as (u & p & H).
  exists r, u, p. split; [exact Hin | exact H].
Defined.

Lemma getLeaderboard_row_values_witness :
  exists r,
    In r (getLeaderboard 6000 all 1 Board.store)
    /\ within 0 100 (LeaderboardRow.winRate r).
Proof.
  destruct board_first_row as (r & rest & E).
  exists r.
  assert (Hin : In r (getLeaderboard 6000 all 1 Board.store))
    by (rewrite E; now left).
  split; [exact Hin|].
  exact (proj2 (getLeaderboard_row_values 6000 all 1 Board.store r Hin)).
Defined.

Lemma createPrediction_first_prediction_witness :
  let s' := snd (createPrediction 3000 "u1" Achievements.payload
                   Achievements.store) in
  find (unlock_key "userX" "a1") (userAchievements s')
  = Some (UserAchievement.mk "userX" "a1" true)
  /\ notifications s'
     = [unlock_notice "userX" (Achievement.mk "a1" "first_prediction")].
Proof.
  assert (H : forall p, In p (predictions Achievements.store) ->
            Prediction.userId p
            <> PredictionPayload.userId Achievements.payload).
  { intros p [<-|[]] E. discriminate E. }
  exact (createPrediction_first_prediction 3000 "u1" Achievements.payload
           Achievements.store _ _ (Achievement.mk "a1" "first_prediction")
           H eq_refl eq_refl).
Defined.

Lemma createPrediction_between_milestones_witness :
  let s' := snd (createPrediction 3000 "u1" Achievements.payload
                   Veteran.store) in
  userAchievements s' = userAchievements Veteran.store
  /\ notifications s' = notifications Veteran.store.
Proof.
  apply (createPrediction_between_milestones 3000 "u1" Achievements.payload
           Veteran.store _ _ eq_refl).
  reflexivity.
Defined.
